(** * EFM32 temperature / humidity firmware: scheduler, sleep arbiter, I2C engine

    A shallow embedding of [scheduler.c], [sleep_routines.c] and [i2c.c].
    The firmware keeps its state in module-level statics and in the
    memory-mapped registers of the two I2C controllers; the embedding
    gathers them in one record [world] and threads it through a small
    state-and-failure monad.

    Unsigned 32-bit quantities are integers with the wrap-around written
    out ([wrap32]).  The critical-section macros are identities here: an
    interrupt is a step of its own that runs between two calls, never in
    the middle of one. *)

From stdpp Require Import base numbers list list_numbers functions.

Local Open Scope Z_scope.

(** ** Machine words *)

Definition wrap32 (z : Z) : Z := z mod 2 ^ 32.

Definition is_uint32 (z : Z) : Prop := 0 <= z < 2 ^ 32.

(** [~x] on a [uint32_t]. *)
Definition not32 (z : Z) : Z := wrap32 (Z.lnot z).

Definition INT_MAX : Z := 2 ^ 31 - 1.
Definition INT_MIN : Z := - 2 ^ 31.

(** ** Constants of the headers *)

(** [sleep_routines.h] *)
Definition EM0 : Z := 0.
Definition EM1 : Z := 1.
Definition EM2 : Z := 2.
Definition EM3 : Z := 3.
Definition EM4 : Z := 4.
Definition MAX_ENERGY_MODES : Z := 5.

(** [i2c.h] *)
Definition I2C_EM : Z := EM2.
Definition I2C_R : Z := 1.
Definition I2C_W : Z := 0.

Inductive I2C_COMM_METHOD_TypeDef := I2C_READ | I2C_WRITE.

Inductive DEFINED_STATES :=
| initialize
| send_register
| request_read
| read_data
| write_data
| send_stop
| end_process.

Global Instance DEFINED_STATES_eq_dec : EqDecision DEFINED_STATES.
Proof. solve_decision. Defined.

Global Instance I2C_COMM_METHOD_eq_dec : EqDecision I2C_COMM_METHOD_TypeDef.
Proof. solve_decision. Defined.

(** The record a caller hands to [i2c_start].  [data] is the address of
    the caller-owned word. *)
Record I2C_START_STRUCT := {
  ss_which_i2c : bool;
  ss_comm_method : I2C_COMM_METHOD_TypeDef;
  ss_device_address : Z;
  ss_register_address : Z;
  ss_num_bytes : Z;
  ss_finished_callback : Z;
  ss_data : Z;
  ss_num_register_bytes : Z
}.

Record I2C_STATE_MACHINE_STRUCT := {
  current_state : DEFINED_STATES;
  which_i2c : bool;
  device_address : Z;
  register_address : Z;
  num_bytes : Z;
  finished_callback : Z;
  comm_method : I2C_COMM_METHOD_TypeDef;
  busy : bool;
  data : Z;
  byte_counter : Z;
  num_register_bytes : Z;
  register_byte_counter : Z
}.

(** ** The I2C peripheral

    The vendor header with the register layout is not part of the
    repository.  The four interrupt flags the driver uses are kept as a
    record of booleans (one field per [I2C_IF_*] bit) and the commands as
    an enumeration (one constructor per [I2C_CMD_*] value). *)

Record irq_flags := {
  RXDATAV : bool;
  ACK : bool;
  NACK : bool;
  MSTOP : bool
}.

Definition irq_and (a b : irq_flags) : irq_flags :=
  {| RXDATAV := RXDATAV a && RXDATAV b; ACK := ACK a && ACK b;
     NACK := NACK a && NACK b; MSTOP := MSTOP a && MSTOP b |}.

Definition irq_or (a b : irq_flags) : irq_flags :=
  {| RXDATAV := RXDATAV a || RXDATAV b; ACK := ACK a || ACK b;
     NACK := NACK a || NACK b; MSTOP := MSTOP a || MSTOP b |}.

(** The effect on [IF] of writing [c] to [IFC]. *)
Definition irq_clear (a c : irq_flags) : irq_flags :=
  {| RXDATAV := RXDATAV a && negb (RXDATAV c); ACK := ACK a && negb (ACK c);
     NACK := NACK a && negb (NACK c); MSTOP := MSTOP a && negb (MSTOP c) |}.

Definition irq_none : irq_flags :=
  {| RXDATAV := false; ACK := false; NACK := false; MSTOP := false |}.

Definition irq_all : irq_flags :=
  {| RXDATAV := true; ACK := true; NACK := true; MSTOP := true |}.

Inductive i2c_cmd :=
| I2C_CMD_START
| I2C_CMD_STOP
| I2C_CMD_ACK
| I2C_CMD_NACK
| I2C_CMD_ABORT
| I2C_CMD_CLEARTX.

(** The registers the driver reads.  [STATE_IDLE] tells whether the state
    field of [STATE] reads [I2C_STATE_STATE_IDLE]. *)
Record I2C_TypeDef := {
  IF : irq_flags;
  IEN : irq_flags;
  RXDATA : Z;
  STATE_IDLE : bool
}.

(** ** History

    What the firmware does to the outside, in program order: the writes to
    the write-only registers [CMD] and [TXDATA] of a bus ([false] is I2C0,
    [true] is I2C1), the events handed to the scheduler, the sleep modes
    blocked and released, and the changes of a bus's [busy] flag. *)
Inductive event :=
| EvCMD (bus : bool) (c : i2c_cmd)
| EvTXDATA (bus : bool) (v : Z)
| EvPost (e : Z)
| EvBlock (em : Z)
| EvUnblock (em : Z)
| EvBusy (bus : bool) (b : bool).

(** ** The world *)

Record world := {
  event_scheduled : Z;
  lowest_energy_mode : list Z;
  i2c0_state_machine : I2C_STATE_MACHINE_STRUCT;
  i2c1_state_machine : I2C_STATE_MACHINE_STRUCT;
  I2C0 : I2C_TypeDef;
  I2C1 : I2C_TypeDef;
  mem : Z -> Z;
  history : list event
}.

Definition set_event_scheduled (v : Z) (w : world) : world :=
  {| event_scheduled := v; lowest_energy_mode := lowest_energy_mode w;
     i2c0_state_machine := i2c0_state_machine w;
     i2c1_state_machine := i2c1_state_machine w;
     I2C0 := I2C0 w; I2C1 := I2C1 w; mem := mem w; history := history w |}.

Definition set_lowest_energy_mode (v : list Z) (w : world) : world :=
  {| event_scheduled := event_scheduled w; lowest_energy_mode := v;
     i2c0_state_machine := i2c0_state_machine w;
     i2c1_state_machine := i2c1_state_machine w;
     I2C0 := I2C0 w; I2C1 := I2C1 w; mem := mem w; history := history w |}.

Definition set_sm (bus : bool) (v : I2C_STATE_MACHINE_STRUCT) (w : world) : world :=
  {| event_scheduled := event_scheduled w;
     lowest_energy_mode := lowest_energy_mode w;
     i2c0_state_machine := if bus then i2c0_state_machine w else v;
     i2c1_state_machine := if bus then v else i2c1_state_machine w;
     I2C0 := I2C0 w; I2C1 := I2C1 w; mem := mem w; history := history w |}.

Definition set_periph (bus : bool) (v : I2C_TypeDef) (w : world) : world :=
  {| event_scheduled := event_scheduled w;
     lowest_energy_mode := lowest_energy_mode w;
     i2c0_state_machine := i2c0_state_machine w;
     i2c1_state_machine := i2c1_state_machine w;
     I2C0 := if bus then I2C0 w else v;
     I2C1 := if bus then v else I2C1 w;
     mem := mem w; history := history w |}.

Definition set_mem (v : Z -> Z) (w : world) : world :=
  {| event_scheduled := event_scheduled w;
     lowest_energy_mode := lowest_energy_mode w;
     i2c0_state_machine := i2c0_state_machine w;
     i2c1_state_machine := i2c1_state_machine w;
     I2C0 := I2C0 w; I2C1 := I2C1 w; mem := v; history := history w |}.

Definition emit (e : event) (w : world) : world :=
  {| event_scheduled := event_scheduled w;
     lowest_energy_mode := lowest_energy_mode w;
     i2c0_state_machine := i2c0_state_machine w;
     i2c1_state_machine := i2c1_state_machine w;
     I2C0 := I2C0 w; I2C1 := I2C1 w; mem := mem w;
     history := history w ++ [e] |}.

Definition sm_of (bus : bool) (w : world) : I2C_STATE_MACHINE_STRUCT :=
  if bus then i2c1_state_machine w else i2c0_state_machine w.

Definition periph_of (bus : bool) (w : world) : I2C_TypeDef :=
  if bus then I2C1 w else I2C0 w.

(** ** The monad

    A call either returns, or stops the system in a failed assertion, or
    has no defined behaviour in C (an index outside an array, a shift by
    the width of the type or more, a signed overflow), or stays in a
    busy-wait loop that nothing in the call itself can end. *)
Inductive result (A : Type) :=
| Ret (a : A) (w : world)
| Halt (w : world)
| Undef
| Spin.

Arguments Ret {A} a w.
Arguments Halt {A} w.
Arguments Undef {A}.
Arguments Spin {A}.

Definition M (A : Type) : Type := world -> result A.

Definition ret {A} (a : A) : M A := fun w => Ret a w.

Definition bind {A B} (m : M A) (k : A -> M B) : M B := fun w =>
  match m w with
  | Ret a w' => k a w'
  | Halt w' => Halt w'
  | Undef => Undef
  | Spin => Spin
  end.

Notation "'do' x <- m ; k" := (bind m (fun x => k))
  (at level 10, x name, m at level 100, k at level 200).
Notation "'do_' m ; k" := (bind m (fun _ => k))
  (at level 10, m at level 100, k at level 200).

Definition get : M world := fun w => Ret w w.
Definition modify (f : world -> world) : M unit := fun w => Ret tt (f w).
Definition undef {A} : M A := fun _ => Undef.
Definition spin {A} : M A := fun _ => Spin.

(** Modelled from the spec: [EFM_ASSERT] comes from the vendor library,
    which is not part of the repository.  A failed assertion is fatal: the
    system halts where it is. *)
Definition EFM_ASSERT (b : bool) : M unit := fun w =>
  if b then Ret tt w else Halt w.

Fixpoint foldM {A S} (body : S -> A -> M S) (l : list A) (s : S) : M S :=
  match l with
  | [] => ret s
  | a :: l' => do s' <- body s a; foldM body l' s'
  end.

(** The same call [n] times in a row. *)
Fixpoint repeatM (n : nat) (m : M unit) : M unit :=
  match n with
  | O => ret tt
  | S n' => do_ m; repeatM n' m
  end.

(** ** scheduler.c *)

Definition scheduler_open : M unit :=
  modify (set_event_scheduled 0).

Definition add_scheduled_event (event : Z) : M unit :=
  do w <- get;
  do_ modify (set_event_scheduled (Z.lor (event_scheduled w) event));
  modify (emit (EvPost event)).

Definition remove_scheduled_event (event : Z) : M unit :=
  do w <- get;
  modify (set_event_scheduled (Z.land (event_scheduled w) (not32 event))).

Definition get_scheduled_events : M Z :=
  do w <- get; ret (event_scheduled w).

(** ** sleep_routines.c *)

(** [lowest_energy_mode[i]] as an rvalue. *)
Definition lem_read (i : Z) : M Z := fun w =>
  if i <? 0 then Undef else
  match lowest_energy_mode w !! Z.to_nat i with
  | Some c => Ret c w
  | None => Undef
  end.

(** [lowest_energy_mode[i] = v]. *)
Definition lem_write (i v : Z) : M unit := fun w =>
  if i <? 0 then Undef else
  match lowest_energy_mode w !! Z.to_nat i with
  | Some _ => Ret tt (set_lowest_energy_mode (<[Z.to_nat i := v]> (lowest_energy_mode w)) w)
  | None => Undef
  end.

Definition sleep_open : M unit :=
  foldM (fun _ i => lem_write i 0) (seqZ 0 MAX_ENERGY_MODES) tt.

Definition sleep_block_mode (EM : Z) : M unit :=
  do c <- lem_read EM;
  do_ (if c =? INT_MAX then undef else lem_write EM (c + 1));
  do_ modify (emit (EvBlock EM));
  do c' <- lem_read EM;
  EFM_ASSERT (c' <? 5).

Definition sleep_unblock_mode (EM : Z) : M unit :=
  do c <- lem_read EM;
  do_ (if c =? INT_MIN then undef else lem_write EM (c - 1));
  do_ modify (emit (EvUnblock EM));
  do c' <- lem_read EM;
  EFM_ASSERT (0 <=? c').

Definition current_block_energy_mode : M Z :=
  do r <- foldM (fun '(selected_em, done) i =>
                   if negb done then
                     do c <- lem_read i;
                     if 0 <? c then ret (i, true) else ret (selected_em, done)
                   else ret (selected_em, done))
                (seqZ 0 MAX_ENERGY_MODES) (EM4, false);
  ret (fst r).

(** The call into the vendor's energy-management unit that [enter_sleep]
    makes before it returns, if any.  What the call does to the processor
    is outside the firmware; the embedding returns which call was made. *)
Inductive emu_call :=
| EMU_none
| EMU_EnterEM1
| EMU_EnterEM2 (restore : bool)
| EMU_EnterEM3 (restore : bool).

Definition enter_sleep : M emu_call :=
  do c0 <- lem_read EM0;
  if negb (c0 =? 0) then ret EMU_none else
  do c1 <- lem_read EM1;
  if negb (c1 =? 0) then ret EMU_none else
  do c2 <- lem_read EM2;
  if negb (c2 =? 0) then ret EMU_EnterEM1 else
  do c3 <- lem_read EM3;
  if negb (c3 =? 0) then ret (EMU_EnterEM2 true) else
  ret (EMU_EnterEM3 true).

(** ** i2c.c *)

(** Accessors for the state machine and the peripheral behind the two
    pointers a handler receives.  The handlers are only ever called with
    the state machine and the peripheral of one bus, so one bus selector
    stands for the pair. *)
Definition get_sm (bus : bool) : M I2C_STATE_MACHINE_STRUCT :=
  do w <- get; ret (sm_of bus w).

Definition set_current_state (bus : bool) (v : DEFINED_STATES) : M unit :=
  do sm <- get_sm bus;
  modify (set_sm bus
    {| current_state := v; which_i2c := which_i2c sm;
       device_address := device_address sm;
       register_address := register_address sm; num_bytes := num_bytes sm;
       finished_callback := finished_callback sm;
       comm_method := comm_method sm; busy := busy sm; data := data sm;
       byte_counter := byte_counter sm;
       num_register_bytes := num_register_bytes sm;
       register_byte_counter := register_byte_counter sm |}).

Definition set_byte_counter (bus : bool) (v : Z) : M unit :=
  do sm <- get_sm bus;
  modify (set_sm bus
    {| current_state := current_state sm; which_i2c := which_i2c sm;
       device_address := device_address sm;
       register_address := register_address sm; num_bytes := num_bytes sm;
       finished_callback := finished_callback sm;
       comm_method := comm_method sm; busy := busy sm; data := data sm;
       byte_counter := v;
       num_register_bytes := num_register_bytes sm;
       register_byte_counter := register_byte_counter sm |}).

Definition set_register_byte_counter (bus : bool) (v : Z) : M unit :=
  do sm <- get_sm bus;
  modify (set_sm bus
    {| current_state := current_state sm; which_i2c := which_i2c sm;
       device_address := device_address sm;
       register_address := register_address sm; num_bytes := num_bytes sm;
       finished_callback := finished_callback sm;
       comm_method := comm_method sm; busy := busy sm; data := data sm;
       byte_counter := byte_counter sm;
       num_register_bytes := num_register_bytes sm;
       register_byte_counter := v |}).

Definition set_busy (bus : bool) (v : bool) : M unit :=
  do sm <- get_sm bus;
  do_ modify (set_sm bus
    {| current_state := current_state sm; which_i2c := which_i2c sm;
       device_address := device_address sm;
       register_address := register_address sm; num_bytes := num_bytes sm;
       finished_callback := finished_callback sm;
       comm_method := comm_method sm; busy := v; data := data sm;
       byte_counter := byte_counter sm;
       num_register_bytes := num_register_bytes sm;
       register_byte_counter := register_byte_counter sm |});
  modify (emit (EvBusy bus v)).

(** [i2cx->CMD = c] and [i2cx->TXDATA = v]. *)
Definition write_CMD (bus : bool) (c : i2c_cmd) : M unit :=
  modify (emit (EvCMD bus c)).

Definition write_TXDATA (bus : bool) (v : Z) : M unit :=
  modify (emit (EvTXDATA bus v)).

(** [*p] as an rvalue and [*p = v]. *)
Definition load (p : Z) : M Z :=
  do w <- get; ret (mem w p).

Definition store (p v : Z) : M unit :=
  do w <- get; modify (set_mem (<[p := v]> (mem w))).

(** The block that each transmitting branch of [i2c_ack_sm] repeats: from
    the word [data_copy], the byte that [counter] selects (1 selects the
    least significant byte).  [0xFF << 24] does not fit an [int]; like the
    compiler the firmware is built with, the embedding takes its bit
    pattern.  A shift by 32 or more has no defined result. *)
Definition byte_to_write (data_copy counter : Z) : M Z :=
  let which_byte := wrap32 (counter - 1) in
  let shift := wrap32 (8 * which_byte) in
  if 32 <=? shift then undef else
  let byte_mask := wrap32 (Z.shiftl 255 shift) in
  let data_copy := Z.land data_copy byte_mask in
  ret (Z.shiftr data_copy shift).

(** The payload branch, the same three times in the source. *)
Definition write_payload_byte (bus : bool) : M unit :=
  do sm <- get_sm bus;
  do data_copy <- load (data sm);
  do byte <- byte_to_write data_copy (byte_counter sm);
  do_ write_TXDATA bus byte;
  set_byte_counter bus (wrap32 (byte_counter sm - 1)).

Definition i2c_ack_sm (bus : bool) : M unit :=
  do sm <- get_sm bus;
  match current_state sm with
  | initialize =>
      do_ set_current_state bus send_register;
      if 0 <? register_byte_counter sm then
        do byte <- byte_to_write (register_address sm) (register_byte_counter sm);
        do_ write_TXDATA bus byte;
        do_ set_register_byte_counter bus (wrap32 (register_byte_counter sm - 1));
        do sm' <- get_sm bus;
        if 0 <? register_byte_counter sm'
        then set_current_state bus initialize
        else ret tt
      else write_payload_byte bus
  | send_register =>
      match comm_method sm with
      | I2C_READ =>
          do_ set_current_state bus request_read;
          do_ write_CMD bus I2C_CMD_START;
          write_TXDATA bus (Z.lor (wrap32 (Z.shiftl (device_address sm) 1)) I2C_R)
      | I2C_WRITE =>
          do_ set_current_state bus write_data;
          write_payload_byte bus
      end
  | request_read =>
      do_ EFM_ASSERT (bool_decide (comm_method sm = I2C_READ));
      set_current_state bus read_data
  | read_data => EFM_ASSERT false
  | write_data =>
      do_ EFM_ASSERT (bool_decide (comm_method sm = I2C_WRITE));
      if 0 <? byte_counter sm then write_payload_byte bus
      else
        do_ write_CMD bus I2C_CMD_STOP;
        set_current_state bus send_stop
  | send_stop => EFM_ASSERT false
  | end_process => EFM_ASSERT false
  end.

Definition i2c_nack_sm (bus : bool) : M unit :=
  do sm <- get_sm bus;
  do_ EFM_ASSERT (bool_decide (current_state sm = request_read));
  do_ write_CMD bus I2C_CMD_START;
  write_TXDATA bus (Z.lor (wrap32 (Z.shiftl (device_address sm) 1)) I2C_R).

Definition i2c_stop_sm (bus : bool) : M unit :=
  do sm <- get_sm bus;
  do_ EFM_ASSERT (bool_decide (current_state sm = send_stop));
  do_ set_current_state bus end_process;
  do_ add_scheduled_event (finished_callback sm);
  do_ set_busy bus false;
  sleep_unblock_mode I2C_EM.

Definition i2c_rxdatav_sm (bus : bool) : M unit :=
  do w <- get;
  let rxdata := RXDATA (periph_of bus w) in
  do sm <- get_sm bus;
  if 0 <? byte_counter sm then
    do d <- load (data sm);
    do_ store (data sm) (wrap32 (Z.shiftl d 8));
    do d' <- load (data sm);
    do_ store (data sm) (Z.lor d' rxdata);
    do_ set_byte_counter bus (wrap32 (byte_counter sm - 1));
    write_CMD bus I2C_CMD_ACK
  else
    do_ write_CMD bus I2C_CMD_NACK;
    do_ write_CMD bus I2C_CMD_STOP;
    set_current_state bus send_stop.

Definition i2c_start (s : I2C_START_STRUCT) : M unit :=
  let bus := ss_which_i2c s in
  do sm <- get_sm bus;
  if busy sm then spin else
  do w <- get;
  do_ EFM_ASSERT (STATE_IDLE (periph_of bus w));
  do_ sleep_block_mode I2C_EM;
  do_ set_busy bus true;
  do sm' <- get_sm bus;
  do_ modify (set_sm bus
    {| current_state := initialize;
       which_i2c := ss_which_i2c s;
       device_address := ss_device_address s;
       register_address := ss_register_address s;
       num_bytes := ss_num_bytes s;
       finished_callback := ss_finished_callback s;
       comm_method := ss_comm_method s;
       busy := busy sm';
       data := ss_data s;
       byte_counter := ss_num_bytes s;
       num_register_bytes := ss_num_register_bytes s;
       register_byte_counter := ss_num_register_bytes s |});
  do_ write_CMD bus I2C_CMD_START;
  write_TXDATA bus (Z.lor (wrap32 (Z.shiftl (ss_device_address s) 1)) I2C_W).

(** [i2cx->IFC = v]: the flags written are cleared in [IF]. *)
Definition write_IFC (bus : bool) (v : irq_flags) : M unit :=
  do w <- get;
  let p := periph_of bus w in
  modify (set_periph bus
    {| IF := irq_clear (IF p) v; IEN := IEN p; RXDATA := RXDATA p;
       STATE_IDLE := STATE_IDLE p |}).

Definition read_IF (bus : bool) : M irq_flags :=
  do w <- get; ret (IF (periph_of bus w)).

Definition i2c_isr (bus : bool) : M unit :=
  do w <- get;
  let int_flag := irq_and (IF (periph_of bus w)) (IEN (periph_of bus w)) in
  do_ write_IFC bus int_flag;
  do_ (if ACK int_flag then
         do f <- read_IF bus;
         do_ EFM_ASSERT (negb (ACK f));
         i2c_ack_sm bus
       else ret tt);
  do_ (if NACK int_flag then
         do f <- read_IF bus;
         do_ EFM_ASSERT (negb (NACK f));
         i2c_nack_sm bus
       else ret tt);
  do_ (if RXDATAV int_flag then i2c_rxdatav_sm bus else ret tt);
  if MSTOP int_flag then
    do f <- read_IF bus;
    do_ EFM_ASSERT (negb (MSTOP f));
    i2c_stop_sm bus
  else ret tt.

Definition I2C0_IRQHandler : M unit := i2c_isr false.
Definition I2C1_IRQHandler : M unit := i2c_isr true.

(** ** SI7021.c *)

(** [brd_config.h], [SI7021.h] *)
Definition SI7021_WHICH_I2C : bool := false.
Definition SI7021_DEVICE_ADDR : Z := 64.
Definition SI7021_HUM_CMD : Z := 245.
Definition SI7021_TEMP_CMD : Z := 243.

Section SI7021.
(** The addresses of the file's statics. *)
Variables (hum_bytes temp_bytes : Z).

Definition si7021_read_humidity (cb : Z) : M unit :=
  do_ store hum_bytes 0;
  i2c_start
    {| ss_which_i2c := SI7021_WHICH_I2C; ss_comm_method := I2C_READ;
       ss_device_address := SI7021_DEVICE_ADDR;
       ss_register_address := SI7021_HUM_CMD; ss_num_bytes := 2;
       ss_finished_callback := cb; ss_data := hum_bytes;
       ss_num_register_bytes := 1 |}.

Definition si7021_read_temp (cb : Z) : M unit :=
  do_ store temp_bytes 0;
  i2c_start
    {| ss_which_i2c := SI7021_WHICH_I2C; ss_comm_method := I2C_READ;
       ss_device_address := SI7021_DEVICE_ADDR;
       ss_register_address := SI7021_TEMP_CMD; ss_num_bytes := 2;
       ss_finished_callback := cb; ss_data := temp_bytes;
       ss_num_register_bytes := 1 |}.

End SI7021.

(** ** shtc3.c *)

Section SHTC3.
(** The address of the file's static. *)
Variable output_bytes : Z.

(** The four results go back through the pointer arguments; the
    embedding returns them.  [bytes] is the local array. *)
Definition parse_data : M (Z * Z * Z * Z) :=
  do bytes <- foldM (fun bytes i =>
                       do v <- load output_bytes;
                       if 32 <=? 8 * i then undef else
                       ret (<[Z.to_nat i := Z.land (Z.shiftr v (8 * i)) 255]> bytes))
                (seqZ 0 6) (replicate 6 0);
  let byte k := default 0 (bytes !! k) in
  ret (Z.lor (wrap32 (Z.shiftl (byte 0%nat) 8)) (byte 1%nat), byte 2%nat,
       Z.lor (wrap32 (Z.shiftl (byte 3%nat) 8)) (byte 4%nat), byte 5%nat).

End SHTC3.

(** ** app.c *)

(** [app.h] *)
Definition LETIMER0_COMP0_CB : Z := 1.
Definition LETIMER0_COMP1_CB : Z := 2.
Definition GPIO_EVEN_IRQ_CB : Z := 8.
Definition GPIO_ODD_IRQ_CB : Z := 16.

Definition scheduled_letimer0_comp0_cb : M unit :=
  do ev <- get_scheduled_events;
  EFM_ASSERT (Z.land ev LETIMER0_COMP0_CB =? 0).

Definition scheduled_letimer0_comp1_cb : M unit :=
  do ev <- get_scheduled_events;
  EFM_ASSERT (Z.land ev LETIMER0_COMP1_CB =? 0).

Definition scheduled_gpio_odd_irq_cb : M unit :=
  do current_block_em <- current_block_energy_mode;
  do_ sleep_unblock_mode current_block_em;
  do_ (if current_block_em <? EM4
       then sleep_block_mode (wrap32 (current_block_em + 1))
       else sleep_block_mode EM0);
  do ev <- get_scheduled_events;
  EFM_ASSERT (Z.land ev GPIO_ODD_IRQ_CB =? 0).

Definition scheduled_gpio_even_irq_cb : M unit :=
  do current_block_em <- current_block_energy_mode;
  do_ sleep_unblock_mode current_block_em;
  do_ (if EM0 <? current_block_em
       then sleep_block_mode (wrap32 (current_block_em - 1))
       else sleep_block_mode EM4);
  do ev <- get_scheduled_events;
  EFM_ASSERT (Z.land ev GPIO_EVEN_IRQ_CB =? 0).

(** ** The hardware and the rest of the program

    The controller raises interrupt flags and, with a received byte, fills
    [RXDATA]; it also decides what [STATE] reads. *)
Definition hw_raise (bus : bool) (f : irq_flags) (rx : Z) (w : world) : world :=
  let p := periph_of bus w in
  set_periph bus
    {| IF := irq_or (IF p) f; IEN := IEN p; RXDATA := rx;
       STATE_IDLE := STATE_IDLE p |} w.

Definition hw_state (bus : bool) (idle : bool) (w : world) : world :=
  let p := periph_of bus w in
  set_periph bus
    {| IF := IF p; IEN := IEN p; RXDATA := RXDATA p; STATE_IDLE := idle |} w.

(** One step of the system: the main program calls into one of the three
    modules, or a bus interrupt fires and its handler runs. *)
Inductive step_label :=
| L_start (s : I2C_START_STRUCT) (idle : bool)
| L_irq (bus : bool) (f : irq_flags) (rx : Z)
| L_post (e : Z)
| L_clear (e : Z)
| L_block (em : Z)
| L_unblock (em : Z).

Definition do_step (l : step_label) : M unit :=
  match l with
  | L_start s idle =>
      do_ modify (hw_state (ss_which_i2c s) idle); i2c_start s
  | L_irq bus f rx => do_ modify (hw_raise bus f rx); i2c_isr bus
  | L_post e => add_scheduled_event e
  | L_clear e => remove_scheduled_event e
  | L_block em => sleep_block_mode em
  | L_unblock em => sleep_unblock_mode em
  end.

(** A run of steps.  A call to [i2c_start] that finds its bus busy stays
    in its loop: the world is as before and the run goes on with what
    comes next (an interrupt, in the firmware).  After a failed assertion
    or an undefined operation there is no next step. *)
Fixpoint run (ls : list step_label) (w : world) : option world :=
  match ls with
  | [] => Some w
  | l :: ls' =>
      match do_step l w with
      | Ret _ w' => run ls' w'
      | Spin => run ls' w
      | Halt _ => None
      | Undef => None
      end
  end.

(** ** The system after start-up

    The statics are zero-initialised ([initialize] and [I2C_READ] are the
    enumerators with value 0).  [app_peripheral_setup] then calls
    [scheduler_open] and [sleep_open], and [i2c_open] on each bus leaves
    its [busy] flag false, the four interrupts enabled and no flag
    pending. *)
Definition sm_zero : I2C_STATE_MACHINE_STRUCT :=
  {| current_state := initialize; which_i2c := false; device_address := 0;
     register_address := 0; num_bytes := 0; finished_callback := 0;
     comm_method := I2C_READ; busy := false; data := 0; byte_counter := 0;
     num_register_bytes := 0; register_byte_counter := 0 |}.

Definition periph_open : I2C_TypeDef :=
  {| IF := irq_none; IEN := irq_all; RXDATA := 0; STATE_IDLE := true |}.

Definition world_open (m : Z -> Z) : world :=
  {| event_scheduled := 0; lowest_energy_mode := [0; 0; 0; 0; 0];
     i2c0_state_machine := sm_zero; i2c1_state_machine := sm_zero;
     I2C0 := periph_open; I2C1 := periph_open; mem := m; history := [] |}.

(** Interrupt flag words with one flag raised. *)
Definition irq_ACK : irq_flags :=
  {| RXDATAV := false; ACK := true; NACK := false; MSTOP := false |}.
Definition irq_NACK : irq_flags :=
  {| RXDATAV := false; ACK := false; NACK := true; MSTOP := false |}.
Definition irq_RXDATAV : irq_flags :=
  {| RXDATAV := true; ACK := false; NACK := false; MSTOP := false |}.
Definition irq_MSTOP : irq_flags :=
  {| RXDATAV := false; ACK := false; NACK := false; MSTOP := true |}.

(** ** Vocabulary of the properties *)

(** The block-count table is an array of [MAX_ENERGY_MODES] counters,
    none of them negative. *)
Definition counters_ok (l : list Z) : Prop :=
  length l = Z.to_nat MAX_ENERGY_MODES /\ Forall (fun c => 0 <= c) l.

(** The world a call of [sleep_block_mode] or [sleep_unblock_mode] leaves
    when the counter of the mode goes from [c] to [v]. *)
Definition counted (e : event) (i v : Z) (w : world) : world :=
  emit e (set_lowest_energy_mode (<[Z.to_nat i := v]> (lowest_energy_mode w)) w).

(** [follows R m]: whenever [m] returns, the world it leaves is related by
    [R] to the world it started in.  For a reflexive and transitive [R]
    the property goes through sequencing, so a handler follows [R] as soon
    as the operations it is made of do. *)
Definition follows {A} (R : world -> world -> Prop) (m : M A) : Prop :=
  forall w a w', m w = Ret a w' -> R w w'.

(** An entry of the history that is not a change of the [busy] flag of
    bus [b]. *)
Definition not_busy_event (b : bool) (e : event) : Prop :=
  forall v, e <> EvBusy b v.

(** [keeps b w w']: the state machine of bus [b] has the [busy] flag and
    the completion event it had, and the history has only grown, by
    entries that are not changes of the [busy] flag of [b]. *)
Definition keeps (b : bool) (w w' : world) : Prop :=
  busy (sm_of b w') = busy (sm_of b w) /\
  finished_callback (sm_of b w') = finished_callback (sm_of b w) /\
  exists h, history w' = history w ++ h /\ Forall (not_busy_event b) h.

(** [completes b cb w w']: the history has grown from [w] to [w'], and if
    bus [b] was busy in [w] with the completion event [cb], then either it
    still is in [w'] and its [busy] flag was not touched in between, or
    the growth holds, before any other change of that flag, the post of
    [cb] followed at once by the flag going to false. *)
Definition completes (b : bool) (cb : Z) (w w' : world) : Prop :=
  exists h, history w' = history w ++ h /\
    (busy (sm_of b w) = true -> finished_callback (sm_of b w) = cb ->
     (busy (sm_of b w') = true /\ finished_callback (sm_of b w') = cb /\
      Forall (not_busy_event b) h) \/
     (exists h1 h2, h = h1 ++ EvPost cb :: EvBusy b false :: h2 /\
                    Forall (not_busy_event b) h1)).

(** What a call of [i2c_start] that gets past its loop has found and
    what it has done. *)
Definition start_events (s : I2C_START_STRUCT) : list event :=
  [ EvBlock I2C_EM;
    EvBusy (ss_which_i2c s) true;
    EvCMD (ss_which_i2c s) I2C_CMD_START;
    EvTXDATA (ss_which_i2c s)
      (Z.lor (wrap32 (Z.shiftl (ss_device_address s) 1)) I2C_W) ].

(** The request of a write of the [n] payload bytes of the word at [p],
    behind the [nreg] bytes of the register address [reg]. *)
Definition write_request (bus : bool) (dev reg nreg n cb p : Z) : I2C_START_STRUCT :=
  {| ss_which_i2c := bus; ss_comm_method := I2C_WRITE;
     ss_device_address := dev; ss_register_address := reg;
     ss_num_bytes := n; ss_finished_callback := cb; ss_data := p;
     ss_num_register_bytes := nreg |}.

(** The same for a read into the word at [p]. *)
Definition read_request (bus : bool) (dev reg nreg n cb p : Z) : I2C_START_STRUCT :=
  {| ss_which_i2c := bus; ss_comm_method := I2C_READ;
     ss_device_address := dev; ss_register_address := reg;
     ss_num_bytes := n; ss_finished_callback := cb; ss_data := p;
     ss_num_register_bytes := nreg |}.

(** The world a call leaves (the world itself where the call does not
    return). *)
Definition after (m : M unit) (w : world) : world :=
  match m w with
  | Ret _ w' => w'
  | _ => w
  end.

(** The world a run leaves (the world itself where the run stops
    early). *)
Definition after_run (ls : list step_label) (w : world) : world :=
  match run ls w with
  | Some w' => w'
  | None => w
  end.

(** A caller's word at address 100 holding [v], all other words zero. *)
Definition word_at_100 (v : Z) : Z -> Z := fun a => if a =? 100 then v else 0.

(** The number that the bytes [bs] spell, first byte most significant,
    on top of [acc]. *)
Definition be_acc (acc : Z) (bs : list Z) : Z :=
  fold_left (fun a b => a * 256 + b) bs acc.

(** The bytes [bs] read as one big-endian number. *)
Definition be_value (bs : list Z) : Z := be_acc 0 bs.

(** What [RXDATA] holds after a reception. *)
Definition is_byte (b : Z) : Prop := 0 <= b < 256.

(** The controller has put a byte in [RXDATA] and the handler has
    acknowledged the interrupt. *)
Definition hw_received (bus : bool) (rx : Z) (w : world) : world :=
  let p := periph_of bus w in
  set_periph bus
    {| IF := irq_none; IEN := IEN p; RXDATA := rx; STATE_IDLE := STATE_IDLE p |} w.

(** [i2c_sm->byte_counter = v]. *)
Definition sm_with_byte_counter (v : Z) (sm : I2C_STATE_MACHINE_STRUCT) :
    I2C_STATE_MACHINE_STRUCT :=
  {| current_state := current_state sm; which_i2c := which_i2c sm;
     device_address := device_address sm;
     register_address := register_address sm; num_bytes := num_bytes sm;
     finished_callback := finished_callback sm;
     comm_method := comm_method sm; busy := busy sm; data := data sm;
     byte_counter := v;
     num_register_bytes := num_register_bytes sm;
     register_byte_counter := register_byte_counter sm |}.

(** The two stores of [i2c_rxdatav_sm] to the word at [d]. *)
Definition rx_store (d rx : Z) (m : Z -> Z) : Z -> Z :=
  <[d := Z.lor ((<[d := wrap32 (Z.shiftl (m d) 8)]> m) d) rx]>
    (<[d := wrap32 (Z.shiftl (m d) 8)]> m).

(** The world after a byte-received interrupt that finds bytes expected. *)
Definition rx_world (bus : bool) (rx : Z) (w : world) : world :=
  emit (EvCMD bus I2C_CMD_ACK)
    (set_sm bus
       (sm_with_byte_counter (wrap32 (byte_counter (sm_of bus w) - 1)) (sm_of bus w))
       (set_mem (rx_store (data (sm_of bus w)) rx (mem w)) (hw_received bus rx w))).

(** No word of the memory has changed. *)
Definition same_mem (w w' : world) : Prop := mem w' = mem w.

(** The call that [enter_sleep] makes when [em] is the first blocked
    mode: none for EM0 and EM1, otherwise the mode just above [em]. *)
Definition emu_of_block (em : Z) : emu_call :=
  if em <? EM2 then EMU_none
  else if em =? EM2 then EMU_EnterEM1
  else if em =? EM3 then EMU_EnterEM2 true
  else EMU_EnterEM3 true.

(** The block counters are as they were. *)
Definition same_lem (w w' : world) : Prop :=
  lowest_energy_mode w' = lowest_energy_mode w.

(** The block counters and the two [busy] flags are as they were. *)
Definition quiet (w w' : world) : Prop :=
  lowest_energy_mode w' = lowest_energy_mode w /\
  busy (i2c0_state_machine w') = busy (i2c0_state_machine w) /\
  busy (i2c1_state_machine w') = busy (i2c1_state_machine w).

(** Five counters, each between 0 and 4: what the two assertions of the
    sleep arbiter allow. *)
Definition bounded (l : list Z) : Prop :=
  length l = Z.to_nat MAX_ENERGY_MODES /\ Forall (fun c => 0 <= c <= 4) l.

(** A bounded table stays bounded. *)
Definition keeps_bounded (w w' : world) : Prop :=
  bounded (lowest_energy_mode w) -> bounded (lowest_energy_mode w').

(** The number of buses with a transaction in progress. *)
Definition busy_count (w : world) : Z :=
  (if busy (i2c0_state_machine w) then 1 else 0) +
  (if busy (i2c1_state_machine w) then 1 else 0).

(** The steps of a run in which interrupts come only on a bus that is in
    use and only the I2C engine blocks and unblocks its own sleep mode. *)
Definition step_allowed (l : step_label) (w : world) : bool :=
  match l with
  | L_irq bus _ _ => busy (sm_of bus w)
  | L_block em => negb (em =? I2C_EM)
  | L_unblock em => negb (em =? I2C_EM)
  | _ => true
  end.

(** Every step of the run is allowed where it is taken. *)
Fixpoint disciplined (ls : list step_label) (w : world) : bool :=
  match ls with
  | [] => true
  | l :: ls' =>
      step_allowed l w &&
      match do_step l w with
      | Ret _ w' => disciplined ls' w'
      | Spin => disciplined ls' w
      | _ => true
      end
  end.

(** The EM2 counter holds one block for each busy bus, and [k] more. *)
Definition em2_counts_busy (k : Z) (w : world) : Prop :=
  lowest_energy_mode w !! Z.to_nat I2C_EM = Some (k + busy_count w).

(** [em] is the first mode, from EM0, with a nonzero counter, [c]. *)
Definition first_blocked (l : list Z) (em c : Z) : Prop :=
  l !! Z.to_nat em = Some c /\ 0 < c /\
  forall j, 0 <= j < em -> l !! Z.to_nat j = Some 0.

(** The mode a button moves the block to: one up, EM0 after EM4; one
    down, EM4 before EM0. *)
Definition next_mode (em : Z) : Z := if em <? EM4 then em + 1 else EM0.
Definition prev_mode (em : Z) : Z := if EM0 <? em then em - 1 else EM4.

(** The number of blocks in the table. *)
Definition total_blocks (l : list Z) : Z := foldr Z.add 0 l.

(** Byte [k] of the word [d], byte 1 the least significant. *)
Definition tx_byte (d k : Z) : Z := Z.land (Z.shiftr d (8 * (k - 1))) 255.

(** The [n] low bytes of [d], most significant first. *)
Fixpoint tx_bytes (d : Z) (n : nat) : list Z :=
  match n with
  | O => []
  | S k => tx_byte d (Z.of_nat (S k)) :: tx_bytes d k
  end.

(** The world after an ACK in [write_data] with payload left. *)
Definition tx_world (bus : bool) (rx : Z) (w : world) : world :=
  let sm := sm_of bus w in
  emit (EvTXDATA bus (tx_byte (mem w (data sm)) (byte_counter sm)))
    (set_sm bus (sm_with_byte_counter (wrap32 (byte_counter sm - 1)) sm)
       (hw_received bus rx w)).

(** What an interrupt on [bus] that only moves the state machine and
    stores received bytes leaves alone. *)
Definition i2c_ctl (bus : bool) (w w' : world) : Prop :=
  IF (periph_of bus w') = IF (periph_of bus w) /\
  IEN (periph_of bus w') = IEN (periph_of bus w) /\
  STATE_IDLE (periph_of bus w') = STATE_IDLE (periph_of bus w) /\
  periph_of (negb bus) w' = periph_of (negb bus) w /\
  sm_of (negb bus) w' = sm_of (negb bus) w /\
  lowest_energy_mode w' = lowest_energy_mode w /\
  event_scheduled w' = event_scheduled w /\
  comm_method (sm_of bus w') = comm_method (sm_of bus w) /\
  data (sm_of bus w') = data (sm_of bus w) /\
  device_address (sm_of bus w') = device_address (sm_of bus w) /\
  register_address (sm_of bus w') = register_address (sm_of bus w) /\
  finished_callback (sm_of bus w') = finished_callback (sm_of bus w) /\
  busy (sm_of bus w') = busy (sm_of bus w).

(** The same, and no word of the memory has changed. *)
Definition i2c_frame (bus : bool) (w w' : world) : Prop :=
  mem w' = mem w /\ i2c_ctl bus w w'.

(** The state machine of [bus] is in [st] with [bc] payload bytes and
    [rbc] register bytes left, and [evs] has been written to the
    controller since [w]. *)
Definition i2c_at (bus : bool) (st : DEFINED_STATES) (bc rbc : Z)
    (evs : list event) (w w' : world) : Prop :=
  i2c_frame bus w w' /\
  current_state (sm_of bus w') = st /\
  byte_counter (sm_of bus w') = bc /\
  register_byte_counter (sm_of bus w') = rbc /\
  history w' = history w ++ evs.

(** The state machine as [i2c_start] sets it up for the request [s]. *)
Definition sm_started (s : I2C_START_STRUCT) : I2C_STATE_MACHINE_STRUCT :=
  {| current_state := initialize;
     which_i2c := ss_which_i2c s;
     device_address := ss_device_address s;
     register_address := ss_register_address s;
     num_bytes := ss_num_bytes s;
     finished_callback := ss_finished_callback s;
     comm_method := ss_comm_method s;
     busy := true;
     data := ss_data s;
     byte_counter := ss_num_bytes s;
     num_register_bytes := ss_num_register_bytes s;
     register_byte_counter := ss_num_register_bytes s |}.

(** The read request repeated [k] times. *)
Fixpoint read_requests (bus : bool) (dev : Z) (k : nat) : list event :=
  match k with
  | O => []
  | S k' => EvCMD bus I2C_CMD_START
            :: EvTXDATA bus (Z.lor (wrap32 (Z.shiftl dev 1)) I2C_R)
            :: read_requests bus dev k'
  end.

(** * Properties *)

(** ** Words and bits *)

Lemma testbit_not32 (e i : Z) :
  0 <= i -> Z.testbit (not32 e) i = (i <? 32) && negb (Z.testbit e i).
Proof.
  intros Hi. unfold not32, wrap32.
  rewrite Z.testbit_mod_pow2 by lia.
  by rewrite Z.lnot_spec.
Qed.

Lemma testbit_uint32_high (z i : Z) :
  is_uint32 z -> 32 <= i -> Z.testbit z i = false.
Proof.
  intros [Hlo Hhi] Hi.
  destruct (decide (z = 0)) as [->|Hz]; [apply Z.bits_0|].
  apply Z.bits_above_log2; [lia|].
  apply Z.log2_lt_pow2; [lia|].
  apply Z.lt_le_trans with (2 ^ 32); [done|].
  apply Z.pow_le_mono_r; lia.
Qed.

Lemma is_uint32_lor (a b : Z) : is_uint32 a -> is_uint32 b -> is_uint32 (Z.lor a b).
Proof.
  intros Ha Hb. unfold is_uint32 in *.
  split; [apply Z.lor_nonneg; lia|].
  destruct (decide (Z.lor a b = 0)) as [->|Hz]; [lia|].
  apply Z.log2_lt_cancel.
  rewrite Z.log2_pow2 by lia. rewrite Z.log2_lor by lia.
  assert (Hlog : forall x, 0 <= x < 2 ^ 32 -> Z.log2 x < 32).
  { intros x Hx. destruct (decide (x = 0)) as [->|Hx0]; [done|].
    apply Z.log2_lt_pow2; lia. }
  specialize (Hlog a Ha) as Hla. specialize (Hlog b Hb) as Hlb. lia.
Qed.

Lemma is_uint32_land (a b : Z) : is_uint32 a -> 0 <= b -> is_uint32 (Z.land a b).
Proof.
  intros [Ha1 Ha2] Hb. unfold is_uint32.
  assert (0 <= Z.land a b) by (apply Z.land_nonneg; lia).
  split; [done|].
  destruct (decide (Z.land a b = 0)) as [->|Hz]; [lia|].
  destruct (decide (a = 0)) as [->|Ha0]; [by rewrite Z.land_0_l in Hz|].
  apply Z.log2_lt_cancel.
  rewrite Z.log2_pow2 by lia.
  pose proof (Z.log2_land a b Ha1 Hb) as Hl.
  assert (Z.log2 a < 32) by (apply Z.log2_lt_pow2; lia).
  lia.
Qed.

Lemma wrap32_range (z : Z) : is_uint32 (wrap32 z).
Proof. unfold is_uint32, wrap32. apply Z.mod_pos_bound. lia. Qed.

Lemma wrap32_small (z : Z) : is_uint32 z -> wrap32 z = z.
Proof. intros H. unfold wrap32. apply Z.mod_small. exact H. Qed.

(** ** The scheduler *)

Lemma add_scheduled_event_eq (e : Z) (w : world) :
  add_scheduled_event e w =
  Ret tt (emit (EvPost e) (set_event_scheduled (Z.lor (event_scheduled w) e) w)).
Proof. reflexivity. Qed.

Lemma remove_scheduled_event_eq (e : Z) (w : world) :
  remove_scheduled_event e w =
  Ret tt (set_event_scheduled (Z.land (event_scheduled w) (not32 e)) w).
Proof. reflexivity. Qed.

Lemma repeat_add_scheduled_event (e : Z) (n : nat) (w : world) :
  exists w', repeatM (S n) (add_scheduled_event e) w = Ret tt w' /\
             event_scheduled w' = Z.lor (event_scheduled w) e.
Proof.
  revert w. induction n as [|n IH]; intros w.
  - eexists. split; [reflexivity|]. reflexivity.
  - destruct (IH (emit (EvPost e)
                   (set_event_scheduled (Z.lor (event_scheduled w) e) w)))
      as (w' & Hrun & Hes).
    exists w'. split.
    + change (repeatM (S (S n)) (add_scheduled_event e) w)
        with (bind (add_scheduled_event e)
                (fun _ => repeatM (S n) (add_scheduled_event e)) w).
      unfold bind at 1. rewrite add_scheduled_event_eq. exact Hrun.
    + rewrite Hes. cbn. rewrite <- Z.lor_assoc. by rewrite Z.lor_diag.
Qed.

(** C8. Posting an event mask any number of times (at least once) leaves
    the pending mask that one post leaves, the bitwise or of the old mask
    and the event; after clearing the event, what [get_scheduled_events]
    returns has no bit in common with it; a post and a clear leave every
    bit outside the event as it was, and the mask stays a 32-bit word. *)
Theorem scheduler_post_idempotent_clear_disjoint (E : Z) (n : nat) (w : world) :
  is_uint32 E ->
  is_uint32 (event_scheduled w) ->
  exists w1 wn wc p,
    add_scheduled_event E w = Ret tt w1 /\
    repeatM (S n) (add_scheduled_event E) w = Ret tt wn /\
    event_scheduled wn = event_scheduled w1 /\
    (do_ remove_scheduled_event E; get_scheduled_events) w = Ret p wc /\
    p = event_scheduled wc /\
    Z.land p E = 0 /\
    is_uint32 (event_scheduled w1) /\
    is_uint32 (event_scheduled wc) /\
    (forall i, 0 <= i -> Z.testbit E i = false ->
       Z.testbit (event_scheduled w1) i = Z.testbit (event_scheduled w) i /\
       Z.testbit (event_scheduled wc) i = Z.testbit (event_scheduled w) i) /\
    (forall i, 0 <= i -> Z.testbit E i = true ->
       Z.testbit (event_scheduled w1) i = true /\
       Z.testbit (event_scheduled wc) i = false).
Proof.
  intros HE Hw.
  destruct (repeat_add_scheduled_event E n w) as (wn & Hn & Hesn).
  eexists _, wn, _, _.
  split; [apply add_scheduled_event_eq|].
  split; [exact Hn|].
  split; [rewrite Hesn; reflexivity|].
  split; [reflexivity|].
  split; [reflexivity|].
  cbn.
  assert (Hnot : 0 <= not32 E) by apply wrap32_range.
  split.
  { apply Z.bits_inj'. intros i Hi.
    rewrite !Z.land_spec, testbit_not32, Z.bits_0 by done.
    destruct (Z.testbit E i); simpl; [|apply andb_false_r].
    rewrite !andb_false_r. reflexivity. }
  split; [by apply is_uint32_lor|].
  split; [by apply is_uint32_land|].
  split.
  - intros i Hi Hbit. split.
    + rewrite Z.lor_spec, Hbit. apply orb_false_r.
    + rewrite Z.land_spec, testbit_not32, Hbit by done. simpl.
      rewrite andb_true_r.
      destruct (Z.ltb_spec i 32) as [Hlt|Hge]; [apply andb_true_r|].
      rewrite andb_false_r. symmetry. by apply testbit_uint32_high.
  - intros i Hi Hbit. split.
    + rewrite Z.lor_spec, Hbit. apply orb_true_r.
    + rewrite Z.land_spec, testbit_not32, Hbit by done. simpl.
      rewrite andb_false_r. apply andb_false_r.
Qed.

Lemma scheduler_post_idempotent_clear_disjoint_witness :
  exists w1 wn wc p,
    add_scheduled_event 256 (set_event_scheduled 33 (world_open (fun _ => 0)))
      = Ret tt w1 /\
    repeatM 3 (add_scheduled_event 256)
      (set_event_scheduled 33 (world_open (fun _ => 0))) = Ret tt wn /\
    event_scheduled wn = event_scheduled w1 /\
    (do_ remove_scheduled_event 256; get_scheduled_events)
      (set_event_scheduled 33 (world_open (fun _ => 0))) = Ret p wc /\
    p = event_scheduled wc /\
    Z.land p 256 = 0 /\
    is_uint32 (event_scheduled w1) /\
    is_uint32 (event_scheduled wc) /\
    (forall i, 0 <= i -> Z.testbit 256 i = false ->
       Z.testbit (event_scheduled w1) i = Z.testbit 33 i /\
       Z.testbit (event_scheduled wc) i = Z.testbit 33 i) /\
    (forall i, 0 <= i -> Z.testbit 256 i = true ->
       Z.testbit (event_scheduled w1) i = true /\
       Z.testbit (event_scheduled wc) i = false).
Proof.
  apply (scheduler_post_idempotent_clear_disjoint 256 2
           (set_event_scheduled 33 (world_open (fun _ => 0)))).
  - unfold is_uint32. lia.
  - unfold is_uint32. simpl. lia.
Defined.

(** ** The sleep arbiter *)

Lemma lem_read_Some (i c : Z) (w : world) :
  0 <= i -> lowest_energy_mode w !! Z.to_nat i = Some c ->
  lem_read i w = Ret c w.
Proof.
  intros Hi Hc. unfold lem_read.
  destruct (Z.ltb_spec i 0); [lia|]. by rewrite Hc.
Qed.

Lemma lem_write_Some (i c v : Z) (w : world) :
  0 <= i -> lowest_energy_mode w !! Z.to_nat i = Some c ->
  lem_write i v w =
  Ret tt (set_lowest_energy_mode (<[Z.to_nat i := v]> (lowest_energy_mode w)) w).
Proof.
  intros Hi Hc. unfold lem_write.
  destruct (Z.ltb_spec i 0); [lia|]. by rewrite Hc.
Qed.

Lemma counted_lookup (e : event) (i c v : Z) (w : world) :
  lowest_energy_mode w !! Z.to_nat i = Some c ->
  lowest_energy_mode (counted e i v w) !! Z.to_nat i = Some v.
Proof.
  intros Hc. cbn. apply list_lookup_insert_eq.
  by apply lookup_lt_Some in Hc.
Qed.

Lemma sleep_block_mode_eq (EM c : Z) (w : world) :
  0 <= EM -> lowest_energy_mode w !! Z.to_nat EM = Some c -> c <> INT_MAX ->
  sleep_block_mode EM w =
  if c + 1 <? 5 then Ret tt (counted (EvBlock EM) EM (c + 1) w)
  else Halt (counted (EvBlock EM) EM (c + 1) w).
Proof.
  intros HEM Hc Hmax. unfold sleep_block_mode, bind.
  rewrite (lem_read_Some EM c) by done.
  destruct (Z.eqb_spec c INT_MAX); [done|].
  rewrite (lem_write_Some EM c) by done.
  unfold modify.
  rewrite (lem_read_Some EM (c + 1)); [reflexivity|done|].
  by apply (counted_lookup _ _ c).
Qed.

Lemma sleep_unblock_mode_eq (EM c : Z) (w : world) :
  0 <= EM -> lowest_energy_mode w !! Z.to_nat EM = Some c -> c <> INT_MIN ->
  sleep_unblock_mode EM w =
  if 0 <=? c - 1 then Ret tt (counted (EvUnblock EM) EM (c - 1) w)
  else Halt (counted (EvUnblock EM) EM (c - 1) w).
Proof.
  intros HEM Hc Hmin. unfold sleep_unblock_mode, bind.
  rewrite (lem_read_Some EM c) by done.
  destruct (Z.eqb_spec c INT_MIN); [done|].
  rewrite (lem_write_Some EM c) by done.
  unfold modify.
  rewrite (lem_read_Some EM (c - 1)); [reflexivity|done|].
  by apply (counted_lookup _ _ c).
Qed.

Lemma sleep_block_mode_Ret (EM : Z) (a : unit) (w w' : world) :
  sleep_block_mode EM w = Ret a w' ->
  exists c, lowest_energy_mode w !! Z.to_nat EM = Some c /\ c + 1 < 5 /\
            w' = counted (EvBlock EM) EM (c + 1) w.
Proof.
  intros Hrun. unfold sleep_block_mode, bind in Hrun.
  unfold lem_read at 1 in Hrun.
  destruct (Z.ltb_spec EM 0) as [|HEM]; [discriminate|].
  destruct (lowest_energy_mode w !! Z.to_nat EM) as [c|] eqn:Hc; [|discriminate].
  destruct (Z.eqb_spec c INT_MAX); [discriminate|].
  rewrite (lem_write_Some EM c) in Hrun by done.
  unfold modify in Hrun.
  rewrite (lem_read_Some EM (c + 1)) in Hrun
    by (done || by apply (counted_lookup _ _ c)).
  unfold EFM_ASSERT in Hrun. destruct (Z.ltb_spec (c + 1) 5); [|discriminate].
  exists c. split; [done|]. split; [done|]. by injection Hrun as <-.
Qed.

Lemma repeatM_S (n : nat) (m : M unit) (w : world) :
  repeatM (S n) m w = bind m (fun _ => repeatM n m) w.
Proof. reflexivity. Qed.

(** [n] blocks in a row go through while the counter stays below 5. *)
Lemma repeat_block (EM c : Z) (n : nat) (w : world) :
  0 <= EM -> lowest_energy_mode w !! Z.to_nat EM = Some c ->
  0 <= c -> c + Z.of_nat n <= 4 ->
  exists w', repeatM n (sleep_block_mode EM) w = Ret tt w' /\
    lowest_energy_mode w' = <[Z.to_nat EM := c + Z.of_nat n]> (lowest_energy_mode w).
Proof.
  intros HEM. revert c w. induction n as [|n IH]; intros c w Hc Hc0 Hle.
  - exists w. split; [reflexivity|].
    rewrite Z.add_0_r. symmetry. by apply list_insert_id.
  - rewrite repeatM_S. unfold bind.
    rewrite (sleep_block_mode_eq EM c) by (done || unfold INT_MAX; lia).
    destruct (Z.ltb_spec (c + 1) 5); [|lia].
    destruct (IH (c + 1) (counted (EvBlock EM) EM (c + 1) w)) as (w' & Hrun & Hl).
    + by apply (counted_lookup _ _ c).
    + lia.
    + lia.
    + exists w'. split; [exact Hrun|].
      rewrite Hl. cbn. rewrite list_insert_insert_eq. f_equal. lia.
Qed.

(** [n] unblocks in a row go through while the counter stays at 0 or
    above. *)
Lemma repeat_unblock (EM c : Z) (n : nat) (w : world) :
  0 <= EM -> lowest_energy_mode w !! Z.to_nat EM = Some c ->
  Z.of_nat n <= c -> c <= INT_MAX ->
  exists w', repeatM n (sleep_unblock_mode EM) w = Ret tt w' /\
    lowest_energy_mode w' = <[Z.to_nat EM := c - Z.of_nat n]> (lowest_energy_mode w).
Proof.
  intros HEM. revert c w. induction n as [|n IH]; intros c w Hc Hle Hmax.
  - exists w. split; [reflexivity|].
    rewrite Z.sub_0_r. symmetry. by apply list_insert_id.
  - rewrite repeatM_S. unfold bind.
    rewrite (sleep_unblock_mode_eq EM c) by (done || unfold INT_MIN; lia).
    destruct (Z.leb_spec 0 (c - 1)); [|lia].
    destruct (IH (c - 1) (counted (EvUnblock EM) EM (c - 1) w)) as (w' & Hrun & Hl).
    + by apply (counted_lookup _ _ c).
    + lia.
    + lia.
    + exists w'. split; [exact Hrun|].
      rewrite Hl. cbn. rewrite list_insert_insert_eq. f_equal. lia.
Qed.

(** One unblock more than the counter holds stops in the assertion of
    [sleep_unblock_mode], with the counter at -1. *)
Lemma repeat_unblock_halts (EM c : Z) (n : nat) (w : world) :
  0 <= EM -> lowest_energy_mode w !! Z.to_nat EM = Some c ->
  0 <= c -> Z.of_nat n = c + 1 -> c <= INT_MAX ->
  exists w', repeatM n (sleep_unblock_mode EM) w = Halt w' /\
    lowest_energy_mode w' = <[Z.to_nat EM := -1]> (lowest_energy_mode w) /\
    exists h, history w' = history w ++ h ++ [EvUnblock EM].
Proof.
  intros HEM. revert c w. induction n as [|n IH]; intros c w Hc Hc0 Hn Hmax.
  - lia.
  - rewrite repeatM_S. unfold bind.
    rewrite (sleep_unblock_mode_eq EM c) by (done || unfold INT_MIN; lia).
    destruct (Z.leb_spec 0 (c - 1)) as [Hpos|Hneg].
    + destruct (IH (c - 1) (counted (EvUnblock EM) EM (c - 1) w))
        as (w' & Hrun & Hl & h & Hh).
      * by apply (counted_lookup _ _ c).
      * lia.
      * lia.
      * lia.
      * exists w'. split; [exact Hrun|]. split.
        -- rewrite Hl. cbn. by rewrite list_insert_insert_eq.
        -- exists (EvUnblock EM :: h). rewrite Hh. cbn.
           by rewrite <- app_assoc.
    + assert (c = 0) as -> by lia.
      eexists. split; [reflexivity|]. split; [reflexivity|].
      exists []. reflexivity.
Qed.

Lemma bind_Ret {A B} (m : M A) (k : A -> M B) (w w' : world) (a : A) :
  m w = Ret a w' -> bind m k w = k a w'.
Proof. intros H. unfold bind. by rewrite H. Qed.

Lemma bind_Halt {A B} (m : M A) (k : A -> M B) (w w' : world) :
  m w = Halt w' -> bind m k w = Halt w'.
Proof. intros H. unfold bind. by rewrite H. Qed.

Lemma repeatM_add (n k : nat) (m : M unit) (w : world) :
  repeatM (n + k) m w = bind (repeatM n m) (fun _ => repeatM k m) w.
Proof.
  revert w. induction n as [|n IH]; intros w; [reflexivity|].
  cbn [Nat.add repeatM]. unfold bind at 1 2 3.
  destruct (m w) as [[] w'| | |]; try reflexivity.
  apply IH.
Qed.

(** The table stays well formed along the calls that return. *)
Lemma sleep_open_counters (w : world) :
  length (lowest_energy_mode w) = Z.to_nat MAX_ENERGY_MODES ->
  exists w', sleep_open w = Ret tt w' /\ lowest_energy_mode w' = [0; 0; 0; 0; 0].
Proof.
  intros Hlen. destruct w as [es l s0 s1 p0 p1 m h]. cbn in Hlen.
  destruct l as [|a [|b [|c [|d [|e [|]]]]]]; try discriminate.
  eexists. split; reflexivity.
Qed.

Lemma sleep_block_mode_counters_ok (EM : Z) (w w' : world) :
  counters_ok (lowest_energy_mode w) ->
  sleep_block_mode EM w = Ret tt w' ->
  counters_ok (lowest_energy_mode w').
Proof.
  intros [Hlen Hall] Hrun. unfold sleep_block_mode, bind in Hrun.
  unfold lem_read at 1 in Hrun.
  destruct (Z.ltb_spec EM 0) as [|HEM]; [discriminate|].
  destruct (lowest_energy_mode w !! Z.to_nat EM) as [c|] eqn:Hc; [|discriminate].
  destruct (Z.eqb_spec c INT_MAX); [discriminate|].
  rewrite (lem_write_Some EM c) in Hrun by done.
  unfold modify in Hrun.
  rewrite (lem_read_Some EM (c + 1)) in Hrun
    by (done || by apply (counted_lookup _ _ c)).
  unfold EFM_ASSERT in Hrun. destruct (c + 1 <? 5); [|discriminate].
  injection Hrun as <-. cbn. split.
  - by rewrite length_insert.
  - apply Forall_insert; [done|].
    rewrite Forall_lookup in Hall. specialize (Hall _ _ Hc). cbn in Hall. lia.
Qed.

Lemma sleep_unblock_mode_counters_ok (EM : Z) (w w' : world) :
  counters_ok (lowest_energy_mode w) ->
  sleep_unblock_mode EM w = Ret tt w' ->
  counters_ok (lowest_energy_mode w').
Proof.
  intros [Hlen Hall] Hrun. unfold sleep_unblock_mode, bind in Hrun.
  unfold lem_read at 1 in Hrun.
  destruct (Z.ltb_spec EM 0) as [|HEM]; [discriminate|].
  destruct (lowest_energy_mode w !! Z.to_nat EM) as [c|] eqn:Hc; [|discriminate].
  destruct (Z.eqb_spec c INT_MIN); [discriminate|].
  rewrite (lem_write_Some EM c) in Hrun by done.
  unfold modify in Hrun.
  rewrite (lem_read_Some EM (c - 1)) in Hrun
    by (done || by apply (counted_lookup _ _ c)).
  unfold EFM_ASSERT in Hrun. destruct (Z.leb_spec 0 (c - 1)); [|discriminate].
  injection Hrun as <-. cbn. split.
  - by rewrite length_insert.
  - by apply Forall_insert.
Qed.

(** Array indices are small literals; this brings [l !! Z.to_nat i] down
    to the element. *)
Ltac index_cbn :=
  change (Z.to_nat 0) with 0%nat; change (Z.to_nat 1) with 1%nat;
  change (Z.to_nat 2) with 2%nat; change (Z.to_nat 3) with 3%nat;
  change (Z.to_nat 4) with 4%nat; cbn.

(** C3. On a well-formed block-count table (five counters, none of them
    negative) [current_block_energy_mode] returns, leaves the world as it
    is, and its result is EM4 when every counter is zero and otherwise the
    first mode, counting up from EM0, whose counter is not zero. *)
Theorem current_block_energy_mode_first_nonzero (w : world) :
  counters_ok (lowest_energy_mode w) ->
  exists em,
    current_block_energy_mode w = Ret em w /\
    0 <= em < MAX_ENERGY_MODES /\
    ((Forall (fun c => c = 0) (lowest_energy_mode w) /\ em = EM4) \/
     ((exists c, lowest_energy_mode w !! Z.to_nat em = Some c /\ c <> 0) /\
      forall j, 0 <= j < em -> lowest_energy_mode w !! Z.to_nat j = Some 0)).
Proof.
  intros [Hlen Hall].
  unfold current_block_energy_mode.
  change (seqZ 0 MAX_ENERGY_MODES) with [0; 1; 2; 3; 4].
  unfold MAX_ENERGY_MODES, EM4.
  destruct w as [es l s0 s1 p0 p1 m h]. cbn in Hlen, Hall.
  destruct l as [|a [|b [|c [|d [|e [|]]]]]]; try discriminate.
  apply Forall_cons_1 in Hall as [Ha Hall].
  apply Forall_cons_1 in Hall as [Hb Hall].
  apply Forall_cons_1 in Hall as [Hc Hall].
  apply Forall_cons_1 in Hall as [Hd Hall].
  apply Forall_cons_1 in Hall as [He _].
  unfold bind, foldM, bind, lem_read, ret. index_cbn.
  assert (Hsmall : forall j k : Z, 0 <= j < k -> k <= 4 ->
            j = 0 \/ j = 1 \/ j = 2 \/ j = 3) by lia.
  destruct (Z.ltb_spec 0 a); index_cbn.
  { eexists. split; [reflexivity|]. split; [lia|]. right. split.
    - exists a. split; [reflexivity|lia].
    - intros j Hj. lia. }
  destruct (Z.ltb_spec 0 b); index_cbn.
  { eexists. split; [reflexivity|]. split; [lia|]. right. split.
    - exists b. split; [reflexivity|lia].
    - intros j Hj. assert (j = 0) as -> by lia. index_cbn. f_equal. lia. }
  destruct (Z.ltb_spec 0 c); index_cbn.
  { eexists. split; [reflexivity|]. split; [lia|]. right. split.
    - exists c. split; [reflexivity|lia].
    - intros j Hj.
      destruct (Hsmall j 2) as [-> | [-> | [-> | ->] ] ]; try lia; index_cbn; f_equal; lia. }
  destruct (Z.ltb_spec 0 d); index_cbn.
  { eexists. split; [reflexivity|]. split; [lia|]. right. split.
    - exists d. split; [reflexivity|lia].
    - intros j Hj.
      destruct (Hsmall j 3) as [-> | [-> | [-> | ->] ] ]; try lia; index_cbn; f_equal; lia. }
  destruct (Z.ltb_spec 0 e); index_cbn.
  { eexists. split; [reflexivity|]. split; [lia|]. right. split.
    - exists e. split; [reflexivity|lia].
    - intros j Hj.
      destruct (Hsmall j 4) as [-> | [-> | [-> | ->] ] ]; try lia; index_cbn; f_equal; lia. }
  eexists. split; [reflexivity|]. split; [lia|]. left. split; [|reflexivity].
  repeat (constructor; [lia|]). constructor.
Qed.

Lemma current_block_energy_mode_first_nonzero_witness :
  exists em,
    current_block_energy_mode
      (set_lowest_energy_mode [0; 0; 1; 2; 0] (world_open (fun _ => 0)))
      = Ret em (set_lowest_energy_mode [0; 0; 1; 2; 0] (world_open (fun _ => 0))) /\
    0 <= em < MAX_ENERGY_MODES /\
    ((Forall (fun c => c = 0) [0; 0; 1; 2; 0] /\ em = EM4) \/
     ((exists c, [0; 0; 1; 2; 0] !! Z.to_nat em = Some c /\ c <> 0) /\
      forall j, 0 <= j < em -> [0; 0; 1; 2; 0] !! Z.to_nat j = Some 0)).
Proof.
  apply (current_block_energy_mode_first_nonzero
           (set_lowest_energy_mode [0; 0; 1; 2; 0] (world_open (fun _ => 0)))).
  split; [reflexivity|].
  simpl. repeat constructor; lia.
Defined.

(** The scan tests [> 0]: a negative counter, which no returning call
    leaves behind, would be passed over. *)
Example current_block_energy_mode_negative :
  current_block_energy_mode
    (set_lowest_energy_mode [-1; 1; 0; 0; 0] (world_open (fun _ => 0)))
  = Ret EM1 (set_lowest_energy_mode [-1; 1; 0; 0; 0] (world_open (fun _ => 0))).
Proof. reflexivity. Qed.

(** C5, as the code has it. While the counter of the mode stays within
    the bound of [sleep_block_mode] (a counter [c >= 0] and [N] blocks
    with [c + N <= 4]), [N] blocks followed by [N] unblocks all return and
    leave the table as it was; and from a counter of zero, [N] blocks
    followed by [N + 1] unblocks stop in the assertion of
    [sleep_unblock_mode], the counter at -1. *)
Theorem sleep_block_unblock_balanced (EM c : Z) (N : nat) (w : world) :
  0 <= EM ->
  lowest_energy_mode w !! Z.to_nat EM = Some c ->
  0 <= c ->
  c + Z.of_nat N <= 4 ->
  (exists w',
     (do_ repeatM N (sleep_block_mode EM); repeatM N (sleep_unblock_mode EM)) w
       = Ret tt w' /\
     lowest_energy_mode w' = lowest_energy_mode w) /\
  (c = 0 ->
   exists w',
     (do_ repeatM N (sleep_block_mode EM); repeatM (S N) (sleep_unblock_mode EM)) w
       = Halt w' /\
     lowest_energy_mode w' !! Z.to_nat EM = Some (-1) /\
     exists h, history w' = history w ++ h ++ [EvUnblock EM]).
Proof.
  intros HEM Hc Hc0 Hle.
  destruct (repeat_block EM c N w HEM Hc Hc0 Hle) as (w1 & Hb & Hl1).
  assert (Hc1 : lowest_energy_mode w1 !! Z.to_nat EM = Some (c + Z.of_nat N)).
  { rewrite Hl1. apply list_lookup_insert_eq. by apply lookup_lt_Some in Hc. }
  split.
  - destruct (repeat_unblock EM (c + Z.of_nat N) N w1) as (w2 & Hu & Hl2);
      [done|done|lia|unfold INT_MAX; lia|].
    exists w2. split.
    + rewrite (bind_Ret _ _ _ _ _ Hb). exact Hu.
    + rewrite Hl2, Hl1, list_insert_insert_eq.
      apply list_insert_id. rewrite Hc. f_equal. lia.
  - intros ->.
    destruct (repeat_unblock_halts EM (0 + Z.of_nat N) (S N) w1)
      as (w2 & Hu & Hl2 & h & Hh); [done|done|lia|lia|unfold INT_MAX; lia|].
    exists w2. split; [|split].
    + rewrite (bind_Ret _ _ _ _ _ Hb). exact Hu.
    + rewrite Hl2. apply list_lookup_insert_eq.
      rewrite Hl1, length_insert. by apply lookup_lt_Some in Hc.
    + assert (Hpre : exists h1, history w1 = history w ++ h1).
      { clear -Hb. revert w Hb. induction N as [|N IH]; intros w Hb.
        - injection Hb as <-. exists []. by rewrite app_nil_r.
        - rewrite repeatM_S in Hb. unfold bind in Hb.
          destruct (sleep_block_mode EM w) as [[] wa| | |] eqn:Hs; try discriminate.
          destruct (IH _ Hb) as [h1 Hh1].
          unfold sleep_block_mode, bind, lem_read, lem_write, modify, undef,
            EFM_ASSERT in Hs.
          repeat match type of Hs with
                 | context [if ?b then _ else _] => destruct b
                 | context [match ?o with Some _ => _ | None => _ end] =>
                     destruct o
                 end; try discriminate.
          all: injection Hs as <-; cbn in Hh1.
          all: exists (EvBlock EM :: h1); rewrite Hh1; by rewrite <- app_assoc. }
      destruct Hpre as [h1 Hh1].
      exists (h1 ++ h). rewrite Hh, Hh1. by rewrite <- !app_assoc.
Qed.

Lemma sleep_block_unblock_balanced_witness :
  (exists w',
     (do_ repeatM 3 (sleep_block_mode EM2); repeatM 3 (sleep_unblock_mode EM2))
       (world_open (fun _ => 0))
       = Ret tt w' /\
     lowest_energy_mode w' = lowest_energy_mode (world_open (fun _ => 0))) /\
  (0 = 0 ->
   exists w',
     (do_ repeatM 3 (sleep_block_mode EM2); repeatM 4 (sleep_unblock_mode EM2))
       (world_open (fun _ => 0))
       = Halt w' /\
     lowest_energy_mode w' !! Z.to_nat EM2 = Some (-1) /\
     exists h, history w' = history (world_open (fun _ => 0)) ++ h ++ [EvUnblock EM2]).
Proof.
  apply (sleep_block_unblock_balanced EM2 0 3 (world_open (fun _ => 0))).
  - unfold EM2. lia.
  - reflexivity.
  - lia.
  - simpl. lia.
Defined.

(** C5, as the claim has it, fails at five blocks: from a counter of zero
    the fifth [sleep_block_mode] stops the system in its own assertion, so
    the five unblocks never run and the counter is left at 5. *)
Lemma sleep_five_blocks_do_not_return :
  (do_ repeatM 5 (sleep_block_mode EM0); repeatM 5 (sleep_unblock_mode EM0))
    (world_open (fun _ => 0))
  = Halt (set_lowest_energy_mode [5; 0; 0; 0; 0]
            (Nat.iter 5 (emit (EvBlock EM0)) (world_open (fun _ => 0)))) /\
  ~ (exists w',
       (do_ repeatM 5 (sleep_block_mode EM0); repeatM 5 (sleep_unblock_mode EM0))
         (world_open (fun _ => 0)) = Ret tt w' /\
       lowest_energy_mode w' !! Z.to_nat EM0 = Some 0).
Proof.
  split; [reflexivity|].
  intros (w' & Hrun & _). discriminate Hrun.
Qed.

(** C10. A call of [sleep_block_mode] on a counter [c] returns exactly
    when [c + 1 < 5]; from a counter of zero four blocks in a row return
    and leave the counter at 4, and the fifth stops in the assertion with
    the counter at 5. *)
Theorem sleep_block_mode_bound (EM : Z) (w : world) :
  0 <= EM ->
  lowest_energy_mode w !! Z.to_nat EM = Some 0 ->
  (exists w4,
     repeatM 4 (sleep_block_mode EM) w = Ret tt w4 /\
     lowest_energy_mode w4 !! Z.to_nat EM = Some 4 /\
     exists w5,
       sleep_block_mode EM w4 = Halt w5 /\
       repeatM 5 (sleep_block_mode EM) w = Halt w5 /\
       lowest_energy_mode w5 !! Z.to_nat EM = Some 5) /\
  (forall c v, lowest_energy_mode v !! Z.to_nat EM = Some c -> c <> INT_MAX ->
     (exists v', sleep_block_mode EM v = Ret tt v') <-> c + 1 < 5).
Proof.
  intros HEM Hc. split.
  - destruct (repeat_block EM 0 4 w) as (w4 & Hrun & Hl); [done|done|lia|lia|].
    assert (Hc4 : lowest_energy_mode w4 !! Z.to_nat EM = Some 4).
    { rewrite Hl. apply list_lookup_insert_eq. by apply lookup_lt_Some in Hc. }
    exists w4. split; [exact Hrun|]. split; [exact Hc4|].
    exists (counted (EvBlock EM) EM 5 w4).
    assert (Hlast : sleep_block_mode EM w4 = Halt (counted (EvBlock EM) EM 5 w4)).
    { rewrite (sleep_block_mode_eq EM 4) by (done || unfold INT_MAX; lia).
      reflexivity. }
    split; [exact Hlast|]. split.
    + change 5%nat with (4 + 1)%nat. rewrite repeatM_add.
      rewrite (bind_Ret _ _ _ _ _ Hrun).
      rewrite repeatM_S. by rewrite (bind_Halt _ _ _ _ Hlast).
    + by apply (counted_lookup _ _ 4).
  - intros c v Hv Hmax.
    rewrite (sleep_block_mode_eq EM c) by done.
    destruct (Z.ltb_spec (c + 1) 5); split.
    + done.
    + intros _. by eexists.
    + intros [v' Hv']. discriminate.
    + lia.
Qed.

Lemma sleep_block_mode_bound_witness :
  (exists w4,
     repeatM 4 (sleep_block_mode EM1) (world_open (fun _ => 0)) = Ret tt w4 /\
     lowest_energy_mode w4 !! Z.to_nat EM1 = Some 4 /\
     exists w5,
       sleep_block_mode EM1 w4 = Halt w5 /\
       repeatM 5 (sleep_block_mode EM1) (world_open (fun _ => 0)) = Halt w5 /\
       lowest_energy_mode w5 !! Z.to_nat EM1 = Some 5) /\
  (forall c v, lowest_energy_mode v !! Z.to_nat EM1 = Some c -> c <> INT_MAX ->
     (exists v', sleep_block_mode EM1 v = Ret tt v') <-> c + 1 < 5).
Proof.
  apply (sleep_block_mode_bound EM1 (world_open (fun _ => 0))).
  - unfold EM1. lia.
  - reflexivity.
Defined.

(** From [m w = Ret a w'], with [m] a call that computes, the equations
    between results and worlds. *)
Ltac ret_inv H := injection H; intros; subst; clear H.

(** ** Relations that every returning call respects *)

Section Follows.
Variable R : world -> world -> Prop.
Hypothesis R_refl : forall w, R w w.
Hypothesis R_trans : forall w1 w2 w3, R w1 w2 -> R w2 w3 -> R w1 w3.

Lemma follows_ret {A} (a : A) : follows R (ret a).
Proof using R_refl. intros w a' w' H. ret_inv H. apply R_refl. Qed.

Lemma follows_get : follows R get.
Proof using R_refl. intros w a' w' H. ret_inv H. apply R_refl. Qed.

Lemma follows_undef {A} : follows R (@undef A).
Proof. intros w a w' H. discriminate. Qed.

Lemma follows_spin {A} : follows R (@spin A).
Proof. intros w a w' H. discriminate. Qed.

Lemma follows_EFM_ASSERT (b : bool) : follows R (EFM_ASSERT b).
Proof using R_refl.
  intros w a w' H. unfold EFM_ASSERT in H. destruct b; [|discriminate].
  ret_inv H. apply R_refl.
Qed.

Lemma follows_modify (f : world -> world) :
  (forall w, R w (f w)) -> follows R (modify f).
Proof. intros Hf w a w' H. ret_inv H. apply Hf. Qed.

Lemma follows_bind {A B} (m : M A) (k : A -> M B) :
  follows R m -> (forall a, follows R (k a)) -> follows R (bind m k).
Proof using R_trans.
  intros Hm Hk w b w' H. unfold bind in H.
  destruct (m w) as [a w1| | |] eqn:Hmw; try discriminate.
  apply R_trans with w1; [by apply (Hm w a)|by apply (Hk a w1 b)].
Qed.

Lemma follows_if {A} (b : bool) (m1 m2 : M A) :
  follows R m1 -> follows R m2 -> follows R (if b then m1 else m2).
Proof. by destruct b. Qed.

Lemma follows_foldM {A S} (body : S -> A -> M S) (l : list A) (s : S) :
  (forall s a, follows R (body s a)) -> follows R (foldM body l s).
Proof using R_refl R_trans.
  intros Hbody. revert s. induction l as [|a l IH]; intros s.
  - apply follows_ret.
  - cbn [foldM]. apply follows_bind; [apply Hbody|]. intros s'. apply IH.
Qed.

Lemma follows_repeatM (n : nat) (m : M unit) :
  follows R m -> follows R (repeatM n m).
Proof using R_refl R_trans.
  intros Hm. induction n as [|n IH].
  - apply follows_ret.
  - cbn [repeatM]. apply follows_bind; [done|]. intros _. exact IH.
Qed.
End Follows.

(** *** What a call leaves alone on a bus *)

Lemma keeps_refl (b : bool) (w : world) : keeps b w w.
Proof.
  split; [done|]. split; [done|]. exists []. split; [|constructor].
  by rewrite app_nil_r.
Qed.

Lemma keeps_trans (b : bool) (w1 w2 w3 : world) :
  keeps b w1 w2 -> keeps b w2 w3 -> keeps b w1 w3.
Proof.
  intros (Hb1 & Hc1 & h1 & Hh1 & Hf1) (Hb2 & Hc2 & h2 & Hh2 & Hf2).
  split; [congruence|]. split; [congruence|].
  exists (h1 ++ h2). split; [|by apply Forall_app].
  by rewrite Hh2, Hh1, app_assoc.
Qed.

Lemma keeps_emit (b : bool) (e : event) (w : world) :
  not_busy_event b e -> keeps b w (emit e w).
Proof.
  intros He. split; [by destruct b|]. split; [by destruct b|].
  exists [e]. split; [done|]. by constructor.
Qed.

Lemma keeps_same_history (b : bool) (w w' : world) :
  sm_of b w' = sm_of b w -> history w' = history w -> keeps b w w'.
Proof.
  intros Hsm Hh. split; [by rewrite Hsm|]. split; [by rewrite Hsm|].
  exists []. split; [|constructor]. by rewrite app_nil_r.
Qed.

Lemma keeps_set_sm (b bus : bool) (v : I2C_STATE_MACHINE_STRUCT) (w : world) :
  busy v = busy (sm_of bus w) ->
  finished_callback v = finished_callback (sm_of bus w) ->
  keeps b w (set_sm bus v w).
Proof.
  intros Hb Hc. split; [|split].
  - destruct b, bus; cbn; done.
  - destruct b, bus; cbn; done.
  - exists []. split; [|constructor]. cbn. by rewrite app_nil_r.
Qed.

Lemma keeps_set_sm_other (b bus : bool) (v : I2C_STATE_MACHINE_STRUCT) (w : world) :
  bus <> b -> keeps b w (set_sm bus v w).
Proof.
  intros Hne. apply keeps_same_history; [|done].
  destruct b, bus; done.
Qed.

Section Keeps.
Variable b : bool.

Local Abbreviation K := (follows (keeps b)).

Lemma keeps_get_sm bus : K (get_sm bus).
Proof. intros w a w' H. ret_inv H. apply keeps_refl. Qed.

Lemma keeps_set_current_state bus v : K (set_current_state bus v).
Proof. intros w a w' H. ret_inv H. by apply keeps_set_sm. Qed.

Lemma keeps_set_byte_counter bus v : K (set_byte_counter bus v).
Proof. intros w a w' H. ret_inv H. by apply keeps_set_sm. Qed.

Lemma keeps_set_register_byte_counter bus v :
  K (set_register_byte_counter bus v).
Proof. intros w a w' H. ret_inv H. by apply keeps_set_sm. Qed.

Lemma keeps_write_CMD bus c : K (write_CMD bus c).
Proof. intros w a w' H. ret_inv H. by apply keeps_emit. Qed.

Lemma keeps_write_TXDATA bus v : K (write_TXDATA bus v).
Proof. intros w a w' H. ret_inv H. by apply keeps_emit. Qed.

Lemma keeps_load p : K (load p).
Proof. intros w a w' H. ret_inv H. apply keeps_refl. Qed.

Lemma keeps_store p v : K (store p v).
Proof.
  intros w a w' H. ret_inv H. apply keeps_same_history; by destruct b.
Qed.

Lemma keeps_byte_to_write d c : K (byte_to_write d c).
Proof.
  intros w a w' H. unfold byte_to_write in H.
  destruct (32 <=? wrap32 (8 * wrap32 (c - 1))); [discriminate|].
  ret_inv H. apply keeps_refl.
Qed.

Lemma keeps_lem_read i : K (lem_read i).
Proof.
  intros w a w' H. unfold lem_read in H.
  destruct (i <? 0); [discriminate|].
  destruct (lowest_energy_mode w !! Z.to_nat i); [|discriminate].
  ret_inv H. apply keeps_refl.
Qed.

Lemma keeps_lem_write i v : K (lem_write i v).
Proof.
  intros w a w' H. unfold lem_write in H.
  destruct (i <? 0); [discriminate|].
  destruct (lowest_energy_mode w !! Z.to_nat i); [|discriminate].
  ret_inv H. apply keeps_same_history; by destruct b.
Qed.

Lemma keeps_write_IFC bus v : K (write_IFC bus v).
Proof.
  intros w a w' H. ret_inv H.
  apply keeps_same_history; by destruct b, bus.
Qed.

Lemma keeps_read_IF bus : K (read_IF bus).
Proof. intros w a w' H. ret_inv H. apply keeps_refl. Qed.

Lemma keeps_hw_raise bus f rx : K (modify (hw_raise bus f rx)).
Proof.
  intros w a w' H. ret_inv H.
  apply keeps_same_history; by destruct b, bus.
Qed.

Lemma keeps_hw_state bus idle : K (modify (hw_state bus idle)).
Proof.
  intros w a w' H. ret_inv H.
  apply keeps_same_history; by destruct b, bus.
Qed.
End Keeps.

Lemma follows_weaken {A} (R1 R2 : world -> world -> Prop) (m : M A) :
  (forall w w', R1 w w' -> R2 w w') -> follows R1 m -> follows R2 m.
Proof. intros Hsub Hm w a w' H. apply Hsub. by apply (Hm w a). Qed.

(** One step of a proof that a call keeps bus [b]: close the goal with
    the lemma of a call ([extra] tries those proved so far), or split a
    sequence or a branch. *)
Ltac keeps_step b extra :=
  lazy zeta;
  first
    [ extra
    | apply (follows_ret (keeps b) (keeps_refl b))
    | apply (follows_get (keeps b) (keeps_refl b))
    | apply follows_undef
    | apply follows_spin
    | apply (follows_EFM_ASSERT (keeps b) (keeps_refl b))
    | apply keeps_get_sm
    | apply keeps_set_current_state
    | apply keeps_set_byte_counter
    | apply keeps_set_register_byte_counter
    | apply keeps_write_CMD
    | apply keeps_write_TXDATA
    | apply keeps_load
    | apply keeps_store
    | apply keeps_byte_to_write
    | apply keeps_lem_read
    | apply keeps_lem_write
    | apply keeps_write_IFC
    | apply keeps_read_IF
    | apply keeps_hw_raise
    | apply keeps_hw_state
    | apply (follows_bind (keeps b) (keeps_trans b)); [|intros ?]
    | match goal with
      | |- follows _ (if ?c then _ else _) => destruct c
      | |- follows _ (match ?x with _ => _ end) => destruct x
      end ].

Ltac keeps_auto b extra := repeat keeps_step b extra.

Section KeepsCalls.
Variable b : bool.

Lemma keeps_add_scheduled_event e : follows (keeps b) (add_scheduled_event e).
Proof.
  intros w a w' H. rewrite add_scheduled_event_eq in H. ret_inv H.
  apply keeps_trans with (set_event_scheduled (Z.lor (event_scheduled w) e) w).
  - apply keeps_same_history; by destruct b.
  - by apply keeps_emit.
Qed.

Lemma keeps_remove_scheduled_event e :
  follows (keeps b) (remove_scheduled_event e).
Proof.
  intros w a w' H. rewrite remove_scheduled_event_eq in H. ret_inv H.
  apply keeps_same_history; by destruct b.
Qed.

Lemma keeps_emit_block EM : follows (keeps b) (modify (emit (EvBlock EM))).
Proof. intros w a w' H. ret_inv H. by apply keeps_emit. Qed.

Lemma keeps_emit_unblock EM : follows (keeps b) (modify (emit (EvUnblock EM))).
Proof. intros w a w' H. ret_inv H. by apply keeps_emit. Qed.

Lemma keeps_sleep_block_mode EM : follows (keeps b) (sleep_block_mode EM).
Proof.
  unfold sleep_block_mode.
  keeps_auto b ltac:(apply keeps_emit_block).
Qed.

Lemma keeps_sleep_unblock_mode EM : follows (keeps b) (sleep_unblock_mode EM).
Proof.
  unfold sleep_unblock_mode.
  keeps_auto b ltac:(apply keeps_emit_unblock).
Qed.

Lemma keeps_write_payload_byte bus : follows (keeps b) (write_payload_byte bus).
Proof. unfold write_payload_byte. keeps_auto b fail. Qed.

Lemma keeps_i2c_ack_sm bus : follows (keeps b) (i2c_ack_sm bus).
Proof.
  unfold i2c_ack_sm.
  keeps_auto b ltac:(apply keeps_write_payload_byte).
Qed.

Lemma keeps_i2c_nack_sm bus : follows (keeps b) (i2c_nack_sm bus).
Proof. unfold i2c_nack_sm. keeps_auto b fail. Qed.

Lemma keeps_i2c_rxdatav_sm bus : follows (keeps b) (i2c_rxdatav_sm bus).
Proof. unfold i2c_rxdatav_sm. keeps_auto b fail. Qed.

(** A change of the [busy] flag of the other bus. *)
Lemma keeps_set_busy_other bus v : bus <> b -> follows (keeps b) (set_busy bus v).
Proof.
  intros Hne w a w' H. ret_inv H.
  split; [|split].
  - destruct b, bus; done.
  - destruct b, bus; done.
  - exists [EvBusy bus v]. split; [done|].
    constructor; [|constructor]. intros v' Heq. congruence.
Qed.

Lemma keeps_i2c_stop_sm_other bus : bus <> b -> follows (keeps b) (i2c_stop_sm bus).
Proof.
  intros Hne. unfold i2c_stop_sm.
  keeps_auto b
    ltac:(first [ apply keeps_add_scheduled_event
                | by apply keeps_set_busy_other
                | apply keeps_sleep_unblock_mode ]).
Qed.
End KeepsCalls.

(** *** The transaction in flight on a bus *)

Lemma completes_refl (b : bool) (cb : Z) (w : world) : completes b cb w w.
Proof.
  exists []. split; [by rewrite app_nil_r|].
  intros Hb Hc. left. split; [done|]. split; [done|]. constructor.
Qed.

Lemma completes_trans (b : bool) (cb : Z) (w1 w2 w3 : world) :
  completes b cb w1 w2 -> completes b cb w2 w3 -> completes b cb w1 w3.
Proof.
  intros (h & Hh & H12) (h' & Hh' & H23).
  exists (h ++ h'). split; [by rewrite Hh', Hh, app_assoc|].
  intros Hb Hc.
  destruct (H12 Hb Hc) as [(Hb2 & Hc2 & Hf)|(h1 & h2 & -> & Hf1)].
  - destruct (H23 Hb2 Hc2) as [(Hb3 & Hc3 & Hf')|(h1 & h2 & -> & Hf1)].
    + left. split; [done|]. split; [done|]. by apply Forall_app.
    + right. exists (h ++ h1), h2. split; [by rewrite <- app_assoc|].
      by apply Forall_app.
  - right. exists h1, (h2 ++ h'). split; [|done].
    by rewrite <- app_assoc.
Qed.

Lemma keeps_completes (b : bool) (cb : Z) (w w' : world) :
  keeps b w w' -> completes b cb w w'.
Proof.
  intros (Hb & Hc & h & Hh & Hf). exists h. split; [done|].
  intros Hb1 Hc1. left. split; [congruence|]. split; [congruence|done].
Qed.

Lemma i2c_start_busy (s : I2C_START_STRUCT) (w : world) :
  busy (sm_of (ss_which_i2c s) w) = true -> i2c_start s w = Spin.
Proof.
  intros Hb. unfold i2c_start, get_sm, get, ret, bind. lazy beta iota zeta.
  by rewrite Hb.
Qed.

Lemma i2c_start_Ret (s : I2C_START_STRUCT) (w w' : world) :
  i2c_start s w = Ret tt w' ->
  busy (sm_of (ss_which_i2c s) w) = false /\
  STATE_IDLE (periph_of (ss_which_i2c s) w) = true /\
  busy (sm_of (ss_which_i2c s) w') = true /\
  finished_callback (sm_of (ss_which_i2c s) w') = ss_finished_callback s /\
  current_state (sm_of (ss_which_i2c s) w') = initialize /\
  sm_of (negb (ss_which_i2c s)) w' = sm_of (negb (ss_which_i2c s)) w /\
  history w' = history w ++ start_events s.
Proof.
  intros H. unfold i2c_start, get_sm, get, ret, bind in H.
  lazy beta iota zeta in H.
  destruct (busy (sm_of (ss_which_i2c s) w)) eqn:Hb; [discriminate|].
  unfold EFM_ASSERT at 1 in H.
  destruct (STATE_IDLE (periph_of (ss_which_i2c s) w)) eqn:Hidle; [|discriminate].
  destruct (sleep_block_mode I2C_EM w) as [u w1| | |] eqn:Hs; try discriminate.
  apply sleep_block_mode_Ret in Hs as (c & _ & _ & ->).
  unfold set_busy, get_sm, get, ret, write_CMD, write_TXDATA, modify, bind in H.
  ret_inv H.
  split; [done|]. split; [done|].
  destruct (ss_which_i2c s) eqn:Hbus; cbn; rewrite <- ?app_assoc;
    repeat split; try done; unfold start_events; by rewrite Hbus.
Qed.

Section Completes.
Variables (b : bool) (cb : Z).

Local Abbreviation C := (follows (completes b cb)).

Lemma completes_of_keeps {A} (m : M A) : follows (keeps b) m -> C m.
Proof. apply follows_weaken. apply keeps_completes. Qed.

Lemma completes_i2c_stop_sm bus : C (i2c_stop_sm bus).
Proof.
  destruct (decide (bus = b)) as [->|Hne];
    [|by apply completes_of_keeps, keeps_i2c_stop_sm_other].
  intros w a w' H.
  unfold i2c_stop_sm, set_current_state, add_scheduled_event, set_busy,
    get_sm, get, ret, modify, EFM_ASSERT, bind in H.
  lazy beta iota zeta in H.
  destruct (bool_decide (current_state (sm_of b w) = send_stop)); [|discriminate].
  match type of H with
  | sleep_unblock_mode _ ?w3 = _ =>
      destruct (keeps_sleep_unblock_mode b I2C_EM w3 a w' H)
        as (_ & _ & h' & Hh' & _)
  end.
  exists ([EvPost (finished_callback (sm_of b w)); EvBusy b false] ++ h').
  split.
  - rewrite Hh'. destruct b; cbn; by rewrite <- !app_assoc.
  - intros _ <-. right. exists [], h'. split; [done|constructor].
Qed.

Lemma completes_i2c_start s : C (i2c_start s).
Proof.
  destruct (decide (ss_which_i2c s = b)) as [Hb|Hne].
  - intros w a w' H. destruct a.
    destruct (i2c_start_Ret s w w' H) as (Hbusy & _ & _ & _ & _ & _ & Hh).
    exists (start_events s). split; [done|].
    rewrite <- Hb. intros Hbusy'. congruence.
  - apply completes_of_keeps. unfold i2c_start.
    keeps_auto b
      ltac:(first [ apply keeps_sleep_block_mode
                  | by apply keeps_set_busy_other ]).
    intros v u v' H. ret_inv H. by apply keeps_set_sm_other.
Qed.
End Completes.

Ltac completes_step b cb :=
  lazy zeta;
  first
    [ apply completes_i2c_stop_sm
    | apply completes_i2c_start
    | apply completes_of_keeps;
      first [ apply keeps_i2c_ack_sm | apply keeps_i2c_nack_sm
            | apply keeps_i2c_rxdatav_sm | apply keeps_write_IFC
            | apply keeps_read_IF | apply keeps_hw_raise | apply keeps_hw_state
            | apply keeps_add_scheduled_event
            | apply keeps_remove_scheduled_event
            | apply keeps_sleep_block_mode | apply keeps_sleep_unblock_mode ]
    | apply (follows_ret (completes b cb) (completes_refl b cb))
    | apply (follows_get (completes b cb) (completes_refl b cb))
    | apply (follows_EFM_ASSERT (completes b cb) (completes_refl b cb))
    | apply (follows_bind (completes b cb) (completes_trans b cb)); [|intros ?]
    | match goal with
      | |- follows _ (if ?c then _ else _) => destruct c
      end ].

Section Runs.
Variables (b : bool) (cb : Z).

Lemma completes_i2c_isr bus : follows (completes b cb) (i2c_isr bus).
Proof. unfold i2c_isr. repeat completes_step b cb. Qed.

Lemma completes_do_step l : follows (completes b cb) (do_step l).
Proof.
  destruct l; unfold do_step;
    repeat first [ apply completes_i2c_isr | completes_step b cb ].
Qed.

Lemma completes_run ls w w' : run ls w = Some w' -> completes b cb w w'.
Proof.
  revert w. induction ls as [|l ls IH]; intros w H.
  - cbn in H. injection H as <-. apply completes_refl.
  - cbn [run] in H.
    destruct (do_step l w) as [u w1| | |] eqn:Hstep; try discriminate.
    + apply completes_trans with w1; [|by apply IH].
      by apply (completes_do_step l w u).
    + by apply IH.
Qed.
End Runs.

(** C1. Take a call of [i2c_start] that got past its busy-wait and issued
    START, any run of further calls and interrupts after it, and then a
    second call of [i2c_start] on the same bus that issued START as well.
    The first call found the bus free and left it busy; a call that finds
    the bus busy does not get past its loop; and between the two STARTs
    the history holds the post of the first transaction's completion
    event, followed at once by the [busy] flag of the bus going to false
    (the two steps of [i2c_stop_sm]), with no change of that flag before
    it.  Each call blocks the sleep mode of the bus and sets [busy] before
    it writes START. *)
Theorem i2c_start_mutual_exclusion
    (r1 r2 : I2C_START_STRUCT) (mid : list step_label) (w1 w2 w3 w4 : world) :
  ss_which_i2c r1 = ss_which_i2c r2 ->
  i2c_start r1 w1 = Ret tt w2 ->
  run mid w2 = Some w3 ->
  i2c_start r2 w3 = Ret tt w4 ->
  busy (sm_of (ss_which_i2c r1) w1) = false /\
  busy (sm_of (ss_which_i2c r1) w2) = true /\
  busy (sm_of (ss_which_i2c r1) w3) = false /\
  (forall r w, busy (sm_of (ss_which_i2c r) w) = true -> i2c_start r w = Spin) /\
  history w2 = history w1 ++ start_events r1 /\
  (exists h1 h2,
     history w3 =
       history w2 ++ h1 ++
       EvPost (ss_finished_callback r1) :: EvBusy (ss_which_i2c r1) false :: h2 /\
     Forall (not_busy_event (ss_which_i2c r1)) h1) /\
  history w4 = history w3 ++ start_events r2.
Proof.
  intros Hbus H1 Hmid H2.
  destruct (i2c_start_Ret r1 w1 w2 H1) as (Hb1 & _ & Hb2 & Hcb & _ & _ & Hh2).
  destruct (i2c_start_Ret r2 w3 w4 H2) as (Hb3 & _ & _ & _ & _ & _ & Hh4).
  rewrite <- Hbus in Hb3.
  split; [done|]. split; [done|]. split; [done|].
  split; [apply i2c_start_busy|]. split; [done|]. split; [|done].
  destruct (completes_run (ss_which_i2c r1) (ss_finished_callback r1) mid w2 w3 Hmid)
    as (h & Hh & Hcases).
  destruct (Hcases Hb2 Hcb) as [(Hb3' & _)|(h1 & h2 & -> & Hf)]; [congruence|].
  exists h1, h2. split; done.
Qed.

(** ** Transactions, step by step *)

(** Evaluates a run on a world whose relevant parts are explicit, leaving
    the bitwise operations on the caller's word and the growth of the
    history as they stand. *)
Ltac run_cbv H :=
  cbv -[Z.land Z.shiftr Z.lor app]; rewrite ?H; cbv -[Z.lor app].

(** C6. On a bus that is free, with its ACK and stop-detected interrupts
    enabled and none pending, and with room under the block bound of the
    bus's sleep mode: the write of the one byte 0x3B to the one-byte
    register 0xE6 of device 0x40, followed by three ACK interrupts, puts
    on the bus START, 0x80, 0xE6, 0x3B and STOP, in this order; up to
    there nothing has been posted and the bus is busy; the stop-detected
    interrupt then posts the completion event, frees the bus and releases
    the sleep mode. *)
Theorem i2c_write_scenario
    (bus : bool) (cb p c rx1 rx2 rx3 rx4 : Z) (w : world) :
  busy (sm_of bus w) = false ->
  IF (periph_of bus w) = irq_none ->
  ACK (IEN (periph_of bus w)) = true ->
  MSTOP (IEN (periph_of bus w)) = true ->
  lowest_energy_mode w !! Z.to_nat I2C_EM = Some c ->
  0 <= c < 4 ->
  mem w p = 59 ->
  exists w3 w4,
    run [ L_start (write_request bus 64 230 1 1 cb p) true;
          L_irq bus irq_ACK rx1; L_irq bus irq_ACK rx2; L_irq bus irq_ACK rx3 ] w
      = Some w3 /\
    history w3 =
      history w ++
      [ EvBlock I2C_EM; EvBusy bus true; EvCMD bus I2C_CMD_START;
        EvTXDATA bus 128; EvTXDATA bus 230; EvTXDATA bus 59;
        EvCMD bus I2C_CMD_STOP ] /\
    event_scheduled w3 = event_scheduled w /\
    busy (sm_of bus w3) = true /\
    current_state (sm_of bus w3) = send_stop /\
    run [ L_irq bus irq_MSTOP rx4 ] w3 = Some w4 /\
    history w4 = history w3 ++ [ EvPost cb; EvBusy bus false; EvUnblock I2C_EM ] /\
    event_scheduled w4 = Z.lor (event_scheduled w) cb /\
    busy (sm_of bus w4) = false /\
    current_state (sm_of bus w4) = end_process /\
    lowest_energy_mode w4 = lowest_energy_mode w.
Proof.
  intros Hb HIF HACK HSTOP Hc Hc4 Hm.
  destruct w as [es l s0 s1 p0 p1 m h].
  change (Z.to_nat I2C_EM) with 2%nat in Hc.
  destruct l as [|a0 [|a1 [|c' l]]]; try discriminate.
  cbn in Hc, Hm. injection Hc as ->.
  assert (Hcases : c = 0 \/ c = 1 \/ c = 2 \/ c = 3) by lia.
  destruct bus; cbn in Hb, HIF, HACK, HSTOP.
  - destruct s1 as [st wh da ra nb fc cm bz dt bc nr rc].
    destruct p1 as [iflags [en_rx en_ack en_nack en_stop] rxd idle].
    cbn in Hb, HIF, HACK, HSTOP. subst bz iflags en_ack en_stop.
    destruct Hcases as [-> | [-> | [-> | ->] ] ]; eexists; eexists;
      (split; [run_cbv Hm; reflexivity|]);
      (split; [cbn; rewrite <- !app_assoc; reflexivity|]);
      (split; [reflexivity|]); (split; [reflexivity|]); (split; [reflexivity|]);
      (split; [run_cbv Hm; reflexivity|]);
      (split; [cbn; rewrite <- !app_assoc; reflexivity|]);
      repeat split; reflexivity.
  - destruct s0 as [st wh da ra nb fc cm bz dt bc nr rc].
    destruct p0 as [iflags [en_rx en_ack en_nack en_stop] rxd idle].
    cbn in Hb, HIF, HACK, HSTOP. subst bz iflags en_ack en_stop.
    destruct Hcases as [-> | [-> | [-> | ->] ] ]; eexists; eexists;
      (split; [run_cbv Hm; reflexivity|]);
      (split; [cbn; rewrite <- !app_assoc; reflexivity|]);
      (split; [reflexivity|]); (split; [reflexivity|]); (split; [reflexivity|]);
      (split; [run_cbv Hm; reflexivity|]);
      (split; [cbn; rewrite <- !app_assoc; reflexivity|]);
      repeat split; reflexivity.
Qed.

Lemma i2c_write_scenario_witness :
  exists w3 w4,
    run [ L_start (write_request false 64 230 1 1 256 100) true;
          L_irq false irq_ACK 0; L_irq false irq_ACK 0; L_irq false irq_ACK 0 ]
        (world_open (word_at_100 59))
      = Some w3 /\
    history w3 =
      history (world_open (word_at_100 59)) ++
      [ EvBlock I2C_EM; EvBusy false true; EvCMD false I2C_CMD_START;
        EvTXDATA false 128; EvTXDATA false 230; EvTXDATA false 59;
        EvCMD false I2C_CMD_STOP ] /\
    event_scheduled w3 = event_scheduled (world_open (word_at_100 59)) /\
    busy (sm_of false w3) = true /\
    current_state (sm_of false w3) = send_stop /\
    run [ L_irq false irq_MSTOP 0 ] w3 = Some w4 /\
    history w4 = history w3 ++ [ EvPost 256; EvBusy false false; EvUnblock I2C_EM ] /\
    event_scheduled w4 = Z.lor (event_scheduled (world_open (word_at_100 59))) 256 /\
    busy (sm_of false w4) = false /\
    current_state (sm_of false w4) = end_process /\
    lowest_energy_mode w4 = lowest_energy_mode (world_open (word_at_100 59)).
Proof.
  apply (i2c_write_scenario false 256 100 0 0 0 0 0 (world_open (word_at_100 59)));
    try (vm_compute; reflexivity).
  lia.
Defined.

Lemma i2c_start_mutual_exclusion_witness :
  let r1 := write_request false 64 230 1 1 32 100 in
  let r2 := read_request false 64 231 1 1 256 100 in
  let mid := [ L_start r2 true; L_irq false irq_ACK 0; L_irq false irq_ACK 0;
               L_irq false irq_ACK 0; L_start r2 true; L_irq false irq_MSTOP 0 ] in
  let w1 := world_open (word_at_100 59) in
  let w2 := after (i2c_start r1) w1 in
  let w3 := after_run mid w2 in
  let w4 := after (i2c_start r2) w3 in
  busy (sm_of (ss_which_i2c r1) w1) = false /\
  busy (sm_of (ss_which_i2c r1) w2) = true /\
  busy (sm_of (ss_which_i2c r1) w3) = false /\
  (forall r w, busy (sm_of (ss_which_i2c r) w) = true -> i2c_start r w = Spin) /\
  history w2 = history w1 ++ start_events r1 /\
  (exists h1 h2,
     history w3 =
       history w2 ++ h1 ++
       EvPost (ss_finished_callback r1) :: EvBusy (ss_which_i2c r1) false :: h2 /\
     Forall (not_busy_event (ss_which_i2c r1)) h1) /\
  history w4 = history w3 ++ start_events r2.
Proof.
  intros r1 r2 mid w1 w2 w3 w4.
  apply (i2c_start_mutual_exclusion r1 r2 mid w1 w2 w3 w4);
    vm_compute; reflexivity.
Defined.

(** C7. A NACK taken in [request_read] writes START and then the device
    address with the read bit, and changes nothing else; a NACK taken in
    any other state stops in the assertion, nothing written and nothing
    changed. *)
Theorem i2c_nack_sm_retry_or_halt (bus : bool) (w : world) :
  i2c_nack_sm bus w =
  if decide (current_state (sm_of bus w) = request_read)
  then Ret tt
         (emit (EvTXDATA bus
                  (Z.lor (wrap32 (Z.shiftl (device_address (sm_of bus w)) 1)) I2C_R))
            (emit (EvCMD bus I2C_CMD_START) w))
  else Halt w.
Proof.
  unfold i2c_nack_sm, get_sm, get, ret, write_CMD, write_TXDATA, modify,
    EFM_ASSERT, bind.
  destruct (decide (current_state (sm_of bus w) = request_read)) as [Heq|Hne].
  - by rewrite bool_decide_eq_true_2.
  - by rewrite bool_decide_eq_false_2.
Qed.

(** C2, what the code does. The read of the one-byte user register 0xE7
    of device 0x40, as [si7021_i2c_open] requests it: once the read
    address is acknowledged one byte is expected.  When it arrives the
    handler stores it, counts down to zero and answers with ACK, and the
    state machine stays in [read_data]: neither NACK nor STOP is written.
    Only a further byte-received interrupt, whose byte is dropped, is
    answered with NACK and STOP and moves the machine to [send_stop]. *)
Theorem i2c_read_last_byte_is_acked :
  let r := read_request false 64 231 1 1 256 100 in
  let w := after_run [ L_start r true; L_irq false irq_ACK 0;
                       L_irq false irq_ACK 0; L_irq false irq_ACK 0 ]
             (world_open (word_at_100 0)) in
  history w =
    [ EvBlock I2C_EM; EvBusy false true; EvCMD false I2C_CMD_START;
      EvTXDATA false 128; EvTXDATA false 231;
      EvCMD false I2C_CMD_START; EvTXDATA false 129 ] /\
  current_state (sm_of false w) = read_data /\
  byte_counter (sm_of false w) = 1 /\
  exists w1 w2,
    run [ L_irq false irq_RXDATAV 59 ] w = Some w1 /\
    history w1 = history w ++ [ EvCMD false I2C_CMD_ACK ] /\
    current_state (sm_of false w1) = read_data /\
    byte_counter (sm_of false w1) = 0 /\
    mem w1 100 = 59 /\
    run [ L_irq false irq_RXDATAV 255 ] w1 = Some w2 /\
    history w2 = history w1 ++ [ EvCMD false I2C_CMD_NACK; EvCMD false I2C_CMD_STOP ] /\
    current_state (sm_of false w2) = send_stop /\
    mem w2 100 = 59.
Proof.
  intros r w.
  do 3 (split; [vm_compute; reflexivity|]).
  eexists. eexists.
  do 8 (split; [vm_compute; reflexivity|]).
  vm_compute; reflexivity.
Qed.

(** C4, what the code does. With no register-address byte configured,
    the first ACK of a read does not write START: the [initialize] branch
    does not look at the direction, it transmits the most significant
    payload byte of the caller's word (here 0x12 of 0x1234) and counts it
    off; the repeated START and the read address come with the second
    ACK, one byte of the requested two already used up.  With register
    bytes configured they go out most significant byte first (0x78 then
    0x66 for 0x7866), and a write with none starts on its payload
    (0x35 of 0x3517). *)
Theorem i2c_ack_initialize_without_register :
  let rd := read_request true 112 0 0 2 128 100 in
  let w0 := after (i2c_start rd) (world_open (word_at_100 4660)) in
  let w1 := after_run [ L_irq true irq_ACK 0 ] w0 in
  let w2 := after_run [ L_irq true irq_ACK 0 ] w1 in
  history w0 =
    [ EvBlock I2C_EM; EvBusy true true; EvCMD true I2C_CMD_START;
      EvTXDATA true 224 ] /\
  run [ L_irq true irq_ACK 0 ] w0 = Some w1 /\
  history w1 = history w0 ++ [ EvTXDATA true 18 ] /\
  current_state (sm_of true w1) = send_register /\
  byte_counter (sm_of true w1) = 1 /\
  run [ L_irq true irq_ACK 0 ] w1 = Some w2 /\
  history w2 = history w1 ++ [ EvCMD true I2C_CMD_START; EvTXDATA true 225 ] /\
  current_state (sm_of true w2) = request_read /\
  byte_counter (sm_of true w2) = 1 /\
  option_map history
    (run [ L_start (read_request true 112 30822 2 6 128 100) true;
           L_irq true irq_ACK 0; L_irq true irq_ACK 0 ]
       (world_open (word_at_100 0))) =
    Some [ EvBlock I2C_EM; EvBusy true true; EvCMD true I2C_CMD_START;
           EvTXDATA true 224; EvTXDATA true 120; EvTXDATA true 102 ] /\
  option_map history
    (run [ L_start (write_request true 112 0 0 2 0 100) true;
           L_irq true irq_ACK 0 ]
       (world_open (word_at_100 13591))) =
    Some [ EvBlock I2C_EM; EvBusy true true; EvCMD true I2C_CMD_START;
           EvTXDATA true 224; EvTXDATA true 53 ].
Proof.
  intros rd w0 w1 w2.
  do 10 (split; [vm_compute; reflexivity|]).
  vm_compute; reflexivity.
Qed.

(** ** Reading: the bytes received *)

Lemma rx_store_same (d rx : Z) (m : Z -> Z) :
  rx_store d rx m d = Z.lor (wrap32 (Z.shiftl (m d) 8)) rx.
Proof. unfold rx_store. by rewrite !fn_lookup_insert. Qed.

Lemma rx_store_other (d rx a : Z) (m : Z -> Z) :
  a <> d -> rx_store d rx m a = m a.
Proof. intros Hne. unfold rx_store. by rewrite !fn_lookup_insert_ne. Qed.

Lemma i2c_isr_rxdatav (bus : bool) (rx : Z) (w : world) :
  IF (periph_of bus w) = irq_none ->
  RXDATAV (IEN (periph_of bus w)) = true ->
  do_step (L_irq bus irq_RXDATAV rx) w = i2c_rxdatav_sm bus (hw_received bus rx w).
Proof.
  intros HIF HEN.
  destruct w as [es l s0 s1 p0 p1 m h].
  destruct bus; cbn in HIF, HEN.
  - destruct p1 as [iflags [en_rx en_ack en_nack en_stop] rxd idle].
    cbn in HIF, HEN. subst. unfold irq_none.
    unfold do_step, i2c_isr, write_IFC, read_IF, hw_received, hw_raise,
      set_periph, periph_of, irq_none, irq_RXDATAV, get, ret, modify, bind.
    cbn -[i2c_rxdatav_sm].
    cbv [irq_clear irq_or irq_and RXDATAV ACK NACK MSTOP andb orb negb].
    match goal with
    | |- context [i2c_rxdatav_sm ?b ?v] =>
        destruct (i2c_rxdatav_sm b v) as [ [] ?| | |]
    end; reflexivity.
  - destruct p0 as [iflags [en_rx en_ack en_nack en_stop] rxd idle].
    cbn in HIF, HEN. subst. unfold irq_none.
    unfold do_step, i2c_isr, write_IFC, read_IF, hw_received, hw_raise,
      set_periph, periph_of, irq_none, irq_RXDATAV, get, ret, modify, bind.
    cbn -[i2c_rxdatav_sm].
    cbv [irq_clear irq_or irq_and RXDATAV ACK NACK MSTOP andb orb negb].
    match goal with
    | |- context [i2c_rxdatav_sm ?b ?v] =>
        destruct (i2c_rxdatav_sm b v) as [ [] ?| | |]
    end; reflexivity.
Qed.

(** What [i2c_rxdatav_sm] does, in full. *)
Lemma i2c_rxdatav_sm_eq (bus : bool) (w : world) :
  i2c_rxdatav_sm bus w =
  if 0 <? byte_counter (sm_of bus w) then
    Ret tt
      (emit (EvCMD bus I2C_CMD_ACK)
         (set_sm bus
            (sm_with_byte_counter (wrap32 (byte_counter (sm_of bus w) - 1))
               (sm_of bus w))
            (set_mem (rx_store (data (sm_of bus w)) (RXDATA (periph_of bus w)) (mem w))
               w)))
  else
    Ret tt
      (after (set_current_state bus send_stop)
         (emit (EvCMD bus I2C_CMD_STOP) (emit (EvCMD bus I2C_CMD_NACK) w))).
Proof.
  unfold i2c_rxdatav_sm, get_sm, load, store, set_byte_counter, write_CMD,
    get, ret, modify, bind.
  lazy beta iota zeta.
  destruct (0 <? byte_counter (sm_of bus w)); reflexivity.
Qed.

(** *** Arithmetic of the accumulation *)

Lemma lor_shiftl_add (x k y : Z) :
  0 <= k -> 0 <= y < 2 ^ k -> Z.lor (Z.shiftl x k) y = x * 2 ^ k + y.
Proof.
  intros Hk Hy. rewrite Z.shiftl_mul_pow2 by done.
  assert (Hland : Z.land (x * 2 ^ k) y = 0).
  { apply Z.bits_inj'. intros i Hi. rewrite Z.land_spec, Z.bits_0.
    destruct (Z.lt_ge_cases i k) as [Hlt|Hge].
    - by rewrite Z.mul_pow2_bits_low.
    - rewrite <- (Z.mod_small y (2 ^ k)) by done.
      rewrite Z.mod_pow2_bits_high by lia. apply andb_false_r. }
  rewrite <- Z.lxor_lor by done. symmetry. by apply Z.add_nocarry_lxor.
Qed.

Lemma rx_accumulate (d b : Z) :
  is_byte b -> Z.lor (wrap32 (Z.shiftl d 8)) b = wrap32 (d * 256 + b).
Proof.
  intros Hb. unfold is_byte in Hb. unfold wrap32.
  rewrite Z.shiftl_mul_pow2 by lia. change (2 ^ 8) with 256.
  change (2 ^ 32) with (16777216 * 256).
  rewrite Z.mul_mod_distr_r by lia.
  pose proof (Z.mod_pos_bound d 16777216 ltac:(lia)) as Hd.
  rewrite <- (Z.shiftl_mul_pow2 _ 8) by lia.
  rewrite lor_shiftl_add by (change (2 ^ 8) with 256; lia).
  change (2 ^ 8) with 256.
  rewrite (Z.div_mod d 16777216) at 2 by lia.
  replace ((16777216 * (d / 16777216) + d mod 16777216) * 256 + b)
    with ((d mod 16777216 * 256 + b) + (d / 16777216) * (16777216 * 256)) by lia.
  rewrite Z.mod_add by lia.
  symmetry. apply Z.mod_small. lia.
Qed.

Lemma be_acc_cons (acc b : Z) (bs : list Z) :
  be_acc acc (b :: bs) = be_acc (acc * 256 + b) bs.
Proof. reflexivity. Qed.

Lemma be_acc_split (acc : Z) (bs : list Z) :
  be_acc acc bs = acc * 2 ^ (8 * Z.of_nat (length bs)) + be_value bs.
Proof.
  unfold be_value. revert acc. induction bs as [|b bs IH]; intros acc.
  - cbn. lia.
  - rewrite !be_acc_cons, IH, (IH (0 * 256 + b)).
    replace (8 * Z.of_nat (length (b :: bs)))
      with (8 + 8 * Z.of_nat (length bs)) by (cbn [length]; lia).
    rewrite Z.pow_add_r by lia. change (2 ^ 8) with 256. lia.
Qed.

Lemma be_acc_wrap32 (acc : Z) (bs : list Z) :
  wrap32 (be_acc (wrap32 acc) bs) = wrap32 (be_acc acc bs).
Proof.
  rewrite (be_acc_split acc), (be_acc_split (wrap32 acc)). unfold wrap32.
  rewrite Z.add_mod by lia. rewrite Z.mul_mod_idemp_l by lia.
  by rewrite <- Z.add_mod by lia.
Qed.

Lemma be_value_bound (bs : list Z) :
  Forall is_byte bs -> 0 <= be_value bs < 2 ^ (8 * Z.of_nat (length bs)).
Proof.
  unfold be_value. induction bs as [|b bs IH] using rev_ind; intros Hall.
  - cbn. lia.
  - apply Forall_app in Hall as [Hbs Hb]. apply Forall_cons_1 in Hb as [Hb _].
    unfold is_byte in Hb. specialize (IH Hbs).
    unfold be_acc in *. rewrite fold_left_app. cbn [fold_left].
    rewrite length_app. cbn [length].
    replace (8 * Z.of_nat (length bs + 1)) with (8 * Z.of_nat (length bs) + 8) by lia.
    rewrite Z.pow_add_r by lia. change (2 ^ 8) with 256. lia.
Qed.

(** A sum is its second term modulo 2^32 exactly when the first term is
    a multiple. *)
Lemma wrap32_add_eq (a y : Z) :
  is_uint32 y -> (wrap32 (a + y) = y <-> wrap32 a = 0).
Proof.
  intros Hy. unfold is_uint32 in Hy. unfold wrap32. split; intros H.
  - replace a with ((a + y) - y) by lia.
    rewrite Zminus_mod, H, (Z.mod_small y) by lia.
    by rewrite Z.sub_diag.
  - rewrite Z.add_mod, H, Z.add_0_l, Z.mod_mod by lia. by apply Z.mod_small.
Qed.

Lemma wrap32_shifted (x k : Z) :
  0 <= k <= 32 -> (wrap32 (x * 2 ^ k) = 0 <-> x mod 2 ^ (32 - k) = 0).
Proof.
  intros Hk. unfold wrap32.
  replace (2 ^ 32) with (2 ^ (32 - k) * 2 ^ k)
    by (rewrite <- Z.pow_add_r by lia; f_equal; lia).
  assert (0 < 2 ^ k) by (apply Z.pow_pos_nonneg; lia).
  assert (0 < 2 ^ (32 - k)) by (apply Z.pow_pos_nonneg; lia).
  rewrite Z.mul_mod_distr_r by lia. nia.
Qed.

Lemma irq_rxdatav_step (bus : bool) (rx : Z) (w : world) :
  IF (periph_of bus w) = irq_none ->
  RXDATAV (IEN (periph_of bus w)) = true ->
  0 < byte_counter (sm_of bus w) ->
  do_step (L_irq bus irq_RXDATAV rx) w = Ret tt (rx_world bus rx w).
Proof.
  intros HIF HEN Hbc. rewrite i2c_isr_rxdatav, i2c_rxdatav_sm_eq by done.
  replace (byte_counter (sm_of bus (hw_received bus rx w)))
    with (byte_counter (sm_of bus w)) by (by destruct bus).
  destruct (Z.ltb_spec 0 (byte_counter (sm_of bus w))); [|lia].
  destruct bus; reflexivity.
Qed.

Lemma irq_rxdatav_run (bus : bool) (bs : list Z) (w : world) :
  IF (periph_of bus w) = irq_none ->
  RXDATAV (IEN (periph_of bus w)) = true ->
  is_uint32 (byte_counter (sm_of bus w)) ->
  Z.of_nat (length bs) <= byte_counter (sm_of bus w) ->
  Forall is_byte bs ->
  is_uint32 (mem w (data (sm_of bus w))) ->
  exists w',
    run (L_irq bus irq_RXDATAV <$> bs) w = Some w' /\
    mem w' (data (sm_of bus w)) = wrap32 (be_acc (mem w (data (sm_of bus w))) bs) /\
    (forall a, a <> data (sm_of bus w) -> mem w' a = mem w a) /\
    byte_counter (sm_of bus w') = byte_counter (sm_of bus w) - Z.of_nat (length bs) /\
    current_state (sm_of bus w') = current_state (sm_of bus w) /\
    history w' = history w ++ replicate (length bs) (EvCMD bus I2C_CMD_ACK).
Proof.
  revert w. induction bs as [|b bs IH]; intros w HIF HEN Hbc Hlen Hall Hmem.
  - exists w. split; [reflexivity|]. split.
    { cbn. symmetry. by apply wrap32_small. }
    split; [done|]. split; [cbn; lia|]. split; [done|].
    cbn. by rewrite app_nil_r.
  - apply Forall_cons_1 in Hall as [Hb Hall]. cbn [length] in Hlen.
    assert (Hpos : 0 < byte_counter (sm_of bus w)) by lia.
    change (run (L_irq bus irq_RXDATAV <$> b :: bs) w)
      with (match do_step (L_irq bus irq_RXDATAV b) w with
            | Ret _ w' => run (L_irq bus irq_RXDATAV <$> bs) w'
            | Spin => run (L_irq bus irq_RXDATAV <$> bs) w
            | Halt _ => None
            | Undef => None
            end).
    rewrite irq_rxdatav_step by done.
    unfold is_uint32 in Hbc.
    assert (Hbc1 : byte_counter (sm_of bus (rx_world bus b w))
                   = byte_counter (sm_of bus w) - 1).
    { transitivity (wrap32 (byte_counter (sm_of bus w) - 1));
        [by destruct bus|].
      apply wrap32_small. unfold is_uint32. lia. }
    assert (Hd1 : data (sm_of bus (rx_world bus b w)) = data (sm_of bus w))
      by (by destruct bus).
    assert (Hm1 : mem (rx_world bus b w)
                  = rx_store (data (sm_of bus w)) b (mem w))
      by (by destruct bus).
    destruct (IH (rx_world bus b w)) as (w' & Hrun & Hval & Hoth & Hcnt & Hst & Hh).
    + by destruct bus.
    + rewrite <- HEN. by destruct bus.
    + rewrite Hbc1. unfold is_uint32. lia.
    + rewrite Hbc1. lia.
    + done.
    + rewrite Hd1, Hm1, rx_store_same, rx_accumulate by done. apply wrap32_range.
    + exists w'. split; [exact Hrun|].
      rewrite Hd1 in Hval, Hoth. rewrite Hm1 in Hval, Hoth.
      split; [|split; [|split; [|split]]].
      * rewrite Hval, rx_store_same, rx_accumulate by done.
        by rewrite be_acc_wrap32.
      * intros a Ha. rewrite Hoth by done. by apply rx_store_other.
      * rewrite Hcnt, Hbc1. cbn [length]. lia.
      * rewrite Hst. by destruct bus.
      * rewrite Hh. cbn [length replicate].
        transitivity ((history w ++ [EvCMD bus I2C_CMD_ACK]) ++
                      replicate (length bs) (EvCMD bus I2C_CMD_ACK)).
        { by destruct bus. }
        by rewrite <- app_assoc.
Qed.

Lemma same_mem_refl (w : world) : same_mem w w.
Proof. reflexivity. Qed.

Lemma same_mem_trans (w1 w2 w3 : world) :
  same_mem w1 w2 -> same_mem w2 w3 -> same_mem w1 w3.
Proof. unfold same_mem. congruence. Qed.

(** An operation of the state machine that does not store. *)
Ltac same_mem_prim :=
  let H := fresh "H" in
  intros ? ? ? H;
  unfold set_current_state, set_byte_counter, set_register_byte_counter,
    write_CMD, write_TXDATA, load, byte_to_write, get_sm, get, ret, modify,
    undef, bind in H;
  lazy beta iota zeta in H;
  try match type of H with
      | context [if ?c then _ else _] => destruct c
      end;
  try discriminate; ret_inv H; reflexivity.

Ltac same_mem_step :=
  lazy zeta;
  first
    [ apply (follows_ret same_mem same_mem_refl)
    | apply (follows_EFM_ASSERT same_mem same_mem_refl)
    | solve [same_mem_prim]
    | apply (follows_bind same_mem same_mem_trans); [|intros ?]
    | match goal with
      | |- follows _ (if ?c then _ else _) => destruct c
      | |- follows _ (match ?x with _ => _ end) => destruct x
      end ].

(** Before the bytes arrive nothing writes the caller's word: neither
    [i2c_start] nor the ACK and NACK handlers store to memory. *)
Lemma i2c_start_mem (s : I2C_START_STRUCT) : follows same_mem (i2c_start s).
Proof.
  intros w a w' H. unfold i2c_start, get_sm, get, ret, bind in H.
  lazy beta iota zeta in H.
  destruct (busy (sm_of (ss_which_i2c s) w)); [discriminate|].
  unfold EFM_ASSERT at 1 in H.
  destruct (STATE_IDLE (periph_of (ss_which_i2c s) w)); [|discriminate].
  destruct (sleep_block_mode I2C_EM w) as [u w1| | |] eqn:Hs; try discriminate.
  apply sleep_block_mode_Ret in Hs as (c & _ & _ & ->).
  unfold set_busy, get_sm, get, ret, write_CMD, write_TXDATA, modify, bind in H.
  ret_inv H. reflexivity.
Qed.

Lemma i2c_ack_sm_mem (bus : bool) : follows same_mem (i2c_ack_sm bus).
Proof. unfold i2c_ack_sm, write_payload_byte. repeat same_mem_step. Qed.

Lemma i2c_nack_sm_mem (bus : bool) : follows same_mem (i2c_nack_sm bus).
Proof.
  intros w a w' H.
  unfold i2c_nack_sm, write_CMD, write_TXDATA, get_sm, get, ret, modify,
    EFM_ASSERT, bind in H.
  lazy beta iota zeta in H.
  destruct (bool_decide (current_state (sm_of bus w) = request_read));
    [|discriminate].
  ret_inv H. reflexivity.
Qed.

(** C9, as the code has it. Neither [i2c_start] nor the ACK and NACK
    handlers write the caller's word, and the byte-received handler
    shifts each byte in on top of what the word holds.  With [n] bytes
    [bs] received while as many are still expected, the word ends as
    [(initial << 8n) | value], cut to 32 bits, [value] being the bytes
    read most significant first, and no other word changes.  For [n <= 4]
    the word ends as [value] itself exactly when the low [32 - 8n] bits
    of its initial content are zero: a zero word is enough, though not
    needed. *)
Theorem i2c_read_accumulates_onto_destination
    (bus : bool) (bs : list Z) (w : world) :
  IF (periph_of bus w) = irq_none ->
  RXDATAV (IEN (periph_of bus w)) = true ->
  is_uint32 (byte_counter (sm_of bus w)) ->
  Z.of_nat (length bs) <= byte_counter (sm_of bus w) ->
  Forall is_byte bs ->
  is_uint32 (mem w (data (sm_of bus w))) ->
  (forall s, follows same_mem (i2c_start s)) /\
  follows same_mem (i2c_ack_sm bus) /\
  follows same_mem (i2c_nack_sm bus) /\
  exists w',
    run (L_irq bus irq_RXDATAV <$> bs) w = Some w' /\
    mem w' (data (sm_of bus w)) =
      wrap32 (Z.lor (Z.shiftl (mem w (data (sm_of bus w)))
                       (8 * Z.of_nat (length bs)))
                (be_value bs)) /\
    (forall a, a <> data (sm_of bus w) -> mem w' a = mem w a) /\
    history w' = history w ++ replicate (length bs) (EvCMD bus I2C_CMD_ACK) /\
    (Z.of_nat (length bs) <= 4 ->
     (mem w' (data (sm_of bus w)) = be_value bs <->
      mem w (data (sm_of bus w)) mod 2 ^ (32 - 8 * Z.of_nat (length bs)) = 0)).
Proof.
  intros HIF HEN Hbc Hlen Hall Hmem.
  split; [apply i2c_start_mem|]. split; [apply i2c_ack_sm_mem|].
  split; [apply i2c_nack_sm_mem|].
  destruct (irq_rxdatav_run bus bs w HIF HEN Hbc Hlen Hall Hmem)
    as (w' & Hrun & Hval & Hoth & _ & _ & Hh).
  pose proof (be_value_bound bs Hall) as Hbe.
  assert (Hsum : mem w' (data (sm_of bus w)) =
                 wrap32 (mem w (data (sm_of bus w)) * 2 ^ (8 * Z.of_nat (length bs))
                         + be_value bs))
    by (by rewrite Hval, be_acc_split).
  exists w'. split; [exact Hrun|]. split; [|split; [exact Hoth|split; [exact Hh|]]].
  - rewrite lor_shiftl_add by (done || lia). exact Hsum.
  - intros Hn. rewrite Hsum.
    rewrite wrap32_add_eq.
    + apply wrap32_shifted. lia.
    + unfold is_uint32. split; [lia|].
      apply Z.lt_le_trans with (2 ^ (8 * Z.of_nat (length bs))); [lia|].
      apply Z.pow_le_mono_r; lia.
Qed.

Lemma i2c_read_accumulates_onto_destination_witness :
  let w := after_run [ L_start (read_request false 64 245 1 2 32 100) true;
                       L_irq false irq_ACK 0; L_irq false irq_ACK 0;
                       L_irq false irq_ACK 0 ]
             (world_open (word_at_100 59)) in
  (forall s, follows same_mem (i2c_start s)) /\
  follows same_mem (i2c_ack_sm false) /\
  follows same_mem (i2c_nack_sm false) /\
  exists w',
    run (L_irq false irq_RXDATAV <$> [86; 120]) w = Some w' /\
    mem w' (data (sm_of false w)) =
      wrap32 (Z.lor (Z.shiftl (mem w (data (sm_of false w)))
                       (8 * Z.of_nat (length [86; 120])))
                (be_value [86; 120])) /\
    (forall a, a <> data (sm_of false w) -> mem w' a = mem w a) /\
    history w' = history w ++ replicate (length [86; 120]) (EvCMD false I2C_CMD_ACK) /\
    (Z.of_nat (length [86; 120]) <= 4 ->
     (mem w' (data (sm_of false w)) = be_value [86; 120] <->
      mem w (data (sm_of false w)) mod 2 ^ (32 - 8 * Z.of_nat (length [86; 120])) = 0)).
Proof.
  intros w.
  apply (i2c_read_accumulates_onto_destination false [86; 120] w).
  - vm_compute; reflexivity.
  - vm_compute; reflexivity.
  - split; by vm_compute.
  - by vm_compute.
  - repeat constructor; by vm_compute.
  - split; by vm_compute.
Defined.

(** C9, as the claim has it, fails: a destination that is not zero can
    give the documented result all the same.  A two-byte read of 0x56 and
    0x78 into a word that holds 0x10000 leaves 0x5678 in it. *)
Lemma i2c_read_nonzero_destination_same_value :
  let w0 := world_open (word_at_100 65536) in
  let w := after_run [ L_start (read_request false 64 245 1 2 32 100) true;
                       L_irq false irq_ACK 0; L_irq false irq_ACK 0;
                       L_irq false irq_ACK 0;
                       L_irq false irq_RXDATAV 86; L_irq false irq_RXDATAV 120 ]
             w0 in
  mem w0 100 <> 0 /\ mem w 100 = 22136 /\ be_value [86; 120] = 22136.
Proof.
  intros w0 w. split; [by vm_compute|]. split; vm_compute; reflexivity.
Qed.

(** * Further properties *)

(** ** Entering sleep *)

(** X1. [enter_sleep] and [current_block_energy_mode] read the same table
    and agree on it: on a table of five counters, none negative, with
    [em] the mode that [current_block_energy_mode] returns, [enter_sleep]
    does not sleep when [em] is EM0 or EM1 and otherwise enters the mode
    just above [em] (EM1 for EM2, EM2 for EM3, EM3 for EM4); neither call
    changes anything. *)
Theorem enter_sleep_matches_current_block (w : world) :
  counters_ok (lowest_energy_mode w) ->
  exists em,
    current_block_energy_mode w = Ret em w /\
    enter_sleep w = Ret (emu_of_block em) w.
Proof.
  intros [Hlen Hall].
  destruct w as [es l s0 s1 p0 p1 m h]. cbn in Hlen, Hall.
  destruct l as [|a [|b [|c [|d [|e [|]]]]]]; try discriminate.
  apply Forall_cons_1 in Hall as [Ha Hall].
  apply Forall_cons_1 in Hall as [Hb Hall].
  apply Forall_cons_1 in Hall as [Hc Hall].
  apply Forall_cons_1 in Hall as [Hd Hall].
  apply Forall_cons_1 in Hall as [He _].
  unfold current_block_energy_mode, enter_sleep.
  change (seqZ 0 MAX_ENERGY_MODES) with [0; 1; 2; 3; 4].
  unfold EM0, EM1, EM2, EM3, EM4, foldM, lem_read, ret, bind. index_cbn.
  destruct (Z.ltb_spec 0 a), (Z.eqb_spec a 0); try lia; index_cbn;
    [eexists; split; reflexivity|].
  destruct (Z.ltb_spec 0 b), (Z.eqb_spec b 0); try lia; index_cbn;
    [eexists; split; reflexivity|].
  destruct (Z.ltb_spec 0 c), (Z.eqb_spec c 0); try lia; index_cbn;
    [eexists; split; reflexivity|].
  destruct (Z.ltb_spec 0 d), (Z.eqb_spec d 0); try lia; index_cbn;
    [eexists; split; reflexivity|].
  destruct (Z.ltb_spec 0 e); index_cbn; eexists; split; reflexivity.
Qed.

Lemma counters_ok_example : counters_ok [0; 0; 1; 0; 2].
Proof.
  split; [reflexivity|].
  repeat (apply Forall_cons_2; [lia|]). apply Forall_nil_2.
Qed.

Lemma enter_sleep_matches_current_block_witness :
  let w := set_lowest_energy_mode [0; 0; 1; 0; 2] (world_open (word_at_100 0)) in
  exists em,
    current_block_energy_mode w = Ret em w /\
    enter_sleep w = Ret (emu_of_block em) w.
Proof.
  intros w. apply (enter_sleep_matches_current_block w). exact counters_ok_example.
Defined.

(** ** The block counters along a run *)

Lemma same_lem_refl w : same_lem w w.
Proof. reflexivity. Qed.
Lemma same_lem_trans w1 w2 w3 : same_lem w1 w2 -> same_lem w2 w3 -> same_lem w1 w3.
Proof. unfold same_lem. congruence. Qed.
Lemma quiet_refl w : quiet w w.
Proof. repeat split. Qed.
Lemma quiet_trans w1 w2 w3 : quiet w1 w2 -> quiet w2 w3 -> quiet w1 w3.
Proof. unfold quiet. intros (?&?&?) (?&?&?). repeat split; congruence. Qed.
Lemma keeps_bounded_refl w : keeps_bounded w w.
Proof. by intros ?. Qed.
Lemma keeps_bounded_trans w1 w2 w3 :
  keeps_bounded w1 w2 -> keeps_bounded w2 w3 -> keeps_bounded w1 w3.
Proof. unfold keeps_bounded. auto. Qed.
Lemma quiet_same_lem w w' : quiet w w' -> same_lem w w'.
Proof. by intros (?&_). Qed.
Lemma same_lem_keeps_bounded w w' : same_lem w w' -> keeps_bounded w w'.
Proof. unfold same_lem, keeps_bounded. by intros ->. Qed.

Ltac frame_prim :=
  let H := fresh "H" in
  intros ? ? ? H;
  unfold set_current_state, set_byte_counter, set_register_byte_counter,
    set_busy, write_CMD, write_TXDATA, load, store, byte_to_write, write_IFC,
    read_IF, add_scheduled_event, remove_scheduled_event, get_scheduled_events,
    get_sm, get, ret, modify, undef, bind in H;
  lazy beta iota zeta in H;
  try match type of H with
      | context [if ?c then _ else _] => destruct c
      end;
  try discriminate; ret_inv H;
  unfold same_lem, quiet; cbn;
  repeat match goal with
         | |- context [if ?b then _ else _] => destruct b
         end;
  repeat split; reflexivity.

Ltac frame_step R Rrefl Rtrans extra :=
  lazy zeta;
  first
    [ extra
    | apply (follows_ret R Rrefl)
    | apply (follows_EFM_ASSERT R Rrefl)
    | solve [frame_prim]
    | apply (follows_bind R Rtrans); [|intros ?]
    | match goal with
      | |- follows _ (if ?c then _ else _) => destruct c
      | |- follows _ (match ?x with _ => _ end) => destruct x
      end ].

Lemma quiet_i2c_ack_sm bus : follows quiet (i2c_ack_sm bus).
Proof.
  unfold i2c_ack_sm, write_payload_byte.
  repeat frame_step quiet quiet_refl quiet_trans fail.
Qed.

Lemma quiet_i2c_nack_sm bus : follows quiet (i2c_nack_sm bus).
Proof.
  unfold i2c_nack_sm. repeat frame_step quiet quiet_refl quiet_trans fail.
Qed.

Lemma quiet_i2c_rxdatav_sm bus : follows quiet (i2c_rxdatav_sm bus).
Proof.
  unfold i2c_rxdatav_sm. repeat frame_step quiet quiet_refl quiet_trans fail.
Qed.

Lemma sleep_unblock_mode_Ret (EM : Z) (a : unit) (w w' : world) :
  sleep_unblock_mode EM w = Ret a w' ->
  exists c, lowest_energy_mode w !! Z.to_nat EM = Some c /\ 0 <= c - 1 /\
            w' = counted (EvUnblock EM) EM (c - 1) w.
Proof.
  intros Hrun. unfold sleep_unblock_mode, bind in Hrun.
  unfold lem_read at 1 in Hrun.
  destruct (Z.ltb_spec EM 0) as [|HEM]; [discriminate|].
  destruct (lowest_energy_mode w !! Z.to_nat EM) as [c|] eqn:Hc; [|discriminate].
  destruct (Z.eqb_spec c INT_MIN); [discriminate|].
  rewrite (lem_write_Some EM c) in Hrun by done.
  unfold modify in Hrun.
  rewrite (lem_read_Some EM (c - 1)) in Hrun
    by (done || by apply (counted_lookup _ _ c)).
  unfold EFM_ASSERT in Hrun. destruct (Z.leb_spec 0 (c - 1)); [|discriminate].
  exists c. split; [done|]. split; [done|]. by injection Hrun as <-.
Qed.

Lemma bounded_sleep_block_mode EM : follows keeps_bounded (sleep_block_mode EM).
Proof.
  intros w a w' H [Hlen Hall].
  apply sleep_block_mode_Ret in H as (c & Hc & Hlt & ->). cbn. split.
  - by rewrite length_insert.
  - apply Forall_insert; [done|].
    rewrite Forall_lookup in Hall. specialize (Hall _ _ Hc). cbn in Hall. lia.
Qed.

Lemma bounded_sleep_unblock_mode EM : follows keeps_bounded (sleep_unblock_mode EM).
Proof.
  intros w a w' H [Hlen Hall].
  apply sleep_unblock_mode_Ret in H as (c & Hc & Hlt & ->). cbn. split.
  - by rewrite length_insert.
  - apply Forall_insert; [done|].
    rewrite Forall_lookup in Hall. specialize (Hall _ _ Hc). cbn in Hall. lia.
Qed.

Ltac bounded_step :=
  frame_step keeps_bounded keeps_bounded_refl keeps_bounded_trans
    ltac:(first
      [ apply bounded_sleep_block_mode
      | apply bounded_sleep_unblock_mode
      | apply (follows_weaken same_lem keeps_bounded _ same_lem_keeps_bounded);
        solve [frame_prim]
      | apply (follows_weaken quiet keeps_bounded _
                 (fun w w' H => same_lem_keeps_bounded w w' (quiet_same_lem w w' H)));
        first [ apply quiet_i2c_ack_sm | apply quiet_i2c_nack_sm
              | apply quiet_i2c_rxdatav_sm ] ]).

Lemma bounded_do_step l : follows keeps_bounded (do_step l).
Proof.
  destruct l; unfold do_step, i2c_isr, i2c_start, i2c_stop_sm; repeat bounded_step.
  all: intros ? ? ? H; ret_inv H; by intros ?.
Qed.

(** X2. Along every run of [i2c_start] calls, bus interrupts and scheduler
    and sleep calls that does not halt, each of the five block counters
    stays between 0 and 4: the two assertions of the sleep arbiter are
    the only way out of that range, and they stop the system. *)
Theorem run_keeps_counters_bounded (ls : list step_label) (w w' : world) :
  bounded (lowest_energy_mode w) ->
  run ls w = Some w' ->
  bounded (lowest_energy_mode w').
Proof.
  revert w. induction ls as [|l ls IH]; intros w Hb H.
  - cbn in H. by injection H as <-.
  - cbn [run] in H.
    destruct (do_step l w) as [u w1| | |] eqn:Hstep; try discriminate.
    + apply (IH w1); [|done]. by apply (bounded_do_step l w u).
    + by apply (IH w).
Qed.

Lemma bounded_open : bounded [0; 0; 0; 0; 0].
Proof.
  split; [reflexivity|].
  repeat (apply Forall_cons_2; [lia|]). apply Forall_nil_2.
Qed.

Lemma run_keeps_counters_bounded_witness :
  bounded (lowest_energy_mode
             (after_run [L_block EM4; L_start (write_request false 64 230 1 1 256 100) true;
                         L_irq false irq_ACK 0; L_irq false irq_ACK 0;
                         L_irq false irq_ACK 0; L_irq false irq_MSTOP 0]
                (world_open (word_at_100 59)))).
Proof.
  apply (run_keeps_counters_bounded
           [L_block EM4; L_start (write_request false 64 230 1 1 256 100) true;
            L_irq false irq_ACK 0; L_irq false irq_ACK 0;
            L_irq false irq_ACK 0; L_irq false irq_MSTOP 0]
           (world_open (word_at_100 59))).
  - exact bounded_open.
  - vm_compute; reflexivity.
Defined.

(** ** The I2C sleep block and the busy flags *)

Lemma bind_inv {A B} (m : M A) (k : A -> M B) (w w' : world) (b : B) :
  bind m k w = Ret b w' -> exists a w1, m w = Ret a w1 /\ k a w1 = Ret b w'.
Proof.
  unfold bind. destruct (m w) as [a w1| | |]; try discriminate. eauto.
Qed.

Lemma i2c_start_counters (s : I2C_START_STRUCT) (w w' : world) :
  i2c_start s w = Ret tt w' ->
  exists c, lowest_energy_mode w !! Z.to_nat I2C_EM = Some c /\ c + 1 < 5 /\
    lowest_energy_mode w' = <[Z.to_nat I2C_EM := c + 1]> (lowest_energy_mode w).
Proof.
  intros H. unfold i2c_start, get_sm, get, ret, bind in H.
  lazy beta iota zeta in H.
  destruct (busy (sm_of (ss_which_i2c s) w)); [discriminate|].
  unfold EFM_ASSERT at 1 in H.
  destruct (STATE_IDLE (periph_of (ss_which_i2c s) w)); [|discriminate].
  destruct (sleep_block_mode I2C_EM w) as [u w1| | |] eqn:Hs; try discriminate.
  apply sleep_block_mode_Ret in Hs as (c & Hc & Hlt & ->).
  unfold set_busy, get_sm, get, ret, write_CMD, write_TXDATA, modify, bind in H.
  ret_inv H. exists c. repeat split; done.
Qed.

Lemma i2c_stop_sm_Ret (bus : bool) (w w' : world) :
  i2c_stop_sm bus w = Ret tt w' ->
  current_state (sm_of bus w) = send_stop /\
  busy (sm_of bus w') = false /\
  sm_of (negb bus) w' = sm_of (negb bus) w /\
  event_scheduled w' = Z.lor (event_scheduled w) (finished_callback (sm_of bus w)) /\
  exists c, lowest_energy_mode w !! Z.to_nat I2C_EM = Some c /\ 0 <= c - 1 /\
    lowest_energy_mode w' = <[Z.to_nat I2C_EM := c - 1]> (lowest_energy_mode w).
Proof.
  intros H.
  unfold i2c_stop_sm, set_current_state, add_scheduled_event, set_busy,
    get_sm, get, ret, modify, EFM_ASSERT, bind in H.
  lazy beta iota zeta in H.
  destruct (bool_decide (current_state (sm_of bus w) = send_stop)) eqn:Hst;
    [|discriminate].
  apply bool_decide_eq_true_1 in Hst.
  match type of H with
  | sleep_unblock_mode _ ?w3 = _ =>
      apply sleep_unblock_mode_Ret in H as (c & Hc & Hge & ->)
  end.
  split; [done|].
  destruct bus; cbn; repeat split; try done; exists c; repeat split; done.
Qed.

Lemma i2c_isr_Ret (bus : bool) (w w' : world) :
  i2c_isr bus w = Ret tt w' ->
  exists w1, quiet w w1 /\ (w' = w1 \/ i2c_stop_sm bus w1 = Ret tt w').
Proof.
  intros H. unfold i2c_isr in H.
  apply bind_inv in H as (w0 & wa & Hget & H). ret_inv Hget.
  lazy zeta in H.
  apply bind_inv in H as (u1 & wb & H1 & H).
  apply bind_inv in H as (u2 & wc & H2 & H).
  apply bind_inv in H as (u3 & wd & H3 & H).
  apply bind_inv in H as (u4 & we & H4 & H).
  match type of H1 with _ ?v = _ => rename v into v0 end.
  assert (Hq1 : quiet v0 wb).
  { match type of H1 with ?m _ = _ => assert (F : follows quiet m) by frame_prim end.
    by apply (F v0 u1). }
  assert (Hq2 : quiet wb wc).
  { match type of H2 with ?m _ = _ => assert (F : follows quiet m) end.
    { repeat frame_step quiet quiet_refl quiet_trans ltac:(apply quiet_i2c_ack_sm). }
    by apply (F wb u2). }
  assert (Hq3 : quiet wc wd).
  { match type of H3 with ?m _ = _ => assert (F : follows quiet m) end.
    { repeat frame_step quiet quiet_refl quiet_trans ltac:(apply quiet_i2c_nack_sm). }
    by apply (F wc u3). }
  assert (Hq4 : quiet wd we).
  { match type of H4 with ?m _ = _ => assert (F : follows quiet m) end.
    { repeat frame_step quiet quiet_refl quiet_trans ltac:(apply quiet_i2c_rxdatav_sm). }
    by apply (F wd u4). }
  assert (Hq : quiet v0 we)
    by (eapply quiet_trans; [|eapply quiet_trans; [|eapply quiet_trans]]; eassumption).
  exists we. split; [done|].
  destruct (MSTOP _).
  - apply bind_inv in H as (f & wf & Hf & H). ret_inv Hf.
    apply bind_inv in H as (u5 & wg & Ha & H).
    unfold EFM_ASSERT in Ha. destruct (negb _); [|discriminate]. ret_inv Ha.
    by right.
  - ret_inv H. by left.
Qed.

Lemma quiet_em2 (k : Z) (w w' : world) :
  quiet w w' -> em2_counts_busy k w -> em2_counts_busy k w'.
Proof.
  intros (Hl & Hb0 & Hb1). unfold em2_counts_busy, busy_count.
  by rewrite Hl, Hb0, Hb1.
Qed.

Lemma busy_count_set (bus : bool) (w w' : world) (v : bool) :
  busy (sm_of bus w) = negb v ->
  busy (sm_of bus w') = v ->
  sm_of (negb bus) w' = sm_of (negb bus) w ->
  busy_count w' = busy_count w + (if v then 1 else -1).
Proof.
  unfold busy_count. destruct bus; cbn; intros H1 H2 H3;
    rewrite H1, H2, H3; destruct v; cbn; lia.
Qed.

Lemma step_keeps_em2 (k : Z) (l : step_label) (u : unit) (w w' : world) :
  step_allowed l w = true ->
  do_step l w = Ret u w' ->
  em2_counts_busy k w -> em2_counts_busy k w'.
Proof.
  intros Hal Hstep Hinv.
  destruct l as [s idle|bus f rx|e|e|em|em]; cbn [step_allowed do_step] in Hal, Hstep.
  - apply bind_inv in Hstep as (u1 & v & Hv & Hs). ret_inv Hv. destruct u.
    match type of Hs with i2c_start _ ?x = _ => set (v := x) in * end.
    assert (Hq : quiet w v) by (subst v; destruct (ss_which_i2c s); repeat split).
    apply (quiet_em2 k) in Hq; [|done].
    destruct (i2c_start_Ret s v w' Hs) as (Hb & _ & Hb' & _ & _ & Hoth & _).
    destruct (i2c_start_counters s v w' Hs) as (c & Hc & _ & Hl).
    unfold em2_counts_busy in *. rewrite Hc in Hq. injection Hq as ->.
    rewrite Hl, list_lookup_insert_eq by (by apply lookup_lt_Some in Hc).
    rewrite (busy_count_set (ss_which_i2c s) v w' true) by done. f_equal. lia.
  - apply bind_inv in Hstep as (u1 & v & Hv & Hs). ret_inv Hv. destruct u.
    match type of Hs with i2c_isr _ ?x = _ => set (v := x) in * end.
    assert (Hq : quiet w v) by (subst v; destruct bus; repeat split).
    assert (Hbv : busy (sm_of bus v) = true) by (subst v; by destruct bus).
    apply (quiet_em2 k) in Hq; [|done].
    apply i2c_isr_Ret in Hs as (w1 & Hq1 & [->|Hstop]).
    + by apply (quiet_em2 k v).
    + assert (Hb1 : busy (sm_of bus w1) = true).
      { destruct Hq1 as (_ & H0 & H1). destruct bus; cbn in *; congruence. }
      apply (quiet_em2 k) in Hq1; [|done].
      apply i2c_stop_sm_Ret in Hstop as (_ & Hb' & Hoth & _ & c & Hc & _ & Hl).
      unfold em2_counts_busy in *. rewrite Hc in Hq1. injection Hq1 as ->.
      rewrite Hl, list_lookup_insert_eq by (by apply lookup_lt_Some in Hc).
      rewrite (busy_count_set bus w1 w' false) by done. f_equal. lia.
  - rewrite add_scheduled_event_eq in Hstep. ret_inv Hstep.
    apply (quiet_em2 k w); [repeat split|done].
  - rewrite remove_scheduled_event_eq in Hstep. ret_inv Hstep.
    apply (quiet_em2 k w); [repeat split|done].
  - apply sleep_block_mode_Ret in Hstep as (c & Hc & _ & ->).
    apply negb_true_iff, Z.eqb_neq in Hal.
    unfold em2_counts_busy in *. cbn.
    rewrite list_lookup_insert_ne; [done|].
    apply lookup_lt_Some in Hc. unfold I2C_EM, EM2 in *. lia.
  - apply sleep_unblock_mode_Ret in Hstep as (c & Hc & _ & ->).
    apply negb_true_iff, Z.eqb_neq in Hal.
    unfold em2_counts_busy in *. cbn.
    rewrite list_lookup_insert_ne; [done|].
    apply lookup_lt_Some in Hc. unfold I2C_EM, EM2 in *. lia.
Qed.

(** X3. The EM2 counter tracks the buses in use.  Along a run in which
    interrupts come only on a bus with a transaction in progress and the
    rest of the program leaves the I2C sleep mode alone, the EM2 counter
    stays at the number of busy buses plus the [k] blocks it held on top
    at the start: [i2c_start] blocks exactly when it sets [busy], and
    [i2c_stop_sm] unblocks exactly when it clears it. *)
Theorem i2c_block_count_is_busy_count
    (k : Z) (ls : list step_label) (w w' : world) :
  em2_counts_busy k w ->
  disciplined ls w = true ->
  run ls w = Some w' ->
  em2_counts_busy k w'.
Proof.
  revert w. induction ls as [|l ls IH]; intros w Hinv Hd H.
  - cbn in H. by injection H as <-.
  - cbn [run disciplined] in H, Hd. apply andb_true_iff in Hd as [Hal Hd].
    destruct (do_step l w) as [u w1| | |] eqn:Hstep; try discriminate.
    + apply (IH w1); [|done|done]. by apply (step_keeps_em2 k l u w).
    + by apply (IH w).
Qed.

Lemma i2c_block_count_is_busy_count_witness :
  em2_counts_busy 0
    (after_run [L_block EM4; L_start (write_request false 64 230 1 1 256 100) true;
                L_irq false irq_ACK 0;
                L_start (read_request true 112 30822 2 6 128 200) true;
                L_irq false irq_ACK 0; L_irq true irq_ACK 0;
                L_irq false irq_ACK 0; L_irq false irq_MSTOP 0]
       (world_open (word_at_100 59))).
Proof.
  apply (i2c_block_count_is_busy_count 0
           [L_block EM4; L_start (write_request false 64 230 1 1 256 100) true;
            L_irq false irq_ACK 0;
            L_start (read_request true 112 30822 2 6 128 200) true;
            L_irq false irq_ACK 0; L_irq true irq_ACK 0;
            L_irq false irq_ACK 0; L_irq false irq_MSTOP 0]
           (world_open (word_at_100 59))).
  - vm_compute; reflexivity.
  - vm_compute; reflexivity.
  - vm_compute; reflexivity.
Defined.

(** X4. While a transaction is in progress on either bus, [enter_sleep] goes
    no deeper than EM1: with the EM2 counter holding the blocks of the
    busy buses on top of [k >= 0] others, it either returns at once or
    calls [EMU_EnterEM1], and changes nothing. *)
Theorem enter_sleep_stays_above_EM2_while_bus_busy (k : Z) (w : world) :
  em2_counts_busy k w ->
  0 <= k ->
  0 < busy_count w ->
  exists e, enter_sleep w = Ret e w /\ (e = EMU_none \/ e = EMU_EnterEM1).
Proof.
  unfold em2_counts_busy. intros H2 Hk Hbusy.
  change (Z.to_nat I2C_EM) with 2%nat in H2.
  destruct w as [es l s0 s1 p0 p1 m h]. cbn in H2.
  destruct l as [|a [|b [|c l] ] ]; try discriminate.
  cbn in H2. injection H2 as ->.
  unfold enter_sleep, EM0, EM1, EM2, lem_read, ret, bind. index_cbn.
  destruct (Z.eqb_spec a 0); cbn [negb]; [|eexists; split; [reflexivity|by left] ].
  index_cbn.
  destruct (Z.eqb_spec b 0); cbn [negb]; [|eexists; split; [reflexivity|by left] ].
  index_cbn.
  match goal with |- context [?x =? 0] => destruct (Z.eqb_spec x 0) as [Hx|Hx] end;
    [lia|].
  cbn [negb]. eexists; split; [reflexivity|by right].
Qed.

Lemma enter_sleep_stays_above_EM2_while_bus_busy_witness :
  let w := after_run [L_start (read_request false 64 245 1 2 32 100) true]
             (world_open (word_at_100 0)) in
  exists e, enter_sleep w = Ret e w /\ (e = EMU_none \/ e = EMU_EnterEM1).
Proof.
  intros w. apply (enter_sleep_stays_above_EM2_while_bus_busy 0 w).
  - vm_compute; reflexivity.
  - lia.
  - vm_compute; reflexivity.
Defined.

(** ** Posting and clearing events *)

Lemma land_lor_not32 (s e : Z) :
  Z.land (Z.lor s e) (not32 e) = Z.land s (not32 e).
Proof.
  apply Z.bits_inj'. intros i Hi.
  rewrite !Z.land_spec, Z.lor_spec, testbit_not32 by done.
  destruct (Z.testbit s i), (Z.testbit e i), (i <? 32); reflexivity.
Qed.

Lemma land_not32_same (s e : Z) :
  is_uint32 s -> (Z.land s (not32 e) = s <-> Z.land s e = 0).
Proof.
  intros Hs. split; intros H.
  - apply Z.bits_inj'. intros i Hi. rewrite Z.land_spec, Z.bits_0.
    assert (Hb : Z.testbit (Z.land s (not32 e)) i = Z.testbit s i) by (by rewrite H).
    rewrite Z.land_spec, testbit_not32 in Hb by done.
    destruct (Z.testbit s i), (Z.testbit e i), (i <? 32); try done.
  - apply Z.bits_inj'. intros i Hi. rewrite Z.land_spec, testbit_not32 by done.
    assert (Hb : Z.testbit (Z.land s e) i = false) by (rewrite H; apply Z.bits_0).
    rewrite Z.land_spec in Hb.
    destruct (Z.ltb_spec i 32).
    + destruct (Z.testbit s i), (Z.testbit e i); try done.
    + rewrite (testbit_uint32_high s i) by done. reflexivity.
Qed.

Lemma land_not32_disjoint (s e : Z) : Z.land (Z.land s (not32 e)) e = 0.
Proof.
  apply Z.bits_inj'. intros i Hi.
  rewrite !Z.land_spec, testbit_not32, Z.bits_0 by done.
  destruct (Z.testbit s i), (Z.testbit e i), (i <? 32); reflexivity.
Qed.

Lemma lor_land_not32_disjoint (s a b : Z) :
  is_uint32 a -> Z.land a b = 0 ->
  Z.land (Z.lor s a) (not32 b) = Z.lor (Z.land s (not32 b)) a.
Proof.
  intros Ha Hab. apply Z.bits_inj'. intros i Hi.
  rewrite !Z.land_spec, !Z.lor_spec, Z.land_spec, testbit_not32 by done.
  assert (Hb : Z.testbit (Z.land a b) i = false) by (rewrite Hab; apply Z.bits_0).
  rewrite Z.land_spec in Hb.
  destruct (Z.ltb_spec i 32).
  - destruct (Z.testbit s i), (Z.testbit a i), (Z.testbit b i); try done.
  - rewrite (testbit_uint32_high a i) by done.
    destruct (Z.testbit s i), (Z.testbit b i); reflexivity.
Qed.

(** X5. Posting an event and then clearing it leaves the pending mask without
    the bits of the event: the mask is back to what it was exactly when
    no bit of the event was pending before the post, so a post that comes
    on top of a pending one is lost with the clear. *)
Theorem scheduler_post_then_clear (E : Z) (w : world) :
  is_uint32 (event_scheduled w) ->
  exists w',
    (do_ add_scheduled_event E; remove_scheduled_event E) w = Ret tt w' /\
    event_scheduled w' = Z.land (event_scheduled w) (not32 E) /\
    (event_scheduled w' = event_scheduled w <-> Z.land (event_scheduled w) E = 0).
Proof.
  intros Hs. eexists. split; [reflexivity|]. cbn.
  rewrite land_lor_not32. split; [reflexivity|]. by apply land_not32_same.
Qed.

Lemma scheduler_post_then_clear_witness :
  exists w',
    (do_ add_scheduled_event 4; remove_scheduled_event 4)
      (set_event_scheduled 36 (world_open (word_at_100 0))) = Ret tt w' /\
    event_scheduled w' =
      Z.land (event_scheduled (set_event_scheduled 36 (world_open (word_at_100 0))))
        (not32 4) /\
    (event_scheduled w' = event_scheduled (set_event_scheduled 36 (world_open (word_at_100 0)))
     <-> Z.land (event_scheduled (set_event_scheduled 36 (world_open (word_at_100 0)))) 4 = 0).
Proof.
  apply (scheduler_post_then_clear 4 (set_event_scheduled 36 (world_open (word_at_100 0)))).
  vm_compute. split; [discriminate|reflexivity].
Defined.

(** X6. Events with no bit in common do not disturb each other: a post of [A]
    (from an interrupt handler) and a clear of [B] (from the main loop)
    leave the same pending mask in either order, and [A] is pending
    afterwards. *)
Theorem scheduler_disjoint_post_and_clear_commute (A B : Z) (w : world) :
  is_uint32 A ->
  Z.land A B = 0 ->
  exists w1 w2,
    (do_ add_scheduled_event A; remove_scheduled_event B) w = Ret tt w1 /\
    (do_ remove_scheduled_event B; add_scheduled_event A) w = Ret tt w2 /\
    event_scheduled w1 = event_scheduled w2 /\
    Z.land (event_scheduled w1) A = A /\
    Z.land (event_scheduled w1) B = 0.
Proof.
  intros HA Hdis. eexists. eexists.
  split; [reflexivity|]. split; [reflexivity|]. cbn.
  split; [by apply lor_land_not32_disjoint|].
  rewrite lor_land_not32_disjoint by done.
  split.
  - apply Z.bits_inj'. intros i Hi.
    rewrite Z.land_spec, Z.lor_spec, Z.land_spec.
    destruct (Z.testbit (event_scheduled w) i), (Z.testbit (not32 B) i),
      (Z.testbit A i); reflexivity.
  - apply Z.bits_inj'. intros i Hi.
    rewrite Z.land_spec, Z.lor_spec, Z.land_spec, testbit_not32, Z.bits_0 by done.
    assert (Hb : Z.testbit (Z.land A B) i = false) by (rewrite Hdis; apply Z.bits_0).
    rewrite Z.land_spec in Hb.
    destruct (Z.testbit (event_scheduled w) i), (Z.testbit A i), (Z.testbit B i),
      (i <? 32); try done.
Qed.

Lemma scheduler_disjoint_post_and_clear_commute_witness :
  exists w1 w2,
    (do_ add_scheduled_event 32; remove_scheduled_event 4)
      (set_event_scheduled 4 (world_open (word_at_100 0))) = Ret tt w1 /\
    (do_ remove_scheduled_event 4; add_scheduled_event 32)
      (set_event_scheduled 4 (world_open (word_at_100 0))) = Ret tt w2 /\
    event_scheduled w1 = event_scheduled w2 /\
    Z.land (event_scheduled w1) 32 = 32 /\
    Z.land (event_scheduled w1) 4 = 0.
Proof.
  apply (scheduler_disjoint_post_and_clear_commute 32 4
           (set_event_scheduled 4 (world_open (word_at_100 0)))).
  - vm_compute. split; [discriminate|reflexivity].
  - reflexivity.
Defined.

(** X7. Each LETIMER compare callback only checks that its own event is no
    longer pending: it returns, changing nothing, when the event is not
    pending and halts when it is; called after
    [remove_scheduled_event] on its event, as the main loop does, it
    returns whatever was pending. *)
Theorem letimer_compare_callbacks_after_clear (w : world) :
  (Z.land (event_scheduled w) LETIMER0_COMP0_CB = 0 ->
   scheduled_letimer0_comp0_cb w = Ret tt w) /\
  (Z.land (event_scheduled w) LETIMER0_COMP0_CB <> 0 ->
   scheduled_letimer0_comp0_cb w = Halt w) /\
  (Z.land (event_scheduled w) LETIMER0_COMP1_CB = 0 ->
   scheduled_letimer0_comp1_cb w = Ret tt w) /\
  (Z.land (event_scheduled w) LETIMER0_COMP1_CB <> 0 ->
   scheduled_letimer0_comp1_cb w = Halt w) /\
  (do_ remove_scheduled_event LETIMER0_COMP0_CB; scheduled_letimer0_comp0_cb) w
    = Ret tt (set_event_scheduled
                (Z.land (event_scheduled w) (not32 LETIMER0_COMP0_CB)) w) /\
  (do_ remove_scheduled_event LETIMER0_COMP1_CB; scheduled_letimer0_comp1_cb) w
    = Ret tt (set_event_scheduled
                (Z.land (event_scheduled w) (not32 LETIMER0_COMP1_CB)) w).
Proof.
  unfold scheduled_letimer0_comp0_cb, scheduled_letimer0_comp1_cb,
    get_scheduled_events, get, ret, EFM_ASSERT, bind.
  split; [intros ->; reflexivity|].
  split; [intros H; by destruct (Z.eqb_spec (Z.land (event_scheduled w) LETIMER0_COMP0_CB) 0)|].
  split; [intros ->; reflexivity|].
  split; [intros H; by destruct (Z.eqb_spec (Z.land (event_scheduled w) LETIMER0_COMP1_CB) 0)|].
  rewrite !remove_scheduled_event_eq.
  cbn [event_scheduled set_event_scheduled].
  rewrite !land_not32_disjoint. split; reflexivity.
Qed.

(** ** Transactions in general *)

(** *** One acknowledge interrupt *)

Lemma byte_to_write_eq (d k : Z) (w : world) :
  1 <= k <= 4 -> byte_to_write d k w = Ret (tx_byte d k) w.
Proof.
  intros Hk. unfold byte_to_write, tx_byte, undef, ret.
  assert (Hc : k = 1 \/ k = 2 \/ k = 3 \/ k = 4) by lia.
  destruct Hc as [-> | [-> | [-> | ->] ] ]; cbn -[Z.land Z.shiftr];
    rewrite Z.shiftr_land; reflexivity.
Qed.

Lemma byte_to_write_undef (d k : Z) (w : world) :
  k = 0 \/ 5 <= k <= 16 -> byte_to_write d k w = Undef.
Proof.
  intros Hk. unfold byte_to_write, undef.
  assert (H : 32 <= wrap32 (8 * wrap32 (k - 1))); [|by destruct (Z.leb_spec 32 (wrap32 (8 * wrap32 (k - 1)))); [|lia]].
  destruct Hk as [->|Hk]; [by vm_compute|].
  rewrite (wrap32_small (k - 1)) by (unfold is_uint32; lia).
  rewrite wrap32_small by (unfold is_uint32; lia). lia.
Qed.

Lemma i2c_isr_ack (bus : bool) (rx : Z) (w : world) :
  IF (periph_of bus w) = irq_none ->
  ACK (IEN (periph_of bus w)) = true ->
  do_step (L_irq bus irq_ACK rx) w = i2c_ack_sm bus (hw_received bus rx w).
Proof.
  intros HIF HEN.
  destruct w as [es l s0 s1 p0 p1 m h].
  destruct bus; cbn in HIF, HEN.
  - destruct p1 as [iflags [en_rx en_ack en_nack en_stop] rxd idle].
    cbn in HIF, HEN. subst. unfold irq_none.
    unfold do_step, i2c_isr, write_IFC, read_IF, hw_received, hw_raise,
      set_periph, periph_of, irq_none, irq_ACK, get, ret, modify, EFM_ASSERT, bind.
    cbn -[i2c_ack_sm].
    cbv [irq_clear irq_or irq_and RXDATAV ACK NACK MSTOP andb orb negb].
    match goal with
    | |- context [i2c_ack_sm ?b ?v] =>
        destruct (i2c_ack_sm b v) as [ [] ?| | |]
    end; reflexivity.
  - destruct p0 as [iflags [en_rx en_ack en_nack en_stop] rxd idle].
    cbn in HIF, HEN. subst. unfold irq_none.
    unfold do_step, i2c_isr, write_IFC, read_IF, hw_received, hw_raise,
      set_periph, periph_of, irq_none, irq_ACK, get, ret, modify, EFM_ASSERT, bind.
    cbn -[i2c_ack_sm].
    cbv [irq_clear irq_or irq_and RXDATAV ACK NACK MSTOP andb orb negb].
    match goal with
    | |- context [i2c_ack_sm ?b ?v] =>
        destruct (i2c_ack_sm b v) as [ [] ?| | |]
    end; reflexivity.
Qed.

Lemma irq_ack_write_data (bus : bool) (rx : Z) (w : world) :
  IF (periph_of bus w) = irq_none ->
  ACK (IEN (periph_of bus w)) = true ->
  current_state (sm_of bus w) = write_data ->
  comm_method (sm_of bus w) = I2C_WRITE ->
  1 <= byte_counter (sm_of bus w) <= 4 ->
  do_step (L_irq bus irq_ACK rx) w = Ret tt (tx_world bus rx w).
Proof.
  intros HIF HEN Hst Hcm Hbc. rewrite i2c_isr_ack by done.
  unfold i2c_ack_sm, get_sm, get, ret, bind. lazy beta iota zeta.
  replace (sm_of bus (hw_received bus rx w)) with (sm_of bus w) by (by destruct bus).
  rewrite Hst, Hcm. unfold EFM_ASSERT. cbn [bool_decide decide_rel].
  rewrite bool_decide_eq_true_2 by done.
  destruct (Z.ltb_spec 0 (byte_counter (sm_of bus w))); [|lia].
  unfold write_payload_byte, get_sm, load, get, ret, bind. lazy beta iota zeta.
  replace (sm_of bus (hw_received bus rx w)) with (sm_of bus w) by (by destruct bus).
  rewrite byte_to_write_eq by done.
  unfold write_TXDATA, set_byte_counter, get_sm, get, ret, modify, bind, tx_world.
  destruct bus; reflexivity.
Qed.

Lemma i2c_ctl_refl bus w : i2c_ctl bus w w.
Proof. unfold i2c_ctl. repeat split. Qed.

Lemma i2c_ctl_trans bus w1 w2 w3 :
  i2c_ctl bus w1 w2 -> i2c_ctl bus w2 w3 -> i2c_ctl bus w1 w3.
Proof.
  unfold i2c_ctl. intros H1 H2.
  destruct H1 as (?&?&?&?&?&?&?&?&?&?&?&?&?).
  destruct H2 as (?&?&?&?&?&?&?&?&?&?&?&?&?).
  repeat split; congruence.
Qed.

Lemma i2c_frame_refl bus w : i2c_frame bus w w.
Proof. split; [done|apply i2c_ctl_refl]. Qed.

Lemma i2c_frame_trans bus w1 w2 w3 :
  i2c_frame bus w1 w2 -> i2c_frame bus w2 w3 -> i2c_frame bus w1 w3.
Proof.
  intros [M1 C1] [M2 C2]. split; [congruence|by eapply i2c_ctl_trans].
Qed.

Lemma i2c_at_trans bus st1 bc1 rbc1 evs1 st2 bc2 rbc2 evs2 w1 w2 w3 :
  i2c_at bus st1 bc1 rbc1 evs1 w1 w2 ->
  i2c_at bus st2 bc2 rbc2 evs2 w2 w3 ->
  i2c_at bus st2 bc2 rbc2 (evs1 ++ evs2) w1 w3.
Proof.
  intros (F1 & _ & _ & _ & H1) (F2 & ? & ? & ? & H2).
  split; [by eapply i2c_frame_trans|]. repeat split; try done.
  by rewrite H2, H1, app_assoc.
Qed.

Lemma run_cons_Ret l ls w w1 :
  do_step l w = Ret tt w1 -> run (l :: ls) w = run ls w1.
Proof. intros H. cbn [run]. by rewrite H. Qed.

Lemma run_app ls1 ls2 w w1 :
  run ls1 w = Some w1 -> run (ls1 ++ ls2) w = run ls2 w1.
Proof.
  revert w. induction ls1 as [|l ls1 IH]; intros w H.
  - cbn in H. by injection H as ->.
  - cbn [run app] in *. destruct (do_step l w) as [ [] w2| | |]; try done; by apply IH.
Qed.

(** Solves the goals left once a handler's result world is explicit. *)
Ltac i2c_at_solve bus :=
  unfold i2c_at, i2c_frame, i2c_ctl; destruct bus; cbn; repeat split; try reflexivity; try done.

Ltac ack_unfold bus rx w :=
  unfold i2c_ack_sm, get_sm, get, ret, bind; lazy beta iota zeta;
  replace (sm_of bus (hw_received bus rx w)) with (sm_of bus w) by (by destruct bus).

Lemma wrap32_pred (k : Z) : 1 <= k <= 4 -> wrap32 (k - 1) = k - 1.
Proof. intros. apply wrap32_small. unfold is_uint32. lia. Qed.

Lemma irq_ack_write_data_at (bus : bool) (rx : Z) (w : world) :
  IF (periph_of bus w) = irq_none ->
  ACK (IEN (periph_of bus w)) = true ->
  current_state (sm_of bus w) = write_data ->
  comm_method (sm_of bus w) = I2C_WRITE ->
  1 <= byte_counter (sm_of bus w) <= 4 ->
  exists w',
    do_step (L_irq bus irq_ACK rx) w = Ret tt w' /\
    i2c_at bus write_data (byte_counter (sm_of bus w) - 1)
      (register_byte_counter (sm_of bus w))
      [EvTXDATA bus (tx_byte (mem w (data (sm_of bus w))) (byte_counter (sm_of bus w)))]
      w w'.
Proof.
  intros HIF HEN Hst Hcm Hbc. eexists. split; [by apply irq_ack_write_data|].
  unfold tx_world. rewrite wrap32_pred by done.
  i2c_at_solve bus.
Qed.

Lemma irq_ack_write_done (bus : bool) (rx : Z) (w : world) :
  IF (periph_of bus w) = irq_none ->
  ACK (IEN (periph_of bus w)) = true ->
  current_state (sm_of bus w) = write_data ->
  comm_method (sm_of bus w) = I2C_WRITE ->
  byte_counter (sm_of bus w) = 0 ->
  exists w',
    do_step (L_irq bus irq_ACK rx) w = Ret tt w' /\
    i2c_at bus send_stop 0 (register_byte_counter (sm_of bus w))
      [EvCMD bus I2C_CMD_STOP] w w'.
Proof.
  intros HIF HEN Hst Hcm Hbc. rewrite i2c_isr_ack by done.
  ack_unfold bus rx w.
  rewrite Hst, Hcm, Hbc. unfold EFM_ASSERT. rewrite bool_decide_eq_true_2 by done.
  cbn [Z.ltb Z.compare].
  unfold write_CMD, set_current_state, get_sm, get, ret, modify, bind.
  eexists. split; [reflexivity|].
  i2c_at_solve bus.
Qed.

Lemma irq_ack_send_register_write (bus : bool) (rx : Z) (w : world) :
  IF (periph_of bus w) = irq_none ->
  ACK (IEN (periph_of bus w)) = true ->
  current_state (sm_of bus w) = send_register ->
  comm_method (sm_of bus w) = I2C_WRITE ->
  1 <= byte_counter (sm_of bus w) <= 4 ->
  exists w',
    do_step (L_irq bus irq_ACK rx) w = Ret tt w' /\
    i2c_at bus write_data (byte_counter (sm_of bus w) - 1)
      (register_byte_counter (sm_of bus w))
      [EvTXDATA bus (tx_byte (mem w (data (sm_of bus w))) (byte_counter (sm_of bus w)))]
      w w'.
Proof.
  intros HIF HEN Hst Hcm Hbc. rewrite i2c_isr_ack by done.
  ack_unfold bus rx w.
  rewrite Hst, Hcm.
  unfold write_payload_byte, set_current_state, load, get_sm, get, ret, modify, bind.
  lazy beta iota zeta.
  replace (byte_counter (sm_of bus (set_sm bus _ _))) with (byte_counter (sm_of bus w))
    by (by destruct bus).
  replace (mem (set_sm bus _ _)) with (mem w) by (by destruct bus).
  replace (data (sm_of bus (set_sm bus _ _))) with (data (sm_of bus w))
    by (by destruct bus).
  rewrite byte_to_write_eq by done.
  unfold write_TXDATA, set_byte_counter, get_sm, get, ret, modify, bind.
  eexists. split; [reflexivity|].
  rewrite wrap32_pred by done.
  i2c_at_solve bus.
Qed.

Lemma irq_ack_initialize_register (bus : bool) (rx : Z) (w : world) :
  IF (periph_of bus w) = irq_none ->
  ACK (IEN (periph_of bus w)) = true ->
  current_state (sm_of bus w) = initialize ->
  1 <= register_byte_counter (sm_of bus w) <= 4 ->
  exists w',
    do_step (L_irq bus irq_ACK rx) w = Ret tt w' /\
    i2c_at bus
      (if 0 <? register_byte_counter (sm_of bus w) - 1 then initialize else send_register)
      (byte_counter (sm_of bus w))
      (register_byte_counter (sm_of bus w) - 1)
      [EvTXDATA bus (tx_byte (register_address (sm_of bus w))
                       (register_byte_counter (sm_of bus w)))]
      w w'.
Proof.
  intros HIF HEN Hst Hrc. rewrite i2c_isr_ack by done.
  ack_unfold bus rx w.
  rewrite Hst.
  destruct (Z.ltb_spec 0 (register_byte_counter (sm_of bus w))); [|lia].
  unfold set_current_state, get_sm, get, ret, modify, bind.
  lazy beta iota zeta.
  rewrite byte_to_write_eq by done.
  unfold write_TXDATA, set_register_byte_counter, get_sm, get, ret, modify, bind.
  lazy beta iota zeta.
  rewrite wrap32_pred by done.
  replace (register_byte_counter (sm_of bus (set_sm bus _ _)))
    with (register_byte_counter (sm_of bus w) - 1) by (by destruct bus).
  destruct (0 <? register_byte_counter (sm_of bus w) - 1);
    (eexists; split; [reflexivity|]); i2c_at_solve bus.
Qed.

Lemma irq_ack_initialize_no_register (bus : bool) (rx : Z) (w : world) :
  IF (periph_of bus w) = irq_none ->
  ACK (IEN (periph_of bus w)) = true ->
  current_state (sm_of bus w) = initialize ->
  register_byte_counter (sm_of bus w) = 0 ->
  1 <= byte_counter (sm_of bus w) <= 4 ->
  exists w',
    do_step (L_irq bus irq_ACK rx) w = Ret tt w' /\
    i2c_at bus send_register (byte_counter (sm_of bus w) - 1) 0
      [EvTXDATA bus (tx_byte (mem w (data (sm_of bus w))) (byte_counter (sm_of bus w)))]
      w w'.
Proof.
  intros HIF HEN Hst Hrc Hbc. rewrite i2c_isr_ack by done.
  ack_unfold bus rx w.
  rewrite Hst, Hrc. cbn [Z.ltb Z.compare].
  unfold write_payload_byte, set_current_state, load, get_sm, get, ret, modify, bind.
  lazy beta iota zeta.
  replace (byte_counter (sm_of bus (set_sm bus _ _))) with (byte_counter (sm_of bus w))
    by (by destruct bus).
  replace (mem (set_sm bus _ _)) with (mem w) by (by destruct bus).
  replace (data (sm_of bus (set_sm bus _ _))) with (data (sm_of bus w))
    by (by destruct bus).
  rewrite byte_to_write_eq by done.
  unfold write_TXDATA, set_byte_counter, get_sm, get, ret, modify, bind.
  eexists. split; [reflexivity|].
  rewrite wrap32_pred by done.
  i2c_at_solve bus.
Qed.

Lemma irq_ack_send_register_read (bus : bool) (rx : Z) (w : world) :
  IF (periph_of bus w) = irq_none ->
  ACK (IEN (periph_of bus w)) = true ->
  current_state (sm_of bus w) = send_register ->
  comm_method (sm_of bus w) = I2C_READ ->
  exists w',
    do_step (L_irq bus irq_ACK rx) w = Ret tt w' /\
    i2c_at bus request_read (byte_counter (sm_of bus w))
      (register_byte_counter (sm_of bus w))
      [EvCMD bus I2C_CMD_START;
       EvTXDATA bus (Z.lor (wrap32 (Z.shiftl (device_address (sm_of bus w)) 1)) I2C_R)]
      w w'.
Proof.
  intros HIF HEN Hst Hcm. rewrite i2c_isr_ack by done.
  ack_unfold bus rx w.
  rewrite Hst, Hcm.
  unfold write_CMD, write_TXDATA, set_current_state, get_sm, get, ret, modify, bind.
  eexists. split; [reflexivity|].
  i2c_at_solve bus; by rewrite <- app_assoc.
Qed.

Lemma irq_ack_request_read (bus : bool) (rx : Z) (w : world) :
  IF (periph_of bus w) = irq_none ->
  ACK (IEN (periph_of bus w)) = true ->
  current_state (sm_of bus w) = request_read ->
  comm_method (sm_of bus w) = I2C_READ ->
  exists w',
    do_step (L_irq bus irq_ACK rx) w = Ret tt w' /\
    i2c_at bus read_data (byte_counter (sm_of bus w))
      (register_byte_counter (sm_of bus w)) [] w w'.
Proof.
  intros HIF HEN Hst Hcm. rewrite i2c_isr_ack by done.
  ack_unfold bus rx w.
  rewrite Hst, Hcm. unfold EFM_ASSERT. rewrite bool_decide_eq_true_2 by done.
  unfold set_current_state, get_sm, get, ret, modify, bind.
  eexists. split; [reflexivity|].
  i2c_at_solve bus; by rewrite app_nil_r.
Qed.

(** *** The phases of a transaction *)

(** The register phase: [r] ACK interrupts send the [r] bytes of the
    register address, the most significant first. *)
Lemma irq_ack_register_run (bus : bool) (r : nat) (rxs : list Z) (w : world) :
  IF (periph_of bus w) = irq_none ->
  ACK (IEN (periph_of bus w)) = true ->
  current_state (sm_of bus w) = initialize ->
  register_byte_counter (sm_of bus w) = Z.of_nat (S r) ->
  (S r <= 4)%nat ->
  length rxs = S r ->
  exists w',
    run (L_irq bus irq_ACK <$> rxs) w = Some w' /\
    i2c_at bus send_register (byte_counter (sm_of bus w)) 0
      (EvTXDATA bus <$> tx_bytes (register_address (sm_of bus w)) (S r)) w w'.
Proof.
  revert rxs w. induction r as [|r IH]; intros rxs w HIF HEN Hst Hrc Hr Hlen.
  - destruct rxs as [|rx [|? ?] ]; try discriminate.
    destruct (irq_ack_initialize_register bus rx w) as (w' & Hstep & Hat);
      [done|done|done|lia|].
    exists w'. split; [cbn [fmap list_fmap]; by rewrite (run_cons_Ret _ _ _ _ Hstep)|].
    rewrite Hrc in Hat. exact Hat.
  - destruct rxs as [|rx rxs]; [discriminate|].
    destruct (irq_ack_initialize_register bus rx w) as (w1 & Hstep & Hat);
      [done|done|done|lia|].
    rewrite Hrc in Hat.
    destruct (Z.ltb_spec 0 (Z.of_nat (S (S r)) - 1)); [|lia].
    pose proof Hat as (F & Hst1 & Hbc1 & Hrc1 & Hh1).
    destruct F as (_ & HIF1 & HEN1 & _ & _ & _ & _ & _ & _ & _ & _ & Hreg1 & _).
    destruct (IH rxs w1) as (w' & Hrun & Hat');
      [congruence|congruence|done|lia|lia|by injection Hlen|].
    exists w'. split.
    { cbn [fmap list_fmap]. by rewrite (run_cons_Ret _ _ _ _ Hstep). }
    rewrite Hreg1, Hbc1 in Hat'.
    exact (i2c_at_trans _ _ _ _ _ _ _ _ _ _ _ _ Hat Hat').
Qed.

(** The payload phase in [write_data]: [k] ACK interrupts send the [k]
    bytes left of the caller's word, the most significant first. *)
Lemma irq_ack_payload_run (bus : bool) (k : nat) (rxs : list Z) (w : world) :
  IF (periph_of bus w) = irq_none ->
  ACK (IEN (periph_of bus w)) = true ->
  current_state (sm_of bus w) = write_data ->
  comm_method (sm_of bus w) = I2C_WRITE ->
  byte_counter (sm_of bus w) = Z.of_nat k ->
  (k <= 4)%nat ->
  length rxs = k ->
  exists w',
    run (L_irq bus irq_ACK <$> rxs) w = Some w' /\
    i2c_at bus write_data 0 (register_byte_counter (sm_of bus w))
      (EvTXDATA bus <$> tx_bytes (mem w (data (sm_of bus w))) k) w w'.
Proof.
  revert rxs w. induction k as [|k IH]; intros rxs w HIF HEN Hst Hcm Hbc Hk Hlen.
  - destruct rxs; [|discriminate]. exists w. split; [reflexivity|].
    split; [apply i2c_frame_refl|]. repeat split; try done. cbn. by rewrite app_nil_r.
  - destruct rxs as [|rx rxs]; [discriminate|].
    destruct (irq_ack_write_data_at bus rx w) as (w1 & Hstep & Hat);
      [done|done|done|done|lia|].
    rewrite Hbc in Hat.
    pose proof Hat as (F & Hst1 & Hbc1 & Hrc1 & Hh1).
    destruct F as (Hmem1 & HIF1 & HEN1 & _ & _ & _ & _ & _ & Hcm1 & Hd1 & _).
    destruct (IH rxs w1) as (w' & Hrun & Hat');
      [congruence|congruence|done|congruence|lia|lia|by injection Hlen|].
    exists w'. split.
    { cbn [fmap list_fmap]. by rewrite (run_cons_Ret _ _ _ _ Hstep). }
    rewrite Hmem1, Hd1, Hrc1 in Hat'.
    exact (i2c_at_trans _ _ _ _ _ _ _ _ _ _ _ _ Hat Hat').
Qed.

Lemma i2c_start_runs (s : I2C_START_STRUCT) (c : Z) (w : world) :
  busy (sm_of (ss_which_i2c s) w) = false ->
  STATE_IDLE (periph_of (ss_which_i2c s) w) = true ->
  lowest_energy_mode w !! Z.to_nat I2C_EM = Some c ->
  c < 4 ->
  exists w',
    i2c_start s w = Ret tt w' /\
    sm_of (ss_which_i2c s) w' = sm_started s /\
    sm_of (negb (ss_which_i2c s)) w' = sm_of (negb (ss_which_i2c s)) w /\
    I2C0 w' = I2C0 w /\ I2C1 w' = I2C1 w /\
    mem w' = mem w /\
    event_scheduled w' = event_scheduled w /\
    lowest_energy_mode w' = <[Z.to_nat I2C_EM := c + 1]> (lowest_energy_mode w) /\
    history w' = history w ++ start_events s.
Proof.
  intros Hb Hidle Hc Hc4.
  unfold i2c_start, get_sm, get, ret, bind. lazy beta iota zeta.
  rewrite Hb. unfold EFM_ASSERT at 1. rewrite Hidle.
  rewrite (sleep_block_mode_eq I2C_EM c) by (done || unfold INT_MAX; lia).
  destruct (Z.ltb_spec (c + 1) 5); [|lia].
  unfold set_busy, get_sm, get, ret, write_CMD, write_TXDATA, modify, bind.
  eexists. split; [reflexivity|].
  unfold sm_started, start_events.
  destruct (ss_which_i2c s); cbn; rewrite <- ?app_assoc; repeat split; reflexivity.
Qed.

Lemma i2c_isr_mstop (bus : bool) (rx : Z) (w : world) :
  IF (periph_of bus w) = irq_none ->
  MSTOP (IEN (periph_of bus w)) = true ->
  do_step (L_irq bus irq_MSTOP rx) w = i2c_stop_sm bus (hw_received bus rx w).
Proof.
  intros HIF HEN.
  destruct w as [es l s0 s1 p0 p1 m h].
  destruct bus; cbn in HIF, HEN.
  - destruct p1 as [iflags [en_rx en_ack en_nack en_stop] rxd idle].
    cbn in HIF, HEN. subst. unfold irq_none.
    unfold do_step, i2c_isr, write_IFC, read_IF, hw_received, hw_raise,
      set_periph, periph_of, irq_none, irq_MSTOP, get, ret, modify, EFM_ASSERT, bind.
    cbn -[i2c_stop_sm].
    cbv [irq_clear irq_or irq_and RXDATAV ACK NACK MSTOP andb orb negb].
    reflexivity.
  - destruct p0 as [iflags [en_rx en_ack en_nack en_stop] rxd idle].
    cbn in HIF, HEN. subst. unfold irq_none.
    unfold do_step, i2c_isr, write_IFC, read_IF, hw_received, hw_raise,
      set_periph, periph_of, irq_none, irq_MSTOP, get, ret, modify, EFM_ASSERT, bind.
    cbn -[i2c_stop_sm].
    cbv [irq_clear irq_or irq_and RXDATAV ACK NACK MSTOP andb orb negb].
    reflexivity.
Qed.

Lemma irq_mstop_step (bus : bool) (rx c : Z) (w : world) :
  IF (periph_of bus w) = irq_none ->
  MSTOP (IEN (periph_of bus w)) = true ->
  current_state (sm_of bus w) = send_stop ->
  lowest_energy_mode w !! Z.to_nat I2C_EM = Some c ->
  1 <= c ->
  exists w',
    do_step (L_irq bus irq_MSTOP rx) w = Ret tt w' /\
    current_state (sm_of bus w') = end_process /\
    busy (sm_of bus w') = false /\
    sm_of (negb bus) w' = sm_of (negb bus) w /\
    mem w' = mem w /\
    event_scheduled w' = Z.lor (event_scheduled w) (finished_callback (sm_of bus w)) /\
    lowest_energy_mode w' = <[Z.to_nat I2C_EM := c - 1]> (lowest_energy_mode w) /\
    history w' = history w ++
      [EvPost (finished_callback (sm_of bus w)); EvBusy bus false; EvUnblock I2C_EM].
Proof.
  intros HIF HEN Hst Hc Hc1. rewrite i2c_isr_mstop by done.
  unfold i2c_stop_sm, get_sm, get, ret, bind. lazy beta iota zeta.
  replace (sm_of bus (hw_received bus rx w)) with (sm_of bus w) by (by destruct bus).
  unfold EFM_ASSERT. rewrite bool_decide_eq_true_2 by done.
  unfold set_current_state, add_scheduled_event, set_busy, get_sm, get, ret, modify, bind.
  lazy beta iota zeta.
  erewrite (sleep_unblock_mode_eq I2C_EM c);
    [|done|by destruct bus|unfold INT_MIN; lia].
  destruct (Z.leb_spec 0 (c - 1)); [|lia].
  eexists. split; [reflexivity|].
  destruct bus; cbn; rewrite <- ?app_assoc; repeat split; reflexivity.
Qed.

Lemma irq_rxdatav_last (bus : bool) (rx : Z) (w : world) :
  IF (periph_of bus w) = irq_none ->
  RXDATAV (IEN (periph_of bus w)) = true ->
  byte_counter (sm_of bus w) = 0 ->
  exists w',
    do_step (L_irq bus irq_RXDATAV rx) w = Ret tt w' /\
    i2c_at bus send_stop 0 (register_byte_counter (sm_of bus w))
      [EvCMD bus I2C_CMD_NACK; EvCMD bus I2C_CMD_STOP] w w'.
Proof.
  intros HIF HEN Hbc. rewrite i2c_isr_rxdatav, i2c_rxdatav_sm_eq by done.
  replace (byte_counter (sm_of bus (hw_received bus rx w)))
    with (byte_counter (sm_of bus w)) by (by destruct bus).
  rewrite Hbc. cbn [Z.ltb Z.compare].
  eexists. split; [reflexivity|].
  i2c_at_solve bus; by rewrite <- app_assoc.
Qed.

Lemma list_snoc_length {A} (l : list A) (k : nat) :
  length l = S k -> exists l' x, l = l' ++ [x] /\ length l' = k.
Proof.
  intros H. destruct (decide (l = [])) as [->|Hne]; [discriminate|].
  destruct (exists_last Hne) as (l' & x & ->).
  exists l', x. split; [done|]. rewrite length_app in H. cbn in H. lia.
Qed.

Lemma run_fmap_app (f : Z -> step_label) (l1 l2 : list Z) (w w1 : world) :
  run (f <$> l1) w = Some w1 -> run (f <$> (l1 ++ l2)) w = run (f <$> l2) w1.
Proof. intros H. rewrite fmap_app. by apply run_app. Qed.

(** A write once the register address is out: [k + 1] ACK interrupts send
    the [k] payload bytes, the most significant first, and then STOP. *)
Lemma irq_ack_write_run (bus : bool) (k : nat) (rxs : list Z) (w : world) :
  IF (periph_of bus w) = irq_none ->
  ACK (IEN (periph_of bus w)) = true ->
  current_state (sm_of bus w) = send_register ->
  comm_method (sm_of bus w) = I2C_WRITE ->
  byte_counter (sm_of bus w) = Z.of_nat (S k) ->
  (S k <= 4)%nat ->
  length rxs = S (S k) ->
  exists w',
    run (L_irq bus irq_ACK <$> rxs) w = Some w' /\
    i2c_at bus send_stop 0 (register_byte_counter (sm_of bus w))
      ((EvTXDATA bus <$> tx_bytes (mem w (data (sm_of bus w))) (S k))
         ++ [EvCMD bus I2C_CMD_STOP]) w w'.
Proof.
  intros HIF HEN Hst Hcm Hbc Hk Hlen.
  destruct rxs as [|rx1 rxs]; [discriminate|]. injection Hlen as Hlen.
  destruct (list_snoc_length rxs k Hlen) as (rxs' & rxl & -> & Hlen').
  destruct (irq_ack_send_register_write bus rx1 w) as (w1 & Hstep & Hat1);
    [done|done|done|done|lia|].
  rewrite Hbc in Hat1.
  pose proof Hat1 as (F & Hst1 & Hbc1 & Hrc1 & Hh1).
  destruct F as (Hmem1 & HIF1 & HEN1 & _ & _ & _ & _ & _ & Hcm1 & Hd1 & _).
  destruct (irq_ack_payload_run bus k rxs' w1) as (w2 & Hrun2 & Hat2);
    [congruence|congruence|done|congruence|lia|lia|done|].
  rewrite Hmem1, Hd1, Hrc1 in Hat2.
  pose proof Hat2 as (F & Hst2 & Hbc2 & Hrc2 & Hh2).
  destruct F as (Hmem2 & HIF2 & HEN2 & _ & _ & _ & _ & _ & Hcm2 & Hd2 & _).
  destruct (irq_ack_write_done bus rxl w2) as (w3 & Hstep3 & Hat3);
    [congruence|congruence|done|congruence|done|].
  rewrite Hrc2 in Hat3.
  exists w3. split.
  - cbn [fmap list_fmap]. rewrite (run_cons_Ret _ _ _ _ Hstep).
    rewrite (run_fmap_app _ _ _ _ _ Hrun2). cbn [fmap list_fmap].
    by rewrite (run_cons_Ret _ _ _ _ Hstep3).
  - pose proof (i2c_at_trans _ _ _ _ _ _ _ _ _ _ _ _
                  (i2c_at_trans _ _ _ _ _ _ _ _ _ _ _ _ Hat1 Hat2) Hat3) as Hat.
    replace (Z.of_nat (S k) - 1) with (Z.of_nat k) in Hat by lia.
    exact Hat.
Qed.

(** The whole addressing and payload part of a write. *)
Lemma irq_ack_write_transaction_run (bus : bool) (nr n : nat) (rxs : list Z)
    (w : world) :
  IF (periph_of bus w) = irq_none ->
  ACK (IEN (periph_of bus w)) = true ->
  current_state (sm_of bus w) = initialize ->
  comm_method (sm_of bus w) = I2C_WRITE ->
  register_byte_counter (sm_of bus w) = Z.of_nat nr ->
  byte_counter (sm_of bus w) = Z.of_nat n ->
  (nr <= 4)%nat -> (1 <= n <= 4)%nat -> (nr = 0%nat -> (2 <= n)%nat) ->
  length rxs = (nr + n + 1)%nat ->
  exists w',
    run (L_irq bus irq_ACK <$> rxs) w = Some w' /\
    i2c_at bus send_stop 0 0
      ((EvTXDATA bus <$> (tx_bytes (register_address (sm_of bus w)) nr
                           ++ tx_bytes (mem w (data (sm_of bus w))) n))
         ++ [EvCMD bus I2C_CMD_STOP]) w w'.
Proof.
  intros HIF HEN Hst Hcm Hrc Hbc Hnr Hn Hz Hlen.
  destruct nr as [|r].
  - destruct n as [|[|k] ]; [lia|specialize (Hz eq_refl); lia|].
    destruct rxs as [|rx1 rxs]; [discriminate|].
    destruct (irq_ack_initialize_no_register bus rx1 w) as (w1 & Hstep & Hat1);
      [done|done|done|done|lia|].
    rewrite Hbc in Hat1.
    pose proof Hat1 as (F & Hst1 & Hbc1 & Hrc1 & Hh1).
    destruct F as (Hmem1 & HIF1 & HEN1 & _ & _ & _ & _ & _ & Hcm1 & Hd1 & _).
    destruct (irq_ack_write_run bus k rxs w1) as (w2 & Hrun2 & Hat2);
      [congruence|congruence|done|congruence|lia|lia|cbn in Hlen; lia|].
    rewrite Hmem1, Hd1, Hrc1 in Hat2.
    exists w2. split.
    + cbn [fmap list_fmap]. by rewrite (run_cons_Ret _ _ _ _ Hstep).
    + exact (i2c_at_trans _ _ _ _ _ _ _ _ _ _ _ _ Hat1 Hat2).
  - destruct n as [|k]; [lia|].
    assert (Hsplit : rxs = take (S r) rxs ++ drop (S r) rxs) by (by rewrite take_drop).
    assert (Hl1 : length (take (S r) rxs) = S r) by (rewrite length_take; lia).
    assert (Hl2 : length (drop (S r) rxs) = S (S k)) by (rewrite length_drop; lia).
    destruct (irq_ack_register_run bus r (take (S r) rxs) w) as (w1 & Hrun1 & Hat1);
      [done|done|done|done|lia|done|].
    rewrite Hbc in Hat1.
    pose proof Hat1 as (F & Hst1 & Hbc1 & Hrc1 & Hh1).
    destruct F as (Hmem1 & HIF1 & HEN1 & _ & _ & _ & _ & _ & Hcm1 & Hd1 & _).
    destruct (irq_ack_write_run bus k (drop (S r) rxs) w1) as (w2 & Hrun2 & Hat2);
      [congruence|congruence|done|congruence|done|lia|done|].
    rewrite Hmem1, Hd1, Hrc1 in Hat2.
    exists w2. split.
    + rewrite Hsplit. by rewrite (run_fmap_app _ _ _ _ _ Hrun1).
    + pose proof (i2c_at_trans _ _ _ _ _ _ _ _ _ _ _ _ Hat1 Hat2) as Hat.
      rewrite fmap_app, <- app_assoc. rewrite app_assoc in Hat |- *.
      rewrite <- app_assoc. rewrite <- app_assoc in Hat. exact Hat.
Qed.

(** The addressing part of a read: the register address bytes, then the
    repeated START with the read address, then the move to [read_data]. *)
Lemma irq_ack_read_address_run (bus : bool) (r : nat) (rxs : list Z) (w : world) :
  IF (periph_of bus w) = irq_none ->
  ACK (IEN (periph_of bus w)) = true ->
  current_state (sm_of bus w) = initialize ->
  comm_method (sm_of bus w) = I2C_READ ->
  register_byte_counter (sm_of bus w) = Z.of_nat (S r) ->
  (S r <= 4)%nat ->
  length rxs = (S r + 2)%nat ->
  exists w',
    run (L_irq bus irq_ACK <$> rxs) w = Some w' /\
    i2c_at bus read_data (byte_counter (sm_of bus w)) 0
      ((EvTXDATA bus <$> tx_bytes (register_address (sm_of bus w)) (S r))
         ++ [EvCMD bus I2C_CMD_START;
             EvTXDATA bus (Z.lor (wrap32 (Z.shiftl (device_address (sm_of bus w)) 1)) I2C_R)])
      w w'.
Proof.
  intros HIF HEN Hst Hcm Hrc Hr Hlen.
  assert (Hsplit : rxs = take (S r) rxs ++ drop (S r) rxs) by (by rewrite take_drop).
  assert (Hl1 : length (take (S r) rxs) = S r) by (rewrite length_take; lia).
  assert (Hl2 : length (drop (S r) rxs) = 2%nat) by (rewrite length_drop; lia).
  destruct (drop (S r) rxs) as [|rxa [|rxb [|? ?] ] ] eqn:Hdrop; try discriminate.
  destruct (irq_ack_register_run bus r (take (S r) rxs) w) as (w1 & Hrun1 & Hat1);
    [done|done|done|done|lia|done|].
  pose proof Hat1 as (F & Hst1 & Hbc1 & Hrc1 & Hh1).
  destruct F as (Hmem1 & HIF1 & HEN1 & _ & _ & _ & _ & _ & Hcm1 & Hd1 & Hdev1 & _).
  destruct (irq_ack_send_register_read bus rxa w1) as (w2 & Hstep2 & Hat2);
    [congruence|congruence|done|congruence|].
  rewrite Hbc1, Hrc1, Hdev1 in Hat2.
  pose proof Hat2 as (F & Hst2 & Hbc2 & Hrc2 & Hh2).
  destruct F as (Hmem2 & HIF2 & HEN2 & _ & _ & _ & _ & _ & Hcm2 & Hd2 & Hdev2 & _).
  destruct (irq_ack_request_read bus rxb w2) as (w3 & Hstep3 & Hat3);
    [congruence|congruence|done|congruence|].
  rewrite Hbc2, Hrc2 in Hat3.
  exists w3. split.
  - rewrite Hsplit, (run_fmap_app _ _ _ _ _ Hrun1). cbn [fmap list_fmap].
    by rewrite (run_cons_Ret _ _ _ _ Hstep2), (run_cons_Ret _ _ _ _ Hstep3).
  - pose proof (i2c_at_trans _ _ _ _ _ _ _ _ _ _ _ _
                  (i2c_at_trans _ _ _ _ _ _ _ _ _ _ _ _ Hat1 Hat2) Hat3) as Hat.
    rewrite app_nil_r in Hat. exact Hat.
Qed.

Lemma rx_world_ctl (bus : bool) (rx : Z) (w : world) :
  IF (periph_of bus w) = irq_none -> i2c_ctl bus w (rx_world bus rx w).
Proof.
  intros HIF. unfold i2c_ctl. destruct bus; cbn in *; repeat split; try done.
Qed.

(** The byte-received interrupts of a read touch nothing but the
    destination word, the byte counter and [RXDATA]. *)
Lemma irq_rxdatav_run_ctl (bus : bool) (bs : list Z) (w : world) :
  IF (periph_of bus w) = irq_none ->
  RXDATAV (IEN (periph_of bus w)) = true ->
  is_uint32 (byte_counter (sm_of bus w)) ->
  Z.of_nat (length bs) <= byte_counter (sm_of bus w) ->
  exists w',
    run (L_irq bus irq_RXDATAV <$> bs) w = Some w' /\
    i2c_ctl bus w w' /\
    register_byte_counter (sm_of bus w') = register_byte_counter (sm_of bus w).
Proof.
  revert w. induction bs as [|b bs IH]; intros w HIF HEN Hbc Hlen.
  - exists w. split; [done|]. split; [apply i2c_ctl_refl|done].
  - cbn [length] in Hlen.
    assert (Hstep : do_step (L_irq bus irq_RXDATAV b) w = Ret tt (rx_world bus b w))
      by (apply irq_rxdatav_step; (done || lia)).
    pose proof (rx_world_ctl bus b w HIF) as Hctl.
    assert (Hbc1 : byte_counter (sm_of bus (rx_world bus b w))
                   = byte_counter (sm_of bus w) - 1).
    { transitivity (wrap32 (byte_counter (sm_of bus w) - 1)); [by destruct bus|].
      apply wrap32_small. unfold is_uint32 in *. lia. }
    destruct (IH (rx_world bus b w)) as (w' & Hrun & Hctl' & Hrc');
      [by destruct bus|by destruct bus|unfold is_uint32 in *; lia|lia|].
    exists w'. split; [cbn [fmap list_fmap]; by rewrite (run_cons_Ret _ _ _ _ Hstep)|].
    split; [by eapply i2c_ctl_trans|].
    rewrite Hrc'. by destruct bus.
Qed.

(** The read of [n] bytes: what the bus sees and what the memory holds
    from the call of [i2c_start] on a world [w0] to the last expected
    byte. *)
Lemma read_run (s : I2C_START_STRUCT) (nr : nat) (rxs bs : list Z) (w0 : world) :
  let bus := ss_which_i2c s in
  sm_of bus w0 = sm_started s ->
  ss_comm_method s = I2C_READ ->
  ss_num_register_bytes s = Z.of_nat nr ->
  ss_num_bytes s = Z.of_nat (length bs) ->
  IF (periph_of bus w0) = irq_none ->
  ACK (IEN (periph_of bus w0)) = true ->
  RXDATAV (IEN (periph_of bus w0)) = true ->
  (1 <= nr <= 4)%nat ->
  length rxs = (nr + 2)%nat ->
  Forall is_byte bs ->
  Z.of_nat (length bs) < 2 ^ 32 ->
  is_uint32 (mem w0 (ss_data s)) ->
  exists w1 w2,
    run (L_irq bus irq_ACK <$> rxs) w0 = Some w1 /\
    i2c_at bus read_data (ss_num_bytes s) 0
      ((EvTXDATA bus <$> tx_bytes (ss_register_address s) nr)
         ++ [EvCMD bus I2C_CMD_START;
             EvTXDATA bus (Z.lor (wrap32 (Z.shiftl (ss_device_address s) 1)) I2C_R)])
      w0 w1 /\
    run (L_irq bus irq_RXDATAV <$> bs) w1 = Some w2 /\
    i2c_ctl bus w1 w2 /\
    mem w2 (ss_data s) = wrap32 (be_acc (mem w0 (ss_data s)) bs) /\
    (forall a, a <> ss_data s -> mem w2 a = mem w0 a) /\
    byte_counter (sm_of bus w2) = 0 /\
    current_state (sm_of bus w2) = read_data /\
    history w2 = history w1 ++ replicate (length bs) (EvCMD bus I2C_CMD_ACK).
Proof.
  intros bus Hsm Hcm Hnr Hn HIF HACK HRX Hr Hlen Hall Hsz Hmem.
  destruct nr as [|r]; [lia|].
  destruct (irq_ack_read_address_run bus r rxs w0) as (w1 & Hrun1 & Hat1);
    [done|done|by rewrite Hsm|by rewrite Hsm|by rewrite Hsm|lia|done|].
  rewrite Hsm in Hat1. cbn [sm_started byte_counter register_address device_address] in Hat1.
  pose proof Hat1 as (F & Hst1 & Hbc1 & Hrc1 & Hh1).
  destruct F as (Hmem1 & HIF1 & HEN1 & _ & _ & _ & _ & _ & _ & Hd1 & _).
  rewrite Hsm in Hd1. cbn in Hd1.
  destruct (irq_rxdatav_run bus bs w1) as (w2 & Hrun2 & Hval & Hoth & Hbc2 & Hst2 & Hh2);
    [congruence|congruence|rewrite Hbc1, Hn; unfold is_uint32; lia|
     rewrite Hbc1, Hn; lia|done|by rewrite Hd1, Hmem1|].
  destruct (irq_rxdatav_run_ctl bus bs w1) as (w2' & Hrun2' & Hctl & _);
    [congruence|congruence|rewrite Hbc1, Hn; unfold is_uint32; lia|
     rewrite Hbc1, Hn; lia|].
  rewrite Hrun2 in Hrun2'. injection Hrun2' as <-.
  rewrite Hd1, Hmem1 in Hval. rewrite Hd1 in Hoth.
  exists w1, w2.
  split; [done|]. split; [done|]. split; [done|]. split; [done|]. split; [done|].
  split; [intros a Ha; rewrite Hoth by done; by rewrite Hmem1|].
  split; [rewrite Hbc2, Hbc1, Hn; lia|].
  split; [congruence|done].
Qed.

Lemma i2c_isr_nack (bus : bool) (rx : Z) (w : world) :
  IF (periph_of bus w) = irq_none ->
  NACK (IEN (periph_of bus w)) = true ->
  do_step (L_irq bus irq_NACK rx) w = i2c_nack_sm bus (hw_received bus rx w).
Proof.
  intros HIF HEN.
  destruct w as [es l s0 s1 p0 p1 m h].
  destruct bus; cbn in HIF, HEN.
  - destruct p1 as [iflags [en_rx en_ack en_nack en_stop] rxd idle].
    cbn in HIF, HEN. subst. unfold irq_none.
    unfold do_step, i2c_isr, write_IFC, read_IF, hw_received, hw_raise,
      set_periph, periph_of, irq_none, irq_NACK, get, ret, modify, EFM_ASSERT, bind.
    cbn -[i2c_nack_sm].
    cbv [irq_clear irq_or irq_and RXDATAV ACK NACK MSTOP andb orb negb].
    match goal with
    | |- context [i2c_nack_sm ?b ?v] =>
        destruct (i2c_nack_sm b v) as [ [] ?| | |]
    end; reflexivity.
  - destruct p0 as [iflags [en_rx en_ack en_nack en_stop] rxd idle].
    cbn in HIF, HEN. subst. unfold irq_none.
    unfold do_step, i2c_isr, write_IFC, read_IF, hw_received, hw_raise,
      set_periph, periph_of, irq_none, irq_NACK, get, ret, modify, EFM_ASSERT, bind.
    cbn -[i2c_nack_sm].
    cbv [irq_clear irq_or irq_and RXDATAV ACK NACK MSTOP andb orb negb].
    match goal with
    | |- context [i2c_nack_sm ?b ?v] =>
        destruct (i2c_nack_sm b v) as [ [] ?| | |]
    end; reflexivity.
Qed.

Lemma irq_nack_request_read (bus : bool) (rx : Z) (w : world) :
  IF (periph_of bus w) = irq_none ->
  NACK (IEN (periph_of bus w)) = true ->
  current_state (sm_of bus w) = request_read ->
  exists w',
    do_step (L_irq bus irq_NACK rx) w = Ret tt w' /\
    i2c_at bus request_read (byte_counter (sm_of bus w))
      (register_byte_counter (sm_of bus w))
      [EvCMD bus I2C_CMD_START;
       EvTXDATA bus (Z.lor (wrap32 (Z.shiftl (device_address (sm_of bus w)) 1)) I2C_R)]
      w w'.
Proof.
  intros HIF HEN Hst. rewrite i2c_isr_nack by done.
  unfold i2c_nack_sm, get_sm, get, ret, bind. lazy beta iota zeta.
  replace (sm_of bus (hw_received bus rx w)) with (sm_of bus w) by (by destruct bus).
  unfold EFM_ASSERT. rewrite bool_decide_eq_true_2 by done.
  unfold write_CMD, write_TXDATA, modify.
  eexists. split; [reflexivity|].
  i2c_at_solve bus; by rewrite <- app_assoc.
Qed.

Lemma irq_nack_run (bus : bool) (rxs : list Z) (w : world) :
  IF (periph_of bus w) = irq_none ->
  NACK (IEN (periph_of bus w)) = true ->
  current_state (sm_of bus w) = request_read ->
  exists w',
    run (L_irq bus irq_NACK <$> rxs) w = Some w' /\
    i2c_at bus request_read (byte_counter (sm_of bus w))
      (register_byte_counter (sm_of bus w))
      (read_requests bus (device_address (sm_of bus w)) (length rxs)) w w'.
Proof.
  revert w. induction rxs as [|rx rxs IH]; intros w HIF HEN Hst.
  - exists w. split; [done|]. split; [apply i2c_frame_refl|].
    repeat split; try done. cbn. by rewrite app_nil_r.
  - destruct (irq_nack_request_read bus rx w HIF HEN Hst) as (w1 & Hstep & Hat).
    pose proof Hat as (F & Hst1 & Hbc1 & Hrc1 & Hh1).
    destruct F as (_ & HIF1 & HEN1 & _ & _ & _ & _ & _ & _ & _ & Hdev1 & _).
    destruct (IH w1) as (w' & Hrun & Hat'); [congruence|congruence|done|].
    rewrite Hbc1, Hrc1, Hdev1 in Hat'.
    exists w'. split; [cbn [fmap list_fmap]; by rewrite (run_cons_Ret _ _ _ _ Hstep)|].
    exact (i2c_at_trans _ _ _ _ _ _ _ _ _ _ _ _ Hat Hat').
Qed.

(** *** Whole transactions *)

Lemma do_step_start (s : I2C_START_STRUCT) (idle : bool) (w : world) :
  do_step (L_start s idle) w = i2c_start s (hw_state (ss_which_i2c s) idle w).
Proof. reflexivity. Qed.

(** The start step of a run, on a free bus. *)
Lemma start_step (s : I2C_START_STRUCT) (c : Z) (w : world) :
  busy (sm_of (ss_which_i2c s) w) = false ->
  lowest_energy_mode w !! Z.to_nat I2C_EM = Some c ->
  c < 4 ->
  exists w',
    do_step (L_start s true) w = Ret tt w' /\
    sm_of (ss_which_i2c s) w' = sm_started s /\
    sm_of (negb (ss_which_i2c s)) w' = sm_of (negb (ss_which_i2c s)) w /\
    IF (periph_of (ss_which_i2c s) w') = IF (periph_of (ss_which_i2c s) w) /\
    IEN (periph_of (ss_which_i2c s) w') = IEN (periph_of (ss_which_i2c s) w) /\
    mem w' = mem w /\
    event_scheduled w' = event_scheduled w /\
    lowest_energy_mode w' = <[Z.to_nat I2C_EM := c + 1]> (lowest_energy_mode w) /\
    history w' = history w ++ start_events s.
Proof.
  intros Hb Hc Hc4. rewrite do_step_start.
  destruct (i2c_start_runs s c (hw_state (ss_which_i2c s) true w))
    as (w' & Hrun & Hsm & Hoth & H0 & H1 & Hm & He & Hl & Hh);
    [by destruct (ss_which_i2c s)|by destruct (ss_which_i2c s)|
     by destruct (ss_which_i2c s)|done|].
  exists w'. split; [done|]. split; [done|].
  split; [rewrite Hoth; by destruct (ss_which_i2c s)|].
  split; [unfold periph_of; destruct (ss_which_i2c s); [by rewrite H1|by rewrite H0]|].
  split; [unfold periph_of; destruct (ss_which_i2c s); [by rewrite H1|by rewrite H0]|].
  split; [rewrite Hm; by destruct (ss_which_i2c s)|].
  split; [rewrite He; by destruct (ss_which_i2c s)|].
  split; [rewrite Hl; by destruct (ss_which_i2c s)|].
  rewrite Hh; by destruct (ss_which_i2c s).
Qed.

Lemma lem_restored (l : list Z) (i : nat) (c : Z) :
  l !! i = Some c -> <[i := c + 1 - 1]> (<[i := c + 1]> l) = l.
Proof.
  intros H. rewrite list_insert_insert_eq.
  replace (c + 1 - 1) with c by lia. by apply list_insert_id.
Qed.

(** X8. A write, from the call of [i2c_start] to the completion event.  On a
    free bus with the ACK and stop-detected interrupts enabled and none
    pending: a write of the [n] low bytes of the caller's word (1 to 4)
    behind [nr] register-address bytes (0 to 4, with at least two payload
    bytes when there is no register byte) takes [nr + n + 1] ACK
    interrupts; it puts on the bus START, the write address, the register
    address and then the payload, each most significant byte first, and
    STOP, leaves the caller's memory and the pending events as they were;
    the stop-detected interrupt then posts the completion event, frees the
    bus and gives the sleep block back. *)
Theorem i2c_write_transaction
    (bus : bool) (dev reg cb p c rx : Z) (nr n : nat) (rxs : list Z) (w : world) :
  busy (sm_of bus w) = false ->
  IF (periph_of bus w) = irq_none ->
  ACK (IEN (periph_of bus w)) = true ->
  MSTOP (IEN (periph_of bus w)) = true ->
  lowest_energy_mode w !! Z.to_nat I2C_EM = Some c ->
  0 <= c < 4 ->
  (nr <= 4)%nat -> (1 <= n <= 4)%nat -> (nr = 0%nat -> (2 <= n)%nat) ->
  length rxs = (nr + n + 1)%nat ->
  let s := write_request bus dev reg (Z.of_nat nr) (Z.of_nat n) cb p in
  exists w1 w2,
    run (L_start s true :: (L_irq bus irq_ACK <$> rxs)) w = Some w1 /\
    history w1 =
      history w ++ start_events s
        ++ (EvTXDATA bus <$> (tx_bytes reg nr ++ tx_bytes (mem w p) n))
        ++ [EvCMD bus I2C_CMD_STOP] /\
    mem w1 = mem w /\
    event_scheduled w1 = event_scheduled w /\
    busy (sm_of bus w1) = true /\
    run [L_irq bus irq_MSTOP rx] w1 = Some w2 /\
    history w2 = history w1 ++ [EvPost cb; EvBusy bus false; EvUnblock I2C_EM] /\
    event_scheduled w2 = Z.lor (event_scheduled w) cb /\
    busy (sm_of bus w2) = false /\
    mem w2 = mem w /\
    lowest_energy_mode w2 = lowest_energy_mode w.
Proof.
  intros Hb HIF HACK HSTOP Hc Hc4 Hnr Hn Hz Hlen s.
  destruct (start_step s c w) as (w0 & Hstep0 & Hsm0 & _ & HIF0 & HEN0 & Hm0 & He0 & Hl0 & Hh0);
    [done|done|lia|].
  change (ss_which_i2c s) with bus in *.
  destruct (irq_ack_write_transaction_run bus nr n rxs w0) as (w1 & Hrun1 & Hat1);
    [congruence|congruence|by rewrite Hsm0|by rewrite Hsm0|by rewrite Hsm0|
     by rewrite Hsm0|done|done|done|done|].
  rewrite Hsm0, Hm0 in Hat1. cbn [sm_started register_address data s write_request
    ss_register_address ss_data] in Hat1.
  destruct Hat1 as (F & Hst1 & _ & _ & Hh1).
  destruct F as (Hmem1 & HIF1 & HEN1 & _ & _ & _ & Hl1 & He1 & _ & _ & _ & _ & Hcb1 & Hbz1).
  rewrite Hsm0 in Hcb1, Hbz1. cbn in Hcb1, Hbz1.
  destruct (irq_mstop_step bus rx (c + 1) w1) as
    (w2 & Hstep2 & _ & Hbz2 & _ & Hm2 & He2 & Hl2 & Hh2);
    [congruence|congruence|done| |lia|].
  { rewrite Hl1, Hl0. apply list_lookup_insert_eq. by apply lookup_lt_Some in Hc. }
  exists w1, w2.
  split; [by rewrite (run_cons_Ret _ _ _ _ Hstep0)|].
  split; [by rewrite Hh1, Hh0, <- app_assoc|].
  split; [congruence|]. split; [congruence|]. split; [done|].
  split; [by rewrite (run_cons_Ret _ _ _ _ Hstep2)|].
  split; [by rewrite Hh2, Hcb1|].
  split; [by rewrite He2, He1, He0, Hcb1|].
  split; [done|]. split; [congruence|].
  rewrite Hl2, Hl1, Hl0. by apply lem_restored.
Qed.

Lemma i2c_write_transaction_witness :
  exists w1 w2,
    run (L_start (write_request true 112 0 0 2 0 100) true
           :: (L_irq true irq_ACK <$> [0; 0; 0])) (world_open (word_at_100 13591))
      = Some w1 /\
    history w1 =
      history (world_open (word_at_100 13591))
        ++ start_events (write_request true 112 0 0 2 0 100)
        ++ (EvTXDATA true <$> (tx_bytes 0 0 ++ tx_bytes (mem (world_open (word_at_100 13591)) 100) 2))
        ++ [EvCMD true I2C_CMD_STOP] /\
    mem w1 = mem (world_open (word_at_100 13591)) /\
    event_scheduled w1 = event_scheduled (world_open (word_at_100 13591)) /\
    busy (sm_of true w1) = true /\
    run [L_irq true irq_MSTOP 0] w1 = Some w2 /\
    history w2 = history w1 ++ [EvPost 0; EvBusy true false; EvUnblock I2C_EM] /\
    event_scheduled w2 = Z.lor (event_scheduled (world_open (word_at_100 13591))) 0 /\
    busy (sm_of true w2) = false /\
    mem w2 = mem (world_open (word_at_100 13591)) /\
    lowest_energy_mode w2 = lowest_energy_mode (world_open (word_at_100 13591)).
Proof.
  apply (i2c_write_transaction true 112 0 0 100 0 0 0 2 [0; 0; 0]
           (world_open (word_at_100 13591)));
    try (vm_compute; reflexivity); try lia.
Defined.

(** X9. A one-byte write with no register byte.  The first ACK sends the
    byte from [initialize] and leaves the byte counter at zero; the second
    ACK finds the state [send_register], whose write branch sends a
    payload byte without testing the counter: byte number [0 - 1] of the
    word, a shift by far more than 32 bits, which C leaves undefined.  No
    STOP has been written. *)
Theorem i2c_write_one_byte_without_register_undefined
    (bus : bool) (dev reg cb p c rx1 rx2 : Z) (w : world) :
  busy (sm_of bus w) = false ->
  IF (periph_of bus w) = irq_none ->
  ACK (IEN (periph_of bus w)) = true ->
  lowest_energy_mode w !! Z.to_nat I2C_EM = Some c ->
  c < 4 ->
  let s := write_request bus dev reg 0 1 cb p in
  exists w1,
    run [L_start s true; L_irq bus irq_ACK rx1] w = Some w1 /\
    history w1 = history w ++ start_events s ++ [EvTXDATA bus (tx_byte (mem w p) 1)] /\
    current_state (sm_of bus w1) = send_register /\
    byte_counter (sm_of bus w1) = 0 /\
    do_step (L_irq bus irq_ACK rx2) w1 = Undef /\
    run [L_start s true; L_irq bus irq_ACK rx1; L_irq bus irq_ACK rx2] w = None.
Proof.
  intros Hb HIF HACK Hc Hc4 s.
  destruct (start_step s c w) as (w0 & Hstep0 & Hsm0 & _ & HIF0 & HEN0 & Hm0 & He0 & Hl0 & Hh0);
    [done|done|lia|].
  change (ss_which_i2c s) with bus in *.
  destruct (irq_ack_initialize_no_register bus rx1 w0) as (w1 & Hstep1 & Hat1);
    [congruence|congruence|by rewrite Hsm0|by rewrite Hsm0|by rewrite Hsm0|].
  rewrite Hsm0, Hm0 in Hat1. cbn in Hat1.
  destruct Hat1 as (F & Hst1 & Hbc1 & _ & Hh1).
  destruct F as (Hmem1 & HIF1 & HEN1 & _ & _ & _ & _ & _ & Hcm1 & _).
  rewrite Hsm0 in Hcm1. cbn in Hcm1.
  assert (Hundef : do_step (L_irq bus irq_ACK rx2) w1 = Undef).
  { rewrite i2c_isr_ack by congruence.
    ack_unfold bus rx2 w1. rewrite Hst1, Hcm1.
    unfold write_payload_byte, set_current_state, load, get_sm, get, ret, modify, bind.
    lazy beta iota zeta.
    replace (byte_counter (sm_of bus (set_sm bus _ _))) with (byte_counter (sm_of bus w1))
      by (by destruct bus).
    rewrite Hbc1. rewrite byte_to_write_undef by (by left). reflexivity. }
  exists w1.
  split; [by rewrite (run_cons_Ret _ _ _ _ Hstep0), (run_cons_Ret _ _ _ _ Hstep1)|].
  split; [by rewrite Hh1, Hh0, <- app_assoc|].
  split; [done|]. split; [done|]. split; [done|].
  rewrite (run_cons_Ret _ _ _ _ Hstep0), (run_cons_Ret _ _ _ _ Hstep1).
  cbn [run]. by rewrite Hundef.
Qed.

Lemma i2c_write_one_byte_without_register_undefined_witness :
  exists w1,
    run [L_start (write_request false 64 0 0 1 0 100) true; L_irq false irq_ACK 0]
        (world_open (word_at_100 59)) = Some w1 /\
    history w1 = history (world_open (word_at_100 59))
                 ++ start_events (write_request false 64 0 0 1 0 100)
                 ++ [EvTXDATA false (tx_byte (mem (world_open (word_at_100 59)) 100) 1)] /\
    current_state (sm_of false w1) = send_register /\
    byte_counter (sm_of false w1) = 0 /\
    do_step (L_irq false irq_ACK 0) w1 = Undef /\
    run [L_start (write_request false 64 0 0 1 0 100) true; L_irq false irq_ACK 0;
         L_irq false irq_ACK 0] (world_open (word_at_100 59)) = None.
Proof.
  apply (i2c_write_one_byte_without_register_undefined false 64 0 0 100 0 0 0
           (world_open (word_at_100 59)));
    try (vm_compute; reflexivity); lia.
Defined.

(** X10. A read, from the call of [i2c_start] to the completion event.  On a
    free bus with its interrupts enabled and none pending, a read of [n]
    bytes behind [nr] register-address bytes (1 to 4): [nr + 2] ACK
    interrupts put START, the write address, the register address (most
    significant byte first), the repeated START and the read address on
    the bus; each of the [n] bytes received is shifted into the caller's
    word and answered with ACK, after which the bus is still busy in
    [read_data] with nothing posted; one more byte-received interrupt is
    answered with NACK and STOP and its byte dropped, and the
    stop-detected interrupt posts the completion event, frees the bus and
    gives the sleep block back. *)
Theorem i2c_read_transaction
    (bus : bool) (dev reg cb p c extra rx : Z) (nr : nat) (rxs bs : list Z)
    (w : world) :
  busy (sm_of bus w) = false ->
  IF (periph_of bus w) = irq_none ->
  IEN (periph_of bus w) = irq_all ->
  lowest_energy_mode w !! Z.to_nat I2C_EM = Some c ->
  0 <= c < 4 ->
  (1 <= nr <= 4)%nat ->
  length rxs = (nr + 2)%nat ->
  Forall is_byte bs ->
  Z.of_nat (length bs) < 2 ^ 32 ->
  is_uint32 (mem w p) ->
  let s := read_request bus dev reg (Z.of_nat nr) (Z.of_nat (length bs)) cb p in
  exists w1 w2 w3,
    run (L_start s true :: (L_irq bus irq_ACK <$> rxs)) w = Some w1 /\
    history w1 =
      history w ++ start_events s ++ (EvTXDATA bus <$> tx_bytes reg nr)
        ++ [EvCMD bus I2C_CMD_START;
            EvTXDATA bus (Z.lor (wrap32 (Z.shiftl dev 1)) I2C_R)] /\
    run (L_irq bus irq_RXDATAV <$> bs) w1 = Some w2 /\
    history w2 = history w1 ++ replicate (length bs) (EvCMD bus I2C_CMD_ACK) /\
    mem w2 p = wrap32 (be_acc (mem w p) bs) /\
    (forall a, a <> p -> mem w2 a = mem w a) /\
    current_state (sm_of bus w2) = read_data /\
    busy (sm_of bus w2) = true /\
    event_scheduled w2 = event_scheduled w /\
    run [L_irq bus irq_RXDATAV extra; L_irq bus irq_MSTOP rx] w2 = Some w3 /\
    history w3 =
      history w2 ++ [EvCMD bus I2C_CMD_NACK; EvCMD bus I2C_CMD_STOP;
                     EvPost cb; EvBusy bus false; EvUnblock I2C_EM] /\
    mem w3 = mem w2 /\
    event_scheduled w3 = Z.lor (event_scheduled w) cb /\
    busy (sm_of bus w3) = false /\
    lowest_energy_mode w3 = lowest_energy_mode w.
Proof.
  intros Hb HIF HEN Hc Hc4 Hnr Hlen Hall Hsz Hmem s.
  destruct (start_step s c w) as (w0 & Hstep0 & Hsm0 & _ & HIF0 & HEN0 & Hm0 & He0 & Hl0 & Hh0);
    [done|done|lia|].
  change (ss_which_i2c s) with bus in *.
  destruct (read_run s nr rxs bs w0) as
    (w1 & w2 & Hrun1 & Hat1 & Hrun2 & Hctl & Hval & Hoth & Hbc2 & Hst2 & Hh2);
    [done|done|done|done|
     change (ss_which_i2c s) with bus; congruence|
     change (ss_which_i2c s) with bus; by rewrite HEN0, HEN|
     change (ss_which_i2c s) with bus; by rewrite HEN0, HEN|
     done|done|done|done|by rewrite Hm0|].
  cbn [s read_request ss_which_i2c ss_data ss_num_bytes ss_register_address
    ss_device_address ss_finished_callback] in *.
  destruct Hat1 as (F & Hst1 & _ & _ & Hh1).
  destruct F as (Hmem1 & HIF1 & HEN1 & _ & _ & _ & Hl1 & He1 & _ & _ & _ & _ & Hcb1 & Hbz1).
  destruct Hctl as (HIF2 & HEN2 & _ & _ & _ & Hl2 & He2 & _ & _ & _ & _ & Hcb2 & Hbz2).
  rewrite Hsm0 in Hcb1, Hbz1. cbn in Hcb1, Hbz1.
  destruct (irq_rxdatav_last bus extra w2) as (w3 & Hstep3 & Hat3);
    [congruence|by rewrite HEN2, HEN1, HEN0, HEN|done|].
  destruct Hat3 as (F & Hst3 & _ & _ & Hh3).
  destruct F as (Hmem3 & HIF3 & HEN3 & _ & _ & _ & Hl3 & He3 & _ & _ & _ & _ & Hcb3 & Hbz3).
  destruct (irq_mstop_step bus rx (c + 1) w3) as
    (w4 & Hstep4 & _ & Hbz4 & _ & Hm4 & He4 & Hl4 & Hh4);
    [congruence|by rewrite HEN3, HEN2, HEN1, HEN0, HEN|done| |lia|].
  { rewrite Hl3, Hl2, Hl1, Hl0. apply list_lookup_insert_eq. by apply lookup_lt_Some in Hc. }
  exists w1, w2, w4.
  split; [by rewrite (run_cons_Ret _ _ _ _ Hstep0)|].
  split; [by rewrite Hh1, Hh0, <- app_assoc|].
  split; [done|]. split; [done|].
  split; [by rewrite Hval, Hm0|].
  split; [intros a Ha; rewrite Hoth by done; by rewrite Hm0|].
  split; [done|]. split; [congruence|]. split; [congruence|].
  split; [by rewrite (run_cons_Ret _ _ _ _ Hstep3), (run_cons_Ret _ _ _ _ Hstep4)|].
  split.
  { rewrite Hh4, Hh3, <- app_assoc. cbn [app]. do 4 f_equal. congruence. }
  split; [congruence|].
  split; [rewrite He4, He3, He2, He1, He0; f_equal; congruence|].
  split; [done|].
  rewrite Hl4, Hl3, Hl2, Hl1, Hl0. by apply lem_restored.
Qed.

Lemma i2c_read_transaction_witness :
  let w := world_open (word_at_100 0) in
  let s := read_request true 112 30822 2 6 128 100 in
  exists w1 w2 w3,
    run (L_start s true :: (L_irq true irq_ACK <$> [0; 0; 0; 0])) w = Some w1 /\
    history w1 =
      history w ++ start_events s ++ (EvTXDATA true <$> tx_bytes 30822 2)
        ++ [EvCMD true I2C_CMD_START;
            EvTXDATA true (Z.lor (wrap32 (Z.shiftl 112 1)) I2C_R)] /\
    run (L_irq true irq_RXDATAV <$> [1; 2; 3; 4; 5; 6]) w1 = Some w2 /\
    history w2 = history w1 ++ replicate 6 (EvCMD true I2C_CMD_ACK) /\
    mem w2 100 = wrap32 (be_acc (mem w 100) [1; 2; 3; 4; 5; 6]) /\
    (forall a, a <> 100 -> mem w2 a = mem w a) /\
    current_state (sm_of true w2) = read_data /\
    busy (sm_of true w2) = true /\
    event_scheduled w2 = event_scheduled w /\
    run [L_irq true irq_RXDATAV 0; L_irq true irq_MSTOP 0] w2 = Some w3 /\
    history w3 =
      history w2 ++ [EvCMD true I2C_CMD_NACK; EvCMD true I2C_CMD_STOP;
                     EvPost 128; EvBusy true false; EvUnblock I2C_EM] /\
    mem w3 = mem w2 /\
    event_scheduled w3 = Z.lor (event_scheduled w) 128 /\
    busy (sm_of true w3) = false /\
    lowest_energy_mode w3 = lowest_energy_mode w.
Proof.
  apply (i2c_read_transaction true 112 30822 128 100 0 0 0 2 [0; 0; 0; 0]
           [1; 2; 3; 4; 5; 6] (world_open (word_at_100 0)));
    try (vm_compute; reflexivity); try lia.
  - repeat constructor; unfold is_byte; lia.
  - vm_compute. split; [discriminate|reflexivity].
Defined.

(** X11. A read of more than four bytes into the caller's 32-bit word keeps the
    last four: the bytes before them, like what the word held, are
    shifted out. *)
Theorem i2c_read_keeps_last_four_bytes (bus : bool) (hd tl : list Z) (w : world) :
  IF (periph_of bus w) = irq_none ->
  RXDATAV (IEN (periph_of bus w)) = true ->
  is_uint32 (byte_counter (sm_of bus w)) ->
  Z.of_nat (length (hd ++ tl)) <= byte_counter (sm_of bus w) ->
  Forall is_byte (hd ++ tl) ->
  is_uint32 (mem w (data (sm_of bus w))) ->
  length tl = 4%nat ->
  exists w',
    run (L_irq bus irq_RXDATAV <$> (hd ++ tl)) w = Some w' /\
    mem w' (data (sm_of bus w)) = be_value tl.
Proof.
  intros HIF HEN Hbc Hlen Hall Hmem Htl.
  destruct (irq_rxdatav_run bus (hd ++ tl) w HIF HEN Hbc Hlen Hall Hmem)
    as (w' & Hrun & Hval & _).
  exists w'. split; [done|]. rewrite Hval.
  unfold be_acc. rewrite fold_left_app. fold (be_acc (mem w (data (sm_of bus w))) hd).
  fold (be_acc (be_acc (mem w (data (sm_of bus w))) hd) tl).
  rewrite be_acc_split, Htl.
  apply Forall_app in Hall as [_ Htlb].
  pose proof (be_value_bound tl Htlb) as Hb. rewrite Htl in Hb.
  change (8 * Z.of_nat 4) with 32 in *.
  unfold wrap32. rewrite Z.add_comm, Z.mod_add by lia.
  apply Z.mod_small. lia.
Qed.

Lemma i2c_read_keeps_last_four_bytes_witness :
  let w := after_run [L_start (read_request true 112 30822 2 6 128 100) true;
                      L_irq true irq_ACK 0; L_irq true irq_ACK 0;
                      L_irq true irq_ACK 0; L_irq true irq_ACK 0]
             (world_open (word_at_100 0)) in
  exists w',
    run (L_irq true irq_RXDATAV <$> ([97; 98] ++ [99; 100; 101; 102])) w = Some w' /\
    mem w' (data (sm_of true w)) = be_value [99; 100; 101; 102].
Proof.
  apply (i2c_read_keeps_last_four_bytes true [97; 98] [99; 100; 101; 102]).
  - vm_compute; reflexivity.
  - vm_compute; reflexivity.
  - vm_compute. split; [discriminate|reflexivity].
  - vm_compute. discriminate.
  - repeat (apply Forall_cons_2; [unfold is_byte; lia|]). apply Forall_nil_2.
  - vm_compute. split; [discriminate|reflexivity].
  - reflexivity.
Defined.

(** X12. The ways out of [i2c_start].  On a busy bus the call stays in its
    loop.  On a free bus whose controller is not idle it halts in its
    assertion with nothing changed.  On a free, idle bus with the I2C
    sleep mode already blocked four times (or more) it halts in the
    assertion of [sleep_block_mode], the counter raised, before [busy] is
    set and before anything is written to the controller.  Otherwise it
    returns. *)
Theorem i2c_start_outcomes (s : I2C_START_STRUCT) (c : Z) (w : world) :
  lowest_energy_mode w !! Z.to_nat I2C_EM = Some c ->
  c < INT_MAX ->
  let bus := ss_which_i2c s in
  (busy (sm_of bus w) = true -> i2c_start s w = Spin) /\
  (busy (sm_of bus w) = false -> STATE_IDLE (periph_of bus w) = false ->
   i2c_start s w = Halt w) /\
  (busy (sm_of bus w) = false -> STATE_IDLE (periph_of bus w) = true -> 4 <= c ->
   i2c_start s w = Halt (counted (EvBlock I2C_EM) I2C_EM (c + 1) w)) /\
  (busy (sm_of bus w) = false -> STATE_IDLE (periph_of bus w) = true -> c < 4 ->
   exists w', i2c_start s w = Ret tt w' /\
              busy (sm_of bus w') = true /\
              history w' = history w ++ start_events s).
Proof.
  intros Hc Hmax bus.
  split; [|split; [|split] ].
  - intros Hb. unfold i2c_start, get_sm, get, ret, bind. lazy beta iota zeta.
    fold bus. by rewrite Hb.
  - intros Hb Hidle. unfold i2c_start, get_sm, get, ret, bind. lazy beta iota zeta.
    fold bus. rewrite Hb. unfold EFM_ASSERT at 1. by rewrite Hidle.
  - intros Hb Hidle Hc4. unfold i2c_start, get_sm, get, ret, bind.
    lazy beta iota zeta. fold bus. rewrite Hb. unfold EFM_ASSERT at 1. rewrite Hidle.
    rewrite (sleep_block_mode_eq I2C_EM c) by (done || lia).
    destruct (Z.ltb_spec (c + 1) 5); [lia|done].
  - intros Hb Hidle Hc4.
    destruct (i2c_start_runs s c w Hb Hidle Hc Hc4)
      as (w' & Hrun & Hsm & _ & _ & _ & _ & _ & _ & Hh).
    exists w'. split; [done|]. split; [|done].
    fold bus in Hsm. by rewrite Hsm.
Qed.

Lemma i2c_start_outcomes_witness :
  let s := read_request false 64 245 1 2 32 100 in
  let w := world_open (word_at_100 0) in
  let w4 := set_lowest_energy_mode [0; 0; 4; 0; 0] w in
  i2c_start s (set_sm false (sm_started s) w) = Spin /\
  i2c_start s (hw_state false false w) = Halt (hw_state false false w) /\
  i2c_start s w4 = Halt (counted (EvBlock I2C_EM) I2C_EM (4 + 1) w4) /\
  exists w', i2c_start s w = Ret tt w' /\
             busy (sm_of false w') = true /\
             history w' = history w ++ start_events s.
Proof.
  intros s w w4.
  destruct (i2c_start_outcomes s 0 (set_sm false (sm_started s) w)) as (H1 & _);
    [reflexivity|unfold INT_MAX; lia|].
  destruct (i2c_start_outcomes s 0 (hw_state false false w)) as (_ & H2 & _);
    [reflexivity|unfold INT_MAX; lia|].
  destruct (i2c_start_outcomes s 4 w4) as (_ & _ & H3 & _);
    [reflexivity|unfold INT_MAX; lia|].
  destruct (i2c_start_outcomes s 0 w) as (_ & _ & _ & H4);
    [reflexivity|unfold INT_MAX; lia|].
  split; [apply H1; reflexivity|].
  split; [apply H2; reflexivity|].
  split; [apply H3; (reflexivity || lia)|].
  apply H4; (reflexivity || lia).
Defined.

(** X13. A device that is not ready answers the read address with NACK (the
    SI7021 does so until its measurement is done).  In [request_read],
    each NACK interrupt repeats the START and the read address and leaves
    everything else as it is, however many come; the ACK that follows
    moves the read on to [read_data] with all its bytes still expected. *)
Theorem i2c_read_retries_on_nack (bus : bool) (rxs : list Z) (rx : Z) (w : world) :
  IF (periph_of bus w) = irq_none ->
  NACK (IEN (periph_of bus w)) = true ->
  ACK (IEN (periph_of bus w)) = true ->
  current_state (sm_of bus w) = request_read ->
  comm_method (sm_of bus w) = I2C_READ ->
  exists w1 w2,
    run (L_irq bus irq_NACK <$> rxs) w = Some w1 /\
    history w1 = history w
                 ++ read_requests bus (device_address (sm_of bus w)) (length rxs) /\
    current_state (sm_of bus w1) = request_read /\
    run [L_irq bus irq_ACK rx] w1 = Some w2 /\
    current_state (sm_of bus w2) = read_data /\
    history w2 = history w1 /\
    byte_counter (sm_of bus w2) = byte_counter (sm_of bus w) /\
    busy (sm_of bus w2) = busy (sm_of bus w) /\
    mem w2 = mem w /\
    event_scheduled w2 = event_scheduled w /\
    lowest_energy_mode w2 = lowest_energy_mode w.
Proof.
  intros HIF HNACK HACK Hst Hcm.
  destruct (irq_nack_run bus rxs w HIF HNACK Hst) as (w1 & Hrun1 & Hat1).
  destruct Hat1 as (F1 & Hst1 & Hbc1 & _ & Hh1).
  destruct F1 as (Hm1 & HIF1 & HEN1 & _ & _ & _ & Hl1 & He1 & Hcm1 & _ & _ & _ & _ & Hbz1).
  destruct (irq_ack_request_read bus rx w1) as (w2 & Hstep2 & Hat2);
    [congruence|congruence|done|congruence|].
  destruct Hat2 as (F2 & Hst2 & Hbc2 & _ & Hh2).
  destruct F2 as (Hm2 & _ & _ & _ & _ & _ & Hl2 & He2 & _ & _ & _ & _ & _ & Hbz2).
  exists w1, w2.
  split; [done|]. split; [done|]. split; [done|].
  split; [by rewrite (run_cons_Ret _ _ _ _ Hstep2)|].
  split; [done|]. split; [by rewrite Hh2, app_nil_r|].
  repeat split; congruence.
Qed.

Lemma i2c_read_retries_on_nack_witness :
  let w := after_run [L_start (read_request false 64 245 1 2 32 100) true;
                      L_irq false irq_ACK 0; L_irq false irq_ACK 0]
             (world_open (word_at_100 0)) in
  exists w1 w2,
    run (L_irq false irq_NACK <$> [0; 0; 0]) w = Some w1 /\
    history w1 = history w
                 ++ read_requests false (device_address (sm_of false w)) (length [0; 0; 0]) /\
    current_state (sm_of false w1) = request_read /\
    run [L_irq false irq_ACK 0] w1 = Some w2 /\
    current_state (sm_of false w2) = read_data /\
    history w2 = history w1 /\
    byte_counter (sm_of false w2) = byte_counter (sm_of false w) /\
    busy (sm_of false w2) = busy (sm_of false w) /\
    mem w2 = mem w /\
    event_scheduled w2 = event_scheduled w /\
    lowest_energy_mode w2 = lowest_energy_mode w.
Proof.
  intros w.
  apply (i2c_read_retries_on_nack false [0; 0; 0] 0 w); vm_compute; reflexivity.
Defined.

(** ** The interrupt handler *)

(** X14. The interrupt handler acts on enabled flags only: when no pending flag
    is enabled, it returns with the world as it was; the pending flags
    stay pending, none is cleared, no state-machine function runs. *)
Theorem i2c_isr_ignores_disabled_flags (bus : bool) (w : world) :
  irq_and (IF (periph_of bus w)) (IEN (periph_of bus w)) = irq_none ->
  i2c_isr bus w = Ret tt w.
Proof.
  intros H.
  assert (Hclr : forall f, irq_clear f irq_none = f).
  { intros [ [] [] [] [] ]; reflexivity. }
  unfold i2c_isr, write_IFC, get, ret, modify, bind. lazy beta iota zeta.
  rewrite H. cbn [ACK NACK RXDATAV MSTOP irq_none]. rewrite Hclr.
  destruct w as [es l s0 s1 p0 p1 m h].
  destruct bus; cbn.
  - by destruct p1.
  - by destruct p0.
Qed.

Lemma i2c_isr_ignores_disabled_flags_witness :
  i2c_isr false
    (set_periph false
       {| IF := irq_ACK; IEN := irq_MSTOP; RXDATA := 0; STATE_IDLE := false |}
       (world_open (word_at_100 0)))
  = Ret tt
      (set_periph false
         {| IF := irq_ACK; IEN := irq_MSTOP; RXDATA := 0; STATE_IDLE := false |}
         (world_open (word_at_100 0))).
Proof.
  apply (i2c_isr_ignores_disabled_flags false
           (set_periph false
              {| IF := irq_ACK; IEN := irq_MSTOP; RXDATA := 0; STATE_IDLE := false |}
              (world_open (word_at_100 0)))).
  reflexivity.
Defined.

(** X15. Interrupts outside the design ladder stop the system: an ACK while the
    state machine reads, waits for the stop or is done, and a
    stop-detected interrupt in any state but [send_stop], halt in an
    assertion with nothing written to the bus, nothing posted and the
    bus still marked as it was. *)
Theorem i2c_isr_unexpected_interrupt_halts (bus : bool) (rx : Z) (w : world) :
  IF (periph_of bus w) = irq_none ->
  (ACK (IEN (periph_of bus w)) = true ->
   current_state (sm_of bus w) = read_data \/
   current_state (sm_of bus w) = send_stop \/
   current_state (sm_of bus w) = end_process ->
   do_step (L_irq bus irq_ACK rx) w = Halt (hw_received bus rx w)) /\
  (MSTOP (IEN (periph_of bus w)) = true ->
   current_state (sm_of bus w) <> send_stop ->
   do_step (L_irq bus irq_MSTOP rx) w = Halt (hw_received bus rx w)).
Proof.
  intros HIF. split.
  - intros HEN Hst. rewrite i2c_isr_ack by done.
    ack_unfold bus rx w.
    destruct Hst as [-> | [-> | ->] ]; reflexivity.
  - intros HEN Hst. rewrite i2c_isr_mstop by done.
    unfold i2c_stop_sm, get_sm, get, ret, bind. lazy beta iota zeta.
    replace (sm_of bus (hw_received bus rx w)) with (sm_of bus w) by (by destruct bus).
    unfold EFM_ASSERT. by rewrite bool_decide_eq_false_2.
Qed.

Lemma i2c_isr_unexpected_interrupt_halts_witness :
  let w := after_run [L_start (write_request false 64 230 1 1 256 100) true;
                      L_irq false irq_ACK 0; L_irq false irq_ACK 0;
                      L_irq false irq_ACK 0; L_irq false irq_MSTOP 0]
             (world_open (word_at_100 59)) in
  do_step (L_irq false irq_ACK 0) w = Halt (hw_received false 0 w) /\
  do_step (L_irq false irq_MSTOP 0) w = Halt (hw_received false 0 w).
Proof.
  intros w.
  destruct (i2c_isr_unexpected_interrupt_halts false 0 w) as [H1 H2].
  - vm_compute; reflexivity.
  - split.
    + apply H1; [vm_compute; reflexivity|]. right. right. vm_compute; reflexivity.
    + apply H2; [vm_compute; reflexivity|]. vm_compute. discriminate.
Defined.

(** ** The write and the read path agree on the byte order *)

Lemma tx_byte_is_byte (d k : Z) : is_byte (tx_byte d k).
Proof.
  unfold is_byte, tx_byte. change 255 with (Z.ones 8).
  rewrite Z.land_ones by lia. apply Z.mod_pos_bound. lia.
Qed.

Lemma tx_bytes_length (d : Z) (n : nat) : length (tx_bytes d n) = n.
Proof. induction n as [|n IH]; [done|]. cbn [tx_bytes length]. by rewrite IH. Qed.

Lemma tx_bytes_are_bytes (d : Z) (n : nat) : Forall is_byte (tx_bytes d n).
Proof.
  induction n as [|n IH]; [apply Forall_nil_2|].
  cbn [tx_bytes]. apply Forall_cons_2; [apply tx_byte_is_byte|done].
Qed.

Lemma be_value_tx_bytes (d : Z) (n : nat) :
  be_value (tx_bytes d n) = d mod 2 ^ (8 * Z.of_nat n).
Proof.
  induction n as [|n IH].
  - cbn. by rewrite Z.mod_1_r.
  - cbn [tx_bytes]. unfold be_value. rewrite be_acc_cons, be_acc_split.
    fold (be_value (tx_bytes d n)). rewrite IH, tx_bytes_length.
    unfold tx_byte. change 255 with (Z.ones 8).
    rewrite Z.land_ones, Z.shiftr_div_pow2 by lia.
    replace (8 * (Z.of_nat (S n) - 1)) with (8 * Z.of_nat n) by lia.
    replace (8 * Z.of_nat (S n)) with (8 * Z.of_nat n + 8) by lia.
    rewrite Z.pow_add_r by lia.
    rewrite Z.rem_mul_r by lia. lia.
Qed.

(** X16. What the write path sends of a word, the read path puts back
    together: in [write_data] with [n] bytes left (at most 4), [n] ACK
    interrupts send [n] bytes; a read that receives these bytes into a
    zeroed word ends with the [n] low bytes of the word that was written. *)
Theorem i2c_write_read_round_trip
    (bw br : bool) (n : nat) (rxs : list Z) (ww wr : world) :
  IF (periph_of bw ww) = irq_none ->
  ACK (IEN (periph_of bw ww)) = true ->
  current_state (sm_of bw ww) = write_data ->
  comm_method (sm_of bw ww) = I2C_WRITE ->
  byte_counter (sm_of bw ww) = Z.of_nat n ->
  (n <= 4)%nat ->
  length rxs = n ->
  IF (periph_of br wr) = irq_none ->
  RXDATAV (IEN (periph_of br wr)) = true ->
  is_uint32 (byte_counter (sm_of br wr)) ->
  Z.of_nat n <= byte_counter (sm_of br wr) ->
  mem wr (data (sm_of br wr)) = 0 ->
  exists bs ww' wr',
    run (L_irq bw irq_ACK <$> rxs) ww = Some ww' /\
    history ww' = history ww ++ (EvTXDATA bw <$> bs) /\
    length bs = n /\
    run (L_irq br irq_RXDATAV <$> bs) wr = Some wr' /\
    mem wr' (data (sm_of br wr)) = mem ww (data (sm_of bw ww)) mod 2 ^ (8 * Z.of_nat n).
Proof.
  intros HIF HACK Hst Hcm Hbc Hn Hlen HIFr HRX Hbcr Hnr Hzero.
  destruct (irq_ack_payload_run bw n rxs ww) as (ww' & Hrun & Hat); try done.
  destruct Hat as (_ & _ & _ & _ & Hh).
  set (d := mem ww (data (sm_of bw ww))) in *.
  destruct (irq_rxdatav_run br (tx_bytes d n) wr) as (wr' & Hrunr & Hval & _);
    [done|done|done|by rewrite tx_bytes_length|apply tx_bytes_are_bytes|
     rewrite Hzero; by vm_compute|].
  exists (tx_bytes d n), ww', wr'.
  split; [done|]. split; [done|]. split; [apply tx_bytes_length|]. split; [done|].
  rewrite Hval, Hzero. fold (be_value (tx_bytes d n)). rewrite be_value_tx_bytes.
  apply wrap32_small. unfold is_uint32.
  assert (0 < 2 ^ (8 * Z.of_nat n)) by (apply Z.pow_pos_nonneg; lia).
  pose proof (Z.mod_pos_bound d (2 ^ (8 * Z.of_nat n)) ltac:(lia)).
  assert (2 ^ (8 * Z.of_nat n) <= 2 ^ 32) by (apply Z.pow_le_mono_r; lia).
  lia.
Qed.

Lemma i2c_write_read_round_trip_witness :
  let ww := after_run [L_start (write_request false 64 230 1 3 0 100) true;
                       L_irq false irq_ACK 0; L_irq false irq_ACK 0]
              (world_open (word_at_100 11259375)) in
  let wr := after_run [L_start (read_request true 64 231 1 2 0 200) true;
                       L_irq true irq_ACK 0; L_irq true irq_ACK 0;
                       L_irq true irq_ACK 0]
              (world_open (word_at_100 0)) in
  exists bs ww' wr',
    run (L_irq false irq_ACK <$> [0; 0]) ww = Some ww' /\
    history ww' = history ww ++ (EvTXDATA false <$> bs) /\
    length bs = 2%nat /\
    run (L_irq true irq_RXDATAV <$> bs) wr = Some wr' /\
    mem wr' (data (sm_of true wr)) =
      mem ww (data (sm_of false ww)) mod 2 ^ (8 * Z.of_nat 2).
Proof.
  apply (i2c_write_read_round_trip false true 2 [0; 0]);
    try (vm_compute; reflexivity); try lia.
  - vm_compute. split; [discriminate|reflexivity].
  - vm_compute. discriminate.
Defined.

(** ** The SI7021 driver *)

Lemma store_eq (p v : Z) (w : world) :
  store p v w = Ret tt (set_mem (<[p := v]> (mem w)) w).
Proof. reflexivity. Qed.

(** The common shape of the two measurement reads of the SI7021. *)
Lemma si7021_read_run (cmd var cb c b1 b2 rx1 rx2 rx3 : Z) (w : world) :
  let s := {| ss_which_i2c := SI7021_WHICH_I2C; ss_comm_method := I2C_READ;
              ss_device_address := SI7021_DEVICE_ADDR;
              ss_register_address := cmd; ss_num_bytes := 2;
              ss_finished_callback := cb; ss_data := var;
              ss_num_register_bytes := 1 |} in
  busy (sm_of false w) = false ->
  STATE_IDLE (I2C0 w) = true ->
  IF (I2C0 w) = irq_none ->
  IEN (I2C0 w) = irq_all ->
  lowest_energy_mode w !! Z.to_nat I2C_EM = Some c ->
  c < 4 ->
  is_byte b1 -> is_byte b2 ->
  exists w0 w1,
    (do_ store var 0; i2c_start s) w = Ret tt w0 /\
    run [L_irq false irq_ACK rx1; L_irq false irq_ACK rx2; L_irq false irq_ACK rx3;
         L_irq false irq_RXDATAV b1; L_irq false irq_RXDATAV b2] w0 = Some w1 /\
    history w1 =
      history w ++ start_events s
        ++ [EvTXDATA false (tx_byte cmd 1); EvCMD false I2C_CMD_START;
            EvTXDATA false 129;
            EvCMD false I2C_CMD_ACK; EvCMD false I2C_CMD_ACK] /\
    mem w1 var = b1 * 256 + b2 /\
    (forall a, a <> var -> mem w1 a = mem w a).
Proof.
  intros s Hb Hidle HIF HEN Hc Hc4 Hb1 Hb2.
  unfold bind at 1. rewrite store_eq.
  destruct (i2c_start_runs s c (set_mem (<[var := 0]> (mem w)) w))
    as (w0 & Hrun0 & Hsm0 & _ & H0 & _ & Hm0 & _ & _ & Hh0);
    [done|done|done|done|].
  cbn in H0, Hm0, Hh0.
  destruct (read_run s 1 [rx1; rx2; rx3] [b1; b2] w0) as
    (w1 & w2 & Hrun1 & Hat1 & Hrun2 & _ & Hval & Hoth & _ & _ & Hh2);
    [done|done|done|done|
     cbn; unfold periph_of; by rewrite H0|
     cbn; unfold periph_of; by rewrite H0, HEN|
     cbn; unfold periph_of; by rewrite H0, HEN|
     lia|done|
     by apply Forall_cons_2; [|apply Forall_cons_2; [|apply Forall_nil_2] ]|
     cbn; lia|
     rewrite Hm0; cbn; rewrite fn_lookup_insert; by vm_compute|].
  destruct Hat1 as (_ & _ & _ & _ & Hh1).
  cbn [s ss_which_i2c ss_data ss_register_address ss_device_address] in *.
  exists w0, w2.
  split; [exact Hrun0|].
  split.
  { change [L_irq false irq_ACK rx1; L_irq false irq_ACK rx2; L_irq false irq_ACK rx3;
            L_irq false irq_RXDATAV b1; L_irq false irq_RXDATAV b2]
      with ((L_irq false irq_ACK <$> [rx1; rx2; rx3])
              ++ (L_irq false irq_RXDATAV <$> [b1; b2])).
    by rewrite (run_app _ _ _ _ Hrun1). }
  split.
  { rewrite Hh2, Hh1, Hh0, <- !app_assoc. reflexivity. }
  split.
  { rewrite Hval, Hm0, fn_lookup_insert. cbn.
    apply wrap32_small. unfold is_byte, is_uint32 in *. lia. }
  intros a Ha. rewrite Hoth, Hm0 by done. by rewrite fn_lookup_insert_ne.
Qed.

(** X17. The two measurement reads of the SI7021, with the interrupts of a
    transaction that delivers the bytes [b1] and [b2]: the driver clears
    its static before it starts the read, so whatever the static held
    from an earlier measurement, it ends as [b1 * 256 + b2], the 16-bit
    value the conversion functions expect; no other word changes.  On the
    bus: START, the write address 0x80, the measurement command, the
    repeated START, the read address 0x81, and an ACK for each byte. *)
Theorem si7021_reads_deliver_16_bit_value
    (hum_bytes temp_bytes cb c b1 b2 rx1 rx2 rx3 : Z) (w : world) :
  busy (sm_of false w) = false ->
  STATE_IDLE (I2C0 w) = true ->
  IF (I2C0 w) = irq_none ->
  IEN (I2C0 w) = irq_all ->
  lowest_energy_mode w !! Z.to_nat I2C_EM = Some c ->
  c < 4 ->
  is_byte b1 -> is_byte b2 ->
  let irqs := [L_irq false irq_ACK rx1; L_irq false irq_ACK rx2;
               L_irq false irq_ACK rx3;
               L_irq false irq_RXDATAV b1; L_irq false irq_RXDATAV b2] in
  let on_bus cmd :=
    [EvBlock I2C_EM; EvBusy false true; EvCMD false I2C_CMD_START;
     EvTXDATA false 128; EvTXDATA false cmd; EvCMD false I2C_CMD_START;
     EvTXDATA false 129; EvCMD false I2C_CMD_ACK; EvCMD false I2C_CMD_ACK] in
  (exists w0 w1,
     si7021_read_humidity hum_bytes cb w = Ret tt w0 /\
     run irqs w0 = Some w1 /\
     history w1 = history w ++ on_bus SI7021_HUM_CMD /\
     mem w1 hum_bytes = b1 * 256 + b2 /\
     (forall a, a <> hum_bytes -> mem w1 a = mem w a)) /\
  (exists w0 w1,
     si7021_read_temp temp_bytes cb w = Ret tt w0 /\
     run irqs w0 = Some w1 /\
     history w1 = history w ++ on_bus SI7021_TEMP_CMD /\
     mem w1 temp_bytes = b1 * 256 + b2 /\
     (forall a, a <> temp_bytes -> mem w1 a = mem w a)).
Proof.
  intros Hb Hidle HIF HEN Hc Hc4 Hb1 Hb2 irqs on_bus. split.
  - exact (si7021_read_run SI7021_HUM_CMD hum_bytes cb c b1 b2 rx1 rx2 rx3 w
             Hb Hidle HIF HEN Hc Hc4 Hb1 Hb2).
  - exact (si7021_read_run SI7021_TEMP_CMD temp_bytes cb c b1 b2 rx1 rx2 rx3 w
             Hb Hidle HIF HEN Hc Hc4 Hb1 Hb2).
Qed.

Lemma si7021_reads_deliver_16_bit_value_witness :
  let w := world_open (word_at_100 48879) in
  let irqs := [L_irq false irq_ACK 0; L_irq false irq_ACK 0;
               L_irq false irq_ACK 0;
               L_irq false irq_RXDATAV 86; L_irq false irq_RXDATAV 120] in
  let on_bus cmd :=
    [EvBlock I2C_EM; EvBusy false true; EvCMD false I2C_CMD_START;
     EvTXDATA false 128; EvTXDATA false cmd; EvCMD false I2C_CMD_START;
     EvTXDATA false 129; EvCMD false I2C_CMD_ACK; EvCMD false I2C_CMD_ACK] in
  (exists w0 w1,
     si7021_read_humidity 100 32 w = Ret tt w0 /\
     run irqs w0 = Some w1 /\
     history w1 = history w ++ on_bus SI7021_HUM_CMD /\
     mem w1 100 = 86 * 256 + 120 /\
     (forall a, a <> 100 -> mem w1 a = mem w a)) /\
  (exists w0 w1,
     si7021_read_temp 100 32 w = Ret tt w0 /\
     run irqs w0 = Some w1 /\
     history w1 = history w ++ on_bus SI7021_TEMP_CMD /\
     mem w1 100 = 86 * 256 + 120 /\
     (forall a, a <> 100 -> mem w1 a = mem w a)).
Proof.
  apply (si7021_reads_deliver_16_bit_value 100 100 32 0 86 120 0 0 0
           (world_open (word_at_100 48879)));
    try (vm_compute; reflexivity); try lia; unfold is_byte; lia.
Defined.

(** ** The SHTC3 driver *)

(** X18. [parse_data] takes six bytes out of a four-byte word: its loop shifts
    the 32-bit static by [8 * i] for [i] up to 5, and the shift by 32 at
    [i = 4] has no defined result in C.  Whatever the word holds, the
    function does not get to a result. *)
Theorem parse_data_shifts_by_word_width (output_bytes : Z) (w : world) :
  parse_data output_bytes w = Undef.
Proof. reflexivity. Qed.

(** ** The button callbacks *)

Lemma five_cases (em : Z) :
  0 <= em < MAX_ENERGY_MODES -> em = 0 \/ em = 1 \/ em = 2 \/ em = 3 \/ em = 4.
Proof. unfold MAX_ENERGY_MODES. lia. Qed.

Ltac scan_first c :=
  repeat first
    [ progress index_cbn
    | match goal with
      | |- context [0 <? c] => destruct (Z.ltb_spec 0 c); [|lia]
      end ];
  reflexivity.

Lemma current_block_first_blocked (em c : Z) (w : world) :
  length (lowest_energy_mode w) = Z.to_nat MAX_ENERGY_MODES ->
  0 <= em < MAX_ENERGY_MODES ->
  first_blocked (lowest_energy_mode w) em c ->
  current_block_energy_mode w = Ret em w.
Proof.
  intros Hlen Hem (Hc & Hpos & Hzero).
  destruct w as [es l s0 s1 p0 p1 m h]. cbn in Hlen, Hc, Hzero |- *.
  destruct l as [|a0 [|a1 [|a2 [|a3 [|a4 [|]]]]]]; try discriminate.
  unfold current_block_energy_mode.
  change (seqZ 0 MAX_ENERGY_MODES) with [0; 1; 2; 3; 4].
  unfold EM4, foldM, lem_read, ret, bind.
  destruct (five_cases em Hem) as [-> | [-> | [-> | [-> | ->] ] ] ].
  - cbn in Hc. injection Hc as ->. scan_first c.
  - pose proof (Hzero 0 ltac:(lia)) as Hz0.
    cbn in Hc, Hz0. injection Hc as ->. injection Hz0 as ->. scan_first c.
  - pose proof (Hzero 0 ltac:(lia)) as Hz0. pose proof (Hzero 1 ltac:(lia)) as Hz1.
    cbn in Hc, Hz0, Hz1. injection Hc as ->. injection Hz0 as ->.
    injection Hz1 as ->. scan_first c.
  - pose proof (Hzero 0 ltac:(lia)) as Hz0. pose proof (Hzero 1 ltac:(lia)) as Hz1.
    pose proof (Hzero 2 ltac:(lia)) as Hz2.
    cbn in Hc, Hz0, Hz1, Hz2. injection Hc as ->. injection Hz0 as ->.
    injection Hz1 as ->. injection Hz2 as ->. scan_first c.
  - pose proof (Hzero 0 ltac:(lia)) as Hz0. pose proof (Hzero 1 ltac:(lia)) as Hz1.
    pose proof (Hzero 2 ltac:(lia)) as Hz2. pose proof (Hzero 3 ltac:(lia)) as Hz3.
    cbn in Hc, Hz0, Hz1, Hz2, Hz3. injection Hc as ->. injection Hz0 as ->.
    injection Hz1 as ->. injection Hz2 as ->. injection Hz3 as ->. scan_first c.
Qed.

Lemma next_mode_range (em : Z) :
  0 <= em < MAX_ENERGY_MODES ->
  0 <= next_mode em < MAX_ENERGY_MODES /\ next_mode em <> em.
Proof.
  unfold next_mode, MAX_ENERGY_MODES, EM4, EM0.
  destruct (Z.ltb_spec em 4); lia.
Qed.

Lemma prev_mode_range (em : Z) :
  0 <= em < MAX_ENERGY_MODES ->
  0 <= prev_mode em < MAX_ENERGY_MODES /\ prev_mode em <> em.
Proof.
  unfold prev_mode, MAX_ENERGY_MODES, EM4, EM0.
  destruct (Z.ltb_spec 0 em); lia.
Qed.

(** The mode a button callback blocks. *)
Lemma odd_block_branch (em : Z) :
  0 <= em < MAX_ENERGY_MODES ->
  (if em <? EM4 then sleep_block_mode (wrap32 (em + 1)) else sleep_block_mode EM0)
  = sleep_block_mode (next_mode em).
Proof.
  intros Hem. unfold next_mode, MAX_ENERGY_MODES, EM4 in *.
  destruct (Z.ltb_spec em 4); [|done].
  rewrite wrap32_small; [done|]. unfold is_uint32. lia.
Qed.

Lemma even_block_branch (em : Z) :
  0 <= em < MAX_ENERGY_MODES ->
  (if EM0 <? em then sleep_block_mode (wrap32 (em - 1)) else sleep_block_mode EM4)
  = sleep_block_mode (prev_mode em).
Proof.
  intros Hem. unfold prev_mode, MAX_ENERGY_MODES, EM0 in *.
  destruct (Z.ltb_spec 0 em); [|done].
  rewrite wrap32_small; [done|]. unfold is_uint32. lia.
Qed.

(** Moving one block from [i] to [j] in the table, as both callbacks do. *)
Lemma move_block (i j c d : Z) (w : world) :
  0 <= i -> 0 <= j -> i <> j ->
  lowest_energy_mode w !! Z.to_nat i = Some c -> 0 < c -> c <= 4 ->
  lowest_energy_mode w !! Z.to_nat j = Some d -> 0 <= d < 4 ->
  (do_ sleep_unblock_mode i; sleep_block_mode j) w =
  Ret tt (counted (EvBlock j) j (d + 1) (counted (EvUnblock i) i (c - 1) w)).
Proof.
  intros Hi Hj Hne Hc Hc0 Hc4 Hd Hd4.
  unfold bind. rewrite (sleep_unblock_mode_eq i c) by (done || unfold INT_MIN; lia).
  destruct (Z.leb_spec 0 (c - 1)); [|lia].
  rewrite (sleep_block_mode_eq j d); [| done | | unfold INT_MAX; lia].
  - destruct (Z.ltb_spec (d + 1) 5); [done|lia].
  - cbn. rewrite list_lookup_insert_ne; [done|]. lia.
Qed.

Lemma total_blocks_insert (l : list Z) (i : nat) (c v : Z) :
  l !! i = Some c -> total_blocks (<[i := v]> l) = total_blocks l - c + v.
Proof.
  unfold total_blocks.
  revert i. induction l as [|x l IH]; intros [|i] H; try discriminate.
  - cbn in *. injection H as ->. lia.
  - cbn in H.
    change (foldr Z.add 0 (<[S i:=v]> (x :: l)))
      with (x + foldr Z.add 0 (<[i:=v]> l)).
    change (foldr Z.add 0 (x :: l)) with (x + foldr Z.add 0 l).
    rewrite (IH i H). lia.
Qed.

(** What the odd-button callback does when some mode is blocked. *)
Lemma gpio_odd_run (em c d : Z) (w : world) :
  bounded (lowest_energy_mode w) ->
  0 <= em < MAX_ENERGY_MODES ->
  first_blocked (lowest_energy_mode w) em c ->
  lowest_energy_mode w !! Z.to_nat (next_mode em) = Some d ->
  d < 4 ->
  Z.land (event_scheduled w) GPIO_ODD_IRQ_CB = 0 ->
  scheduled_gpio_odd_irq_cb w =
  Ret tt (counted (EvBlock (next_mode em)) (next_mode em) (d + 1)
            (counted (EvUnblock em) em (c - 1) w)).
Proof.
  intros [Hlen Hall] Hem Hfb Hd Hd4 Hev.
  pose proof (current_block_first_blocked em c w Hlen Hem Hfb) as Hcur.
  destruct Hfb as (Hc & Hpos & _).
  destruct (next_mode_range em Hem) as [Hnr Hne].
  rewrite Forall_lookup in Hall.
  pose proof (Hall _ _ Hc) as Hcb. pose proof (Hall _ _ Hd) as Hdb. cbn in Hcb, Hdb.
  assert (Hmove := move_block em (next_mode em) c d w
            ltac:(lia) ltac:(lia) ltac:(lia) Hc Hpos ltac:(lia) Hd ltac:(lia)).
  unfold bind in Hmove.
  unfold scheduled_gpio_odd_irq_cb, bind. rewrite Hcur.
  destruct (sleep_unblock_mode em w) as [u w1| | |]; try discriminate.
  rewrite odd_block_branch by done. rewrite Hmove.
  unfold get_scheduled_events, get, ret, bind, EFM_ASSERT. cbn.
  rewrite Hev. reflexivity.
Qed.

Lemma gpio_even_run (em c d : Z) (w : world) :
  bounded (lowest_energy_mode w) ->
  0 <= em < MAX_ENERGY_MODES ->
  first_blocked (lowest_energy_mode w) em c ->
  lowest_energy_mode w !! Z.to_nat (prev_mode em) = Some d ->
  d < 4 ->
  Z.land (event_scheduled w) GPIO_EVEN_IRQ_CB = 0 ->
  scheduled_gpio_even_irq_cb w =
  Ret tt (counted (EvBlock (prev_mode em)) (prev_mode em) (d + 1)
            (counted (EvUnblock em) em (c - 1) w)).
Proof.
  intros [Hlen Hall] Hem Hfb Hd Hd4 Hev.
  pose proof (current_block_first_blocked em c w Hlen Hem Hfb) as Hcur.
  destruct Hfb as (Hc & Hpos & _).
  destruct (prev_mode_range em Hem) as [Hnr Hne].
  rewrite Forall_lookup in Hall.
  pose proof (Hall _ _ Hc) as Hcb. pose proof (Hall _ _ Hd) as Hdb. cbn in Hcb, Hdb.
  assert (Hmove := move_block em (prev_mode em) c d w
            ltac:(lia) ltac:(lia) ltac:(lia) Hc Hpos ltac:(lia) Hd ltac:(lia)).
  unfold bind in Hmove.
  unfold scheduled_gpio_even_irq_cb, bind. rewrite Hcur.
  destruct (sleep_unblock_mode em w) as [u w1| | |]; try discriminate.
  rewrite even_block_branch by done. rewrite Hmove.
  unfold get_scheduled_events, get, ret, bind, EFM_ASSERT. cbn.
  rewrite Hev. reflexivity.
Qed.

(** X19. Each button callback moves one block: with [em] the first blocked
    mode, holding [c] blocks, and fewer than four blocks on the mode it
    moves to, the odd-button callback returns with one block less on [em]
    and one more on the next mode (EM0 after EM4), the even-button
    callback with one more on the mode before (EM4 before EM0); the
    number of blocks in the table and the pending events stay the same. *)
Theorem gpio_callbacks_move_one_block (em c d : Z) (w : world) :
  bounded (lowest_energy_mode w) ->
  0 <= em < MAX_ENERGY_MODES ->
  first_blocked (lowest_energy_mode w) em c ->
  (lowest_energy_mode w !! Z.to_nat (next_mode em) = Some d ->
   d < 4 ->
   Z.land (event_scheduled w) GPIO_ODD_IRQ_CB = 0 ->
   exists w',
     scheduled_gpio_odd_irq_cb w = Ret tt w' /\
     lowest_energy_mode w' =
       <[Z.to_nat (next_mode em) := d + 1]>
         (<[Z.to_nat em := c - 1]> (lowest_energy_mode w)) /\
     total_blocks (lowest_energy_mode w') = total_blocks (lowest_energy_mode w) /\
     event_scheduled w' = event_scheduled w /\
     history w' = history w ++ [EvUnblock em; EvBlock (next_mode em)]) /\
  (lowest_energy_mode w !! Z.to_nat (prev_mode em) = Some d ->
   d < 4 ->
   Z.land (event_scheduled w) GPIO_EVEN_IRQ_CB = 0 ->
   exists w',
     scheduled_gpio_even_irq_cb w = Ret tt w' /\
     lowest_energy_mode w' =
       <[Z.to_nat (prev_mode em) := d + 1]>
         (<[Z.to_nat em := c - 1]> (lowest_energy_mode w)) /\
     total_blocks (lowest_energy_mode w') = total_blocks (lowest_energy_mode w) /\
     event_scheduled w' = event_scheduled w /\
     history w' = history w ++ [EvUnblock em; EvBlock (prev_mode em)]).
Proof.
  intros Hb Hem Hfb.
  pose proof Hfb as (Hc & _ & _).
  destruct (next_mode_range em Hem) as [Hnr Hn].
  destruct (prev_mode_range em Hem) as [Hpr Hp].
  split; intros Hd Hd4 Hev.
  - eexists. split; [by apply (gpio_odd_run em c d)|].
    split; [reflexivity|]. split; [|split; [reflexivity|] ].
    + cbn. rewrite (total_blocks_insert _ _ d), (total_blocks_insert _ _ c) by
        (done || (rewrite list_lookup_insert_ne; [done|lia])).
      lia.
    + cbn. by rewrite <- app_assoc.
  - eexists. split; [by apply (gpio_even_run em c d)|].
    split; [reflexivity|]. split; [|split; [reflexivity|] ].
    + cbn. rewrite (total_blocks_insert _ _ d), (total_blocks_insert _ _ c) by
        (done || (rewrite list_lookup_insert_ne; [done|lia])).
      lia.
    + cbn. by rewrite <- app_assoc.
Qed.

Lemma bounded_example : bounded [0; 0; 1; 0; 2].
Proof.
  split; [reflexivity|].
  repeat (apply Forall_cons_2; [lia|]). apply Forall_nil_2.
Qed.

Lemma first_blocked_example : first_blocked [0; 0; 1; 0; 2] 2 1.
Proof.
  split; [reflexivity|]. split; [lia|].
  intros j Hj. assert (Hc : j = 0 \/ j = 1) by lia.
  destruct Hc as [-> | ->]; reflexivity.
Qed.

Lemma gpio_callbacks_move_one_block_witness :
  let w := set_lowest_energy_mode [0; 0; 1; 0; 2] (world_open (word_at_100 0)) in
  (exists w',
     scheduled_gpio_odd_irq_cb w = Ret tt w' /\
     lowest_energy_mode w' =
       <[Z.to_nat (next_mode 2) := 0 + 1]>
         (<[Z.to_nat 2 := 1 - 1]> (lowest_energy_mode w)) /\
     total_blocks (lowest_energy_mode w') = total_blocks (lowest_energy_mode w) /\
     event_scheduled w' = event_scheduled w /\
     history w' = history w ++ [EvUnblock 2; EvBlock (next_mode 2)]) /\
  (exists w',
     scheduled_gpio_even_irq_cb w = Ret tt w' /\
     lowest_energy_mode w' =
       <[Z.to_nat (prev_mode 2) := 0 + 1]>
         (<[Z.to_nat 2 := 1 - 1]> (lowest_energy_mode w)) /\
     total_blocks (lowest_energy_mode w') = total_blocks (lowest_energy_mode w) /\
     event_scheduled w' = event_scheduled w /\
     history w' = history w ++ [EvUnblock 2; EvBlock (prev_mode 2)]).
Proof.
  intros w.
  destruct (gpio_callbacks_move_one_block 2 1 0 w) as [H1 H2].
  - exact bounded_example.
  - unfold MAX_ENERGY_MODES. lia.
  - exact first_blocked_example.
  - split.
    + apply H1; [reflexivity|lia|reflexivity].
    + apply H2; [reflexivity|lia|reflexivity].
Defined.

Lemma bounded_insert (l : list Z) (i : nat) (v : Z) :
  bounded l -> 0 <= v <= 4 -> bounded (<[i := v]> l).
Proof.
  intros [Hlen Hall] Hv. split; [by rewrite length_insert|].
  by apply Forall_insert.
Qed.

(** X20. The even-button callback undoes the odd-button callback when the
    first blocked mode held a single block, or was EM4: the table is as
    before. *)
Theorem gpio_even_undoes_odd (em c d : Z) (w : world) :
  bounded (lowest_energy_mode w) ->
  0 <= em < MAX_ENERGY_MODES ->
  first_blocked (lowest_energy_mode w) em c ->
  c = 1 \/ em = EM4 ->
  lowest_energy_mode w !! Z.to_nat (next_mode em) = Some d ->
  d < 4 ->
  Z.land (event_scheduled w) GPIO_ODD_IRQ_CB = 0 ->
  Z.land (event_scheduled w) GPIO_EVEN_IRQ_CB = 0 ->
  exists w1 w2,
    scheduled_gpio_odd_irq_cb w = Ret tt w1 /\
    scheduled_gpio_even_irq_cb w1 = Ret tt w2 /\
    lowest_energy_mode w2 = lowest_energy_mode w /\
    history w2 = history w ++ [EvUnblock em; EvBlock (next_mode em);
                               EvUnblock (next_mode em); EvBlock em].
Proof.
  intros Hb Hem Hfb Hcase Hd Hd4 Hodd Heven.
  pose proof Hfb as (Hc & Hpos & Hzero).
  destruct (next_mode_range em Hem) as [Hnr Hne].
  pose proof Hb as [Hlen Hall]. rewrite Forall_lookup in Hall.
  pose proof (Hall _ _ Hc) as Hcb. pose proof (Hall _ _ Hd) as Hdb. cbn in Hcb, Hdb.
  pose proof (lookup_lt_Some _ _ _ Hc) as Hlc.
  pose proof (lookup_lt_Some _ _ _ Hd) as Hld.
  set (w1 := counted (EvBlock (next_mode em)) (next_mode em) (d + 1)
               (counted (EvUnblock em) em (c - 1) w)).
  assert (Hprev : prev_mode (next_mode em) = em).
  { unfold prev_mode, next_mode, MAX_ENERGY_MODES, EM4, EM0 in *.
    destruct (Z.ltb_spec em 4).
    - destruct (Z.ltb_spec 0 (em + 1)); lia.
    - cbn. lia. }
  assert (Hfb1 : first_blocked (lowest_energy_mode w1) (next_mode em) (d + 1)).
  { split; [|split; [lia|] ].
    - cbn. apply list_lookup_insert_eq. by rewrite length_insert.
    - intros j Hj. cbn.
      rewrite list_lookup_insert_ne by lia.
      unfold next_mode, MAX_ENERGY_MODES, EM4, EM0 in *.
      destruct (Z.ltb_spec em 4); [|lia].
      destruct (decide (j = em)) as [->|Hje].
      + destruct Hcase as [->|?]; [|lia].
        by rewrite list_lookup_insert_eq.
      + rewrite list_lookup_insert_ne by lia. apply Hzero. lia. }
  assert (Hb1 : bounded (lowest_energy_mode w1)).
  { cbn. apply bounded_insert; [apply bounded_insert; [done|lia]|lia]. }
  assert (Hd1 : lowest_energy_mode w1 !! Z.to_nat (prev_mode (next_mode em))
                = Some (c - 1)).
  { rewrite Hprev. cbn. rewrite list_lookup_insert_ne by lia.
    by apply list_lookup_insert_eq. }
  exists w1, (counted (EvBlock (prev_mode (next_mode em))) (prev_mode (next_mode em))
                (c - 1 + 1)
                (counted (EvUnblock (next_mode em)) (next_mode em) (d + 1 - 1) w1)).
  split; [by apply (gpio_odd_run em c d)|].
  split; [apply (gpio_even_run (next_mode em) (d + 1) (c - 1)); (done || lia)|].
  split.
  - rewrite Hprev. cbn.
    rewrite list_insert_insert_eq.
    rewrite list_insert_insert_ne by lia.
    rewrite list_insert_insert_eq.
    replace (c - 1 + 1) with c by lia. replace (d + 1 - 1) with d by lia.
    rewrite (list_insert_id _ _ _ Hc).
    by apply list_insert_id.
  - rewrite Hprev. cbn. by rewrite <- !app_assoc.
Qed.

Lemma gpio_even_undoes_odd_witness :
  let w := set_lowest_energy_mode [0; 0; 1; 0; 2] (world_open (word_at_100 0)) in
  exists w1 w2,
    scheduled_gpio_odd_irq_cb w = Ret tt w1 /\
    scheduled_gpio_even_irq_cb w1 = Ret tt w2 /\
    lowest_energy_mode w2 = lowest_energy_mode w /\
    history w2 = history w ++ [EvUnblock 2; EvBlock (next_mode 2);
                               EvUnblock (next_mode 2); EvBlock 2].
Proof.
  intros w.
  apply (gpio_even_undoes_odd 2 1 0 w).
  - exact bounded_example.
  - unfold MAX_ENERGY_MODES. lia.
  - exact first_blocked_example.
  - by left.
  - reflexivity.
  - lia.
  - reflexivity.
  - reflexivity.
Defined.

(** X21. With no block at all, [current_block_energy_mode] answers EM4 and
    both button callbacks take a block from EM4 that is not there: they
    halt in the assertion of [sleep_unblock_mode] with that counter at
    [-1], before any mode is blocked. *)
Theorem gpio_callbacks_halt_without_block (w : world) :
  lowest_energy_mode w = [0; 0; 0; 0; 0] ->
  scheduled_gpio_odd_irq_cb w = Halt (counted (EvUnblock EM4) EM4 (-1) w) /\
  scheduled_gpio_even_irq_cb w = Halt (counted (EvUnblock EM4) EM4 (-1) w).
Proof.
  intros H. destruct w as [es l s0 s1 p0 p1 m h]. cbn in H. subst l.
  split; reflexivity.
Qed.

Lemma gpio_callbacks_halt_without_block_witness :
  let w := world_open (word_at_100 0) in
  scheduled_gpio_odd_irq_cb w = Halt (counted (EvUnblock EM4) EM4 (-1) w) /\
  scheduled_gpio_even_irq_cb w = Halt (counted (EvUnblock EM4) EM4 (-1) w).
Proof.
  intros w. apply (gpio_callbacks_halt_without_block w). reflexivity.
Defined.
